(** * fastapi-metrics-app: instrumentation and pool lifecycle

    A shallow embedding of the request middleware
    ([app/middleware/metrics_middleware.py]), the database layer
    ([app/database.py]), the route handlers and the validator of the item
    schema ([app/routers/api.py]), the lifecycle hooks ([app/main.py]) and
    the CPU sampler ([app/metrics/system_metrics.py]), with the properties
    the specification states about them and further properties of the
    code.

    Strings are sequences of code points below 256; clock readings and
    durations are integers (ticks of the clock that was read); everything the
    program does to the outside (log records, sleeps, driver calls, metric
    updates, task operations) is appended to a trace. *)

From Stdlib Require Import List String Ascii ZArith Bool Arith Lia.
Import ListNotations.
Local Open Scope string_scope.
Local Open Scope list_scope.

Set Implicit Arguments.

(* ===================================================================== *)
(** ** Python strings *)
(* ===================================================================== *)

Module Py.

(** [str.isspace] on one code point below 256: U+0009..U+000D,
    U+001C..U+0020, U+0085 and U+00A0. *)
Definition isspace (c : ascii) : bool :=
  let n := nat_of_ascii c in
  (((9 <=? n) && (n <=? 13)) || ((28 <=? n) && (n <=? 32))
   || (n =? 133) || (n =? 160))%nat.

(** [str.lower] on one code point below 256: A..Z and the Latin-1 capitals
    U+00C0..U+00DE (the multiplication sign U+00D7 apart) move up by 32. *)
Definition lower_char (c : ascii) : ascii :=
  let n := nat_of_ascii c in
  if (((65 <=? n) && (n <=? 90))
      || ((192 <=? n) && (n <=? 222) && negb (n =? 215)))%nat
  then ascii_of_nat (n + 32) else c.

Fixpoint lower (s : string) : string :=
  match s with
  | EmptyString => EmptyString
  | String c s' => String (lower_char c) (lower s')
  end.

Definition is_empty (s : string) : bool :=
  match s with EmptyString => true | String _ _ => false end.

(** [s.split()] with no separator: runs of whitespace separate the words,
    leading and trailing whitespace yields no empty word.  [word] is the
    word being read. *)
Fixpoint split_from (s : string) (word : string) : list string :=
  match s with
  | EmptyString => if is_empty word then [] else [word]
  | String c s' =>
      if isspace c
      then if is_empty word then split_from s' EmptyString
           else word :: split_from s' EmptyString
      else split_from s' (word ++ String c EmptyString)
  end.

Definition split (s : string) : list string := split_from s EmptyString.

(** [sorted] on a list of strings (order of code points). *)
Fixpoint insert_sorted (x : string) (l : list string) : list string :=
  match l with
  | [] => [x]
  | y :: l' => if String.leb x y then x :: l else y :: insert_sorted x l'
  end.

Definition sorted (l : list string) : list string :=
  fold_right insert_sorted [] l.

Definition list_eqb (a b : list string) : bool :=
  if list_eq_dec string_dec a b then true else false.

End Py.

(** The words a reader of the specification would use for the leading SQL
    verb: skip the leading whitespace, read up to the next whitespace. *)
Fixpoint skip_space (s : string) : string :=
  match s with
  | EmptyString => EmptyString
  | String c s' => if Py.isspace c then skip_space s' else s
  end.

Fixpoint read_word (s : string) : string :=
  match s with
  | EmptyString => EmptyString
  | String c s' => if Py.isspace c then EmptyString else String c (read_word s')
  end.

Definition first_token (s : string) : string := read_word (skip_space s).

(** A string is blank when it is empty or holds whitespace only. *)
Definition blank (s : string) : bool := Py.is_empty (skip_space s).

(* ===================================================================== *)
(** ** Values, exceptions and the outside world *)
(* ===================================================================== *)

(** The exceptions that occur.  [DriverError] stands for whatever asyncpg or
    the operating system raises (all of them subclasses of [Exception]); the
    detail text of an [HTTPException] is not kept. *)
Inductive Exc :=
| NameError (name : string)
| RuntimeError (msg : string)
| ValueError (msg : string)
| IndexError (msg : string)
| KeyError (key : string)
| ValidationError
| HTTPException (status_code : Z)
| CancelledError
| DriverError (code : nat).

(** [isinstance(e, Exception)]: [asyncio.CancelledError] derives from
    [BaseException] only. *)
Definition is_Exception (e : Exc) : bool :=
  match e with CancelledError => false | _ => true end.

Definition is_HTTPException (e : Exc) : bool :=
  match e with HTTPException _ => true | _ => false end.

Definition is_CancelledError (e : Exc) : bool :=
  match e with CancelledError => true | _ => false end.

Inductive Result (A : Type) :=
| Ok (a : A)
| Raise (e : Exc).
Arguments Ok {A} a.
Arguments Raise {A} e.

Inductive Level := INFO | WARNING | ERROR | CRITICAL.

(** The metric objects of [app.metrics]. *)
Inductive Metric :=
| http_requests_total
| http_request_duration_seconds
| db_query_duration_seconds
| db_operations_total
| db_connections_active
| process_cpu_percentage.

Inductive LabelValue :=
| LStr (s : string)
| LInt (n : Z).

Definition Labels := list (string * LabelValue).

Inductive Val :=
| VNone
| VInt (n : Z)
| VStr (s : string)
| VTime (t : Z).

(** A row of a result set ([asyncpg.Record], and the [dict] made of it). *)
Definition Row := list (string * Val).

(** The keyword arguments of [asyncpg.create_pool] ([server_settings] is a
    constant of the source and left out). *)
Record PoolConfig := mkPoolConfig {
  host : string;
  port : Z;
  database : string;
  user : string;
  password : string;
  min_size : Z;
  max_size : Z;
  max_queries : Z;
  max_inactive_connection_lifetime : Z;
  command_timeout : Z
}.

(** A pool object: asyncpg allocates [max_size] holders when the pool is
    built, so [len(pool._holders)] is that number for the pool's life. *)
Record Pool := mkPool {
  pool_id : nat;
  holders : Z
}.

Inductive PoolOp := Fetch | Fetchrow | Execute.

(** What the database answers to one pool operation: [pool.fetch] returns
    the rows, [pool.fetchrow] the first of them or [None], [pool.execute] the
    status text; [failure] is the code of the error raised instead. *)
Record Reply := mkReply {
  failure : option nat;
  rows : list Row;
  status : string
}.

Inductive TaskState :=
| Running
| Cancelled
| Crashed (e : Exc).

Inductive Event :=
| ELog (level : Level)
| ESleep (seconds : Z)
| ECreatePool (cfg : PoolConfig)
| EPoolOpened (p : Pool)
| EProbe (p : Pool)
| EPoolClose (p : Pool)
| EQuery (p : Pool) (op : PoolOp) (query : string) (args : list Val)
| EInc (m : Metric) (kw : Labels)
| EObserve (m : Metric) (kw : Labels) (value : Z)
| ESet (m : Metric) (value : Z)
| ECreateTask (task : nat)
| ECancel (task : nat)
| EAwait (task : nat).

(** The mutable state of the process: the two module-level variables the
    source assigns ([app.database.pool], [app.main._background_tasks]), the
    task objects, the trace, and how many times each outside party was
    asked so far. *)
Record World := mkWorld {
  pool : option Pool;
  _background_tasks : list nat;
  tasks : list TaskState;
  trace : list Event;
  clock_reads : nat;
  pools_requested : nat;
  db_requests : nat
}.

Inductive PyModule := Database | Main | Middleware | Api.

(** The names each module binds at import time, as its source lists them. *)
Definition source_names (m : PyModule) : list string :=
  match m with
  | Database =>
      ["annotations"; "os"; "time"; "Any"; "Iterable"; "Optional"; "TypeVar";
       "Callable"; "Awaitable"; "cast"; "asyncpg"; "Pool";
       "db_query_duration_seconds"; "db_operations_total";
       "db_connections_active"; "__all__"; "T"; "pool";
       "ACTION_STATUS_SUCCESS"; "ACTION_STATUS_ERROR"; "init_db"; "close_db";
       "_instrument_db_call"; "fetch"; "fetchrow"; "execute";
       "execute_returning"]
  | Main =>
      ["annotations"; "asyncio"; "logging"; "suppress"; "List"; "FastAPI";
       "Request"; "Response"; "PlainTextResponse"; "CONTENT_TYPE_LATEST";
       "generate_latest"; "MetricsMiddleware"; "REGISTRY";
       "collect_cpu_percent"; "health_router"; "init_db"; "api"; "logger";
       "app"; "metrics"; "root"; "_background_tasks"; "_startup"; "_shutdown"]
  | Middleware =>
      ["annotations"; "time"; "Callable"; "Request"; "Response";
       "BaseHTTPMiddleware"; "http_requests_total";
       "http_request_duration_seconds"; "MetricsMiddleware"]
  | Api =>
      ["annotations"; "logging"; "datetime"; "Any"; "Dict"; "List";
       "Optional"; "APIRouter"; "Depends"; "HTTPException"; "status";
       "Request"; "Response"; "BackgroundTasks"; "JSONResponse"; "BaseModel";
       "Field"; "EmailStr"; "validator"; "fetch"; "fetchrow"; "execute";
       "execute_returning"; "http_requests_total";
       "http_request_duration_seconds"; "db_operations_total"; "logger";
       "router"; "DataItemCreate"; "DataItemResponse"; "create_data";
       "log_request"; "delete_data"]
  end.

(** The input of [create_data] after FastAPI validated it. *)
Record DataItemCreate := mkItem {
  name : string;
  email : string;
  message : option string
}.

(** Everything the program takes from outside and does not change.

    [extra_names]: names bound in a module's namespace besides those of its
    source (empty for the program as it is written).

    [labelnames]: the label names each metric was declared with.
    [app/metrics/__init__.py] is not among the sources, so the declaration
    is a parameter.

    [environ], [int_of_str]: [os.environ] and Python's [int] on a string
    ([None]: it raises [ValueError]).

    [clock]: the successive readings of the clocks.

    [create_pool_reply], [probe_reply]: what happens to the n-th call of
    [asyncpg.create_pool] and to the [SELECT 1] probe that follows it
    ([Some code]: it raises).

    [db_reply]: the answer to the n-th pool operation.

    [response_model_ok]: whether pydantic accepts the fields given to
    [DataItemResponse]. *)
Record Env := mkEnv {
  extra_names : PyModule -> list string;
  labelnames : Metric -> list string;
  environ : string -> option string;
  int_of_str : string -> option Z;
  clock : nat -> Z;
  create_pool_reply : nat -> option nat;
  probe_reply : nat -> option nat;
  db_reply : nat -> Reply;
  response_model_ok : DataItemCreate -> Val -> Val -> Val -> bool
}.

(* ===================================================================== *)
(** ** The monad of the embedding: state and exceptions *)
(* ===================================================================== *)

Definition M (A : Type) : Type := World -> Result A * World.

Definition ret {A} (a : A) : M A := fun w => (Ok a, w).

Definition bind {A B} (c : M A) (k : A -> M B) : M B :=
  fun w =>
    match c w with
    | (Ok a, w1) => k a w1
    | (Raise e, w1) => (Raise e, w1)
    end.

Definition raise {A} (e : Exc) : M A := fun w => (Raise e, w).

Declare Scope py_scope.
Delimit Scope py_scope with py.
Notation "x <- c ;; k" := (bind c (fun x => k))
  (at level 61, c at next level, right associativity) : py_scope.
Notation "c ;; k" := (bind c (fun _ => k))
  (at level 61, right associativity) : py_scope.
Local Open Scope py_scope.

(** [try: body except <catches> as e: handler e]. *)
Definition try_except {A} (body : M A) (catches : Exc -> bool)
    (handler : Exc -> M A) : M A :=
  fun w =>
    match body w with
    | (Ok a, w1) => (Ok a, w1)
    | (Raise e, w1) => if catches e then handler e w1 else (Raise e, w1)
    end.

(** [try: x = body; return x finally: final].  The [finally] block sees
    [x] as [Some] value when the body got as far as binding it; what it
    raises replaces the outcome of the body. *)
Definition try_finally {A} (body : M A) (final : option A -> M unit) : M A :=
  fun w =>
    match body w with
    | (Ok a, w1) =>
        match final (Some a) w1 with
        | (Ok _, w2) => (Ok a, w2)
        | (Raise e, w2) => (Raise e, w2)
        end
    | (Raise e, w1) =>
        match final None w1 with
        | (Ok _, w2) => (Raise e, w2)
        | (Raise e', w2) => (Raise e', w2)
        end
    end.

Definition emit (ev : Event) : M unit :=
  fun w => (Ok tt, mkWorld (pool w) (_background_tasks w) (tasks w)
                           (trace w ++ [ev]) (clock_reads w)
                           (pools_requested w) (db_requests w)).

Definition get_pool : M (option Pool) := fun w => (Ok (pool w), w).

Definition set_pool (p : option Pool) : M unit :=
  fun w => (Ok tt, mkWorld p (_background_tasks w) (tasks w) (trace w)
                           (clock_reads w) (pools_requested w) (db_requests w)).

Definition run {A} (c : M A) (w : World) : Result A * World := c w.

(* ===================================================================== *)
(** ** The runtime the program calls into *)
(* ===================================================================== *)

Section Runtime.

Variable E : Env.

(** A module-level name resolves when the module binds it; otherwise the
    reference raises [NameError]. *)
Definition bound (m : PyModule) (n : string) : bool :=
  existsb (String.eqb n) (source_names m ++ extra_names E m).

Definition global (m : PyModule) (n : string) : M unit :=
  if bound m n then ret tt else raise (NameError n).

(** [logging.getLogger(...)] inside a function of module [m]. *)
Definition getLogger (m : PyModule) : M unit := global m "logging".

Definition log (lvl : Level) : M unit := emit (ELog lvl).

(** [os.getenv(key, default)] in module [m]. *)
Definition getenv (m : PyModule) (key default : string) : M string :=
  global m "os" ;;
  ret (match environ E key with Some v => v | None => default end).

(** [int(s)]. *)
Definition int_ (s : string) : M Z :=
  match int_of_str E s with
  | Some n => ret n
  | None => raise (ValueError "invalid literal for int() with base 10")
  end.

Definition read_clock : M Z :=
  fun w => (Ok (clock E (clock_reads w)),
            mkWorld (pool w) (_background_tasks w) (tasks w) (trace w)
                    (S (clock_reads w)) (pools_requested w) (db_requests w)).

(** [time.perf_counter()] in module [m]. *)
Definition perf_counter (m : PyModule) : M Z :=
  global m "time" ;; read_clock.

(** [datetime.now()] in module [m]. *)
Definition datetime_now (m : PyModule) : M Z :=
  global m "datetime" ;; read_clock.

(** [await asyncio.sleep(seconds)] in module [m]. *)
Definition sleep (m : PyModule) (seconds : Z) : M unit :=
  global m "asyncio" ;; emit (ESleep seconds).

(** *** prometheus_client *)

(** [metric.labels(name=value, ...)]: the keyword names must be the declared label
    names ([sorted(kw) != sorted(labelnames)] raises [ValueError], as does a
    metric declared without labels).  The child is the metric with these
    label values. *)
Definition labels (m : Metric) (kw : Labels) : M (Metric * Labels) :=
  match labelnames E m with
  | [] => raise (ValueError "No label names were set when constructing")
  | names =>
      if Py.list_eqb (Py.sorted (map fst kw)) (Py.sorted names)
      then ret (m, kw)
      else raise (ValueError "Incorrect label names")
  end.

Definition inc (child : Metric * Labels) : M unit :=
  emit (EInc (fst child) (snd child)).

Definition observe (child : Metric * Labels) (value : Z) : M unit :=
  emit (EObserve (fst child) (snd child) value).

(** [gauge.set(value)] on the metric itself: a metric declared with labels
    has no value of its own and raises. *)
Definition gauge_set (m : Metric) (value : Z) : M unit :=
  match labelnames E m with
  | [] => emit (ESet m value)
  | _ => raise (ValueError "gauge metric is missing label values")
  end.

(** *** asyncpg *)

Definition create_pool (cfg : PoolConfig) : M Pool :=
  fun w =>
    let n := pools_requested w in
    let called := trace w ++ [ECreatePool cfg] in
    match create_pool_reply E n with
    | Some code =>
        (Raise (DriverError code),
         mkWorld (pool w) (_background_tasks w) (tasks w) called
                 (clock_reads w) (S n) (db_requests w))
    | None =>
        let p := mkPool n (max_size cfg) in
        (Ok p,
         mkWorld (pool w) (_background_tasks w) (tasks w)
                 (called ++ [EPoolOpened p])
                 (clock_reads w) (S n) (db_requests w))
    end.

(** [async with pool.acquire() as conn: await conn.execute('SELECT 1')]. *)
Definition probe (p : Pool) : M unit :=
  emit (EProbe p) ;;
  match probe_reply E (pool_id p) with
  | Some code => raise (DriverError code)
  | None => ret tt
  end.

(** [await pool.close()]. *)
Definition pool_close (p : Pool) : M unit := emit (EPoolClose p).

Definition pool_call (p : Pool) (op : PoolOp) (query : string)
    (args : list Val) : M Reply :=
  fun w =>
    let n := db_requests w in
    let w1 := mkWorld (pool w) (_background_tasks w) (tasks w)
                      (trace w ++ [EQuery p op query args])
                      (clock_reads w) (pools_requested w) (S n) in
    match failure (db_reply E n) with
    | Some code => (Raise (DriverError code), w1)
    | None => (Ok (db_reply E n), w1)
    end.

Definition pool_fetch (p : Pool) (query : string) (args : list Val)
    : M (list Row) :=
  r <- pool_call p Fetch query args ;; ret (rows r).

Definition pool_fetchrow (p : Pool) (query : string) (args : list Val)
    : M (option Row) :=
  r <- pool_call p Fetchrow query args ;; ret (hd_error (rows r)).

Definition pool_execute (p : Pool) (query : string) (args : list Val)
    : M string :=
  r <- pool_call p Execute query args ;; ret (status r).

(** *** asyncio tasks *)

(** [asyncio.create_task(coro)] in module [m]. *)
Definition create_task (m : PyModule) : M nat :=
  global m "asyncio" ;;
  fun w =>
    let t := List.length (tasks w) in
    (Ok t, mkWorld (pool w) (_background_tasks w) (tasks w ++ [Running])
                   (trace w ++ [ECreateTask t]) (clock_reads w)
                   (pools_requested w) (db_requests w)).

Fixpoint set_nth (l : list TaskState) (i : nat) (s : TaskState)
    : list TaskState :=
  match l, i with
  | [], _ => []
  | _ :: l', O => s :: l'
  | x :: l', S i' => x :: set_nth l' i' s
  end.

(** [task.cancel()]: a running task is cancelled, a finished one is left
    as it is. *)
Definition task_cancel (t : nat) : M unit :=
  emit (ECancel t) ;;
  fun w =>
    match nth_error (tasks w) t with
    | Some Running =>
        (Ok tt, mkWorld (pool w) (_background_tasks w)
                        (set_nth (tasks w) t Cancelled) (trace w)
                        (clock_reads w) (pools_requested w) (db_requests w))
    | _ => (Ok tt, w)
    end.

(** [await task]: raises what the task ended with.  The sampler never
    returns by itself, and the one caller cancels a task before it awaits
    it, so a task that is still running is not awaited. *)
Definition task_await (t : nat) : M unit :=
  emit (EAwait t) ;;
  fun w =>
    match nth_error (tasks w) t with
    | Some Cancelled => (Raise CancelledError, w)
    | Some (Crashed e) => (Raise e, w)
    | _ => (Ok tt, w)
    end.

End Runtime.

(* ===================================================================== *)
(** ** app/database.py *)
(* ===================================================================== *)

Module database.

Definition ACTION_STATUS_SUCCESS : string := "success".
Definition ACTION_STATUS_ERROR : string := "error".

Definition max_retries : nat := 5.

(** How one turn of the retry loop ends: the function returned, or the loop
    goes on with the next delay. *)
Inductive Flow :=
| Returned
| Next (retry_delay : Z).

Definition not_initialized : Exc :=
  RuntimeError "Database pool not initialized".

(** [dict(row) if row else None]: a record without columns is falsy. *)
Definition dict_or_none (row : option Row) : option Row :=
  match row with
  | Some ((_ :: _) as r) => Some r
  | _ => None
  end.

Section WithEnv.

Variable E : Env.

(** The body of the [try] of one attempt (lines 66-91). *)
Definition connect (cfg : PoolConfig) : M unit :=
  log INFO ;;
  global E Database "asyncpg" ;;
  p <- create_pool E cfg ;;
  set_pool (Some p) ;;
  probe E p ;;
  gauge_set E db_connections_active (holders p) ;;
  log INFO.

(** One turn of [for attempt in range(1, max_retries + 1)] (lines 65-101). *)
Definition init_db_attempt (cfg : PoolConfig) (attempt : nat)
    (retry_delay : Z) : M Flow :=
  try_except
    (connect cfg ;; ret Returned)
    is_Exception
    (fun e =>
       log ERROR ;;
       if (attempt <? max_retries)%nat
       then log INFO ;;
            sleep E Database retry_delay ;;
            ret (Next (retry_delay * 2)%Z)
       else log CRITICAL ;;
            raise e).

Fixpoint init_db_for (cfg : PoolConfig) (attempts : list nat)
    (retry_delay : Z) : M unit :=
  match attempts with
  | [] => ret tt
  | attempt :: rest =>
      flow <- init_db_attempt cfg attempt retry_delay ;;
      match flow with
      | Returned => ret tt
      | Next retry_delay' => init_db_for cfg rest retry_delay'
      end
  end.

Definition init_db : M unit :=
  p <- get_pool ;;
  match p with
  | Some _ => ret tt
  | None =>
      db_host <- getenv E Database "DB_HOST" "postgres" ;;
      port_text <- getenv E Database "DB_PORT" "5432" ;;
      db_port <- int_ E port_text ;;
      db_name <- getenv E Database "DB_NAME" "appdb" ;;
      db_user <- getenv E Database "DB_USER" "appuser" ;;
      db_password <- getenv E Database "DB_PASSWORD" "apppass123" ;;
      max_text <- getenv E Database "DB_MAX_CONNECTIONS" "20" ;;
      max_connections <- int_ E max_text ;;
      getLogger E Database ;;
      log INFO ;;
      init_db_for
        (mkPoolConfig db_host db_port db_name db_user db_password
                      1 max_connections 50000 300 30)
        (seq 1 max_retries) 2
  end.

Definition close_db : M unit :=
  p <- get_pool ;;
  match p with
  | Some p => pool_close p ;; set_pool None
  | None => ret tt
  end.

Definition _instrument_db_call {T} (operation : string) (func : M T) : M T :=
  p <- get_pool ;;
  match p with
  | None => raise not_initialized
  | Some _ =>
      start_time <- perf_counter E Database ;;
      try_finally
        (try_except
           (result <- func ;;
            child <- labels E db_operations_total
                       [("operation", LStr operation);
                        ("status", LStr ACTION_STATUS_SUCCESS)] ;;
            inc child ;;
            ret result)
           is_Exception
           (fun e =>
              child <- labels E db_operations_total
                         [("operation", LStr operation);
                          ("status", LStr ACTION_STATUS_ERROR)] ;;
              inc child ;;
              raise e))
        (fun _ =>
           now <- perf_counter E Database ;;
           let duration := (now - start_time)%Z in
           child <- labels E db_query_duration_seconds
                      [("operation", LStr operation)] ;;
           observe child duration ;;
           p' <- get_pool ;;
           match p' with
           | Some p' => gauge_set E db_connections_active (holders p')
           | None => ret tt
           end)
  end.

Definition fetch (query : string) (args : list Val) : M (list Row) :=
  p <- get_pool ;;
  match p with
  | None => raise not_initialized
  | Some p =>
      rows <- _instrument_db_call "select" (pool_fetch E p query args) ;;
      ret rows
  end.

Definition fetchrow (query : string) (args : list Val) : M (option Row) :=
  p <- get_pool ;;
  match p with
  | None => raise not_initialized
  | Some p =>
      row <- _instrument_db_call "select" (pool_fetchrow E p query args) ;;
      ret (dict_or_none row)
  end.

Definition execute (query : string) (args : list Val) : M string :=
  p <- get_pool ;;
  match p with
  | None => raise not_initialized
  | Some p =>
      match Py.split query with
      | [] => raise (IndexError "list index out of range")
      | verb :: _ =>
          let operation := Py.lower verb in
          _instrument_db_call operation (pool_execute E p query args)
      end
  end.

Definition execute_returning (query : string) (args : list Val)
    : M (option Row) :=
  p <- get_pool ;;
  match p with
  | None => raise not_initialized
  | Some p =>
      row <- _instrument_db_call "modify" (pool_fetchrow E p query args) ;;
      ret (dict_or_none row)
  end.

End WithEnv.

End database.

(* ===================================================================== *)
(** ** app/middleware/metrics_middleware.py *)
(* ===================================================================== *)

(** A request as the middleware and the handlers read it: the method, the
    ["path"] entry of the ASGI scope (the path of the request target),
    [request.url.path], and the pattern of the route the router matched
    (which neither reads). *)
Record Request := mkRequest {
  method : string;
  scope_path : option string;
  url_path : string;
  route_pattern : option string
}.

Record Response := mkResponse {
  response_status : Z
}.

Module metrics_middleware.

Section WithEnv.

Variable E : Env.

Definition route_of (request : Request) : string :=
  match scope_path request with
  | Some path => path
  | None => url_path request
  end.

Definition status_of (response : option Response) : Z :=
  match response with
  | Some r => response_status r
  | None => 500%Z
  end.

Definition request_labels (request : Request) (response : option Response)
    : Labels :=
  [("method", LStr (method request));
   ("route", LStr (route_of request));
   ("status_code", LInt (status_of response))].

(** [MetricsMiddleware.dispatch]. *)
Definition dispatch (request : Request) (call_next : Request -> M Response)
    : M Response :=
  start_time <- perf_counter E Middleware ;;
  try_finally
    (call_next request)
    (fun response =>
       let status_code := status_of response in
       let route := route_of request in
       child <- labels E http_requests_total
                  [("method", LStr (method request));
                   ("route", LStr route);
                   ("status_code", LInt status_code)] ;;
       inc child ;;
       now <- perf_counter E Middleware ;;
       let duration := (now - start_time)%Z in
       child <- labels E http_request_duration_seconds
                  [("method", LStr (method request));
                   ("route", LStr route);
                   ("status_code", LInt status_code)] ;;
       observe child duration).

End WithEnv.

End metrics_middleware.

(* ===================================================================== *)
(** ** app/routers/api.py *)
(* ===================================================================== *)

Module api.

(** [DataItemResponse]: the fields of the item and those the insert
    returned. *)
Record DataItemResponse := mkDataItemResponse {
  item : DataItemCreate;
  id : Val;
  created_at : Val;
  updated_at : Val
}.

(** A call queued on the [BackgroundTasks] object of the request; the
    source queues [log_request] only. *)
Record BackgroundTask := mkLogRequest {
  task_request : Request;
  task_response : Response;
  task_process_time : Z
}.

Definition HTTP_201_CREATED : Z := 201.
Definition HTTP_204_NO_CONTENT : Z := 204.
Definition HTTP_404_NOT_FOUND : Z := 404.
Definition HTTP_500_INTERNAL_SERVER_ERROR : Z := 500.

Definition insert_query : string :=
  " INSERT INTO user_data (name, email, message, created_at) VALUES ($1, $2, $3, NOW()) RETURNING id, created_at, updated_at ".

Definition delete_query : string := "DELETE FROM user_data WHERE id = $1".

Definition optional_str (s : option string) : Val :=
  match s with
  | Some s => VStr s
  | None => VNone
  end.

Fixpoint lookup (key : string) (row : Row) : option Val :=
  match row with
  | [] => None
  | (k, v) :: row' => if String.eqb k key then Some v else lookup key row'
  end.

(** [bool(result)] for the optional dict that [fetchrow] returns. *)
Definition truthy (result : option Row) : bool :=
  match result with
  | Some (_ :: _) => true
  | _ => false
  end.

Section WithEnv.

Variable E : Env.

(** [result[key]]. *)
Definition getitem (result : option Row) (key : string) : M Val :=
  match result with
  | Some row =>
      match lookup key row with
      | Some v => ret v
      | None => raise (KeyError key)
      end
  | None => raise (KeyError key)
  end.

(** [DataItemResponse( **response_data )]. *)
Definition make_response (it : DataItemCreate) (i c u : Val)
    : M DataItemResponse :=
  if response_model_ok E it i c u
  then ret (mkDataItemResponse it i c u)
  else raise ValidationError.

(** [create_data]: [background_tasks] is the object FastAPI injects; the
    handler returns it next to the response, with the task it added (when
    the handler raises, FastAPI runs no background task). *)
Definition create_data (it : DataItemCreate)
    (background_tasks : list BackgroundTask) (request : Request)
    : M (DataItemResponse * list BackgroundTask) :=
  try_except
    (start_time <- datetime_now E Api ;;
     log INFO ;;
     let query := insert_query in
     try_except
       (result <- database.fetchrow E query
                    [VStr (name it); VStr (email it);
                     optional_str (message it)] ;;
        log INFO ;;
        (if truthy result then ret tt
         else log ERROR ;;
              raise (HTTPException HTTP_500_INTERNAL_SERVER_ERROR)) ;;
        i <- getitem result "id" ;;
        c <- getitem result "created_at" ;;
        u <- getitem result "updated_at" ;;
        response <- make_response it i c u ;;
        now <- datetime_now E Api ;;
        let process_time := (now - start_time)%Z in
        let background_tasks' :=
          background_tasks
          ++ [mkLogRequest request (mkResponse HTTP_201_CREATED)
                           process_time] in
        child <- labels E db_operations_total
                   [("operation", LStr "create");
                    ("status", LStr "success")] ;;
        inc child ;;
        log INFO ;;
        ret (response, background_tasks'))
       is_Exception
       (fun db_error =>
          log ERROR ;;
          raise (HTTPException HTTP_500_INTERNAL_SERVER_ERROR)))
    is_Exception
    (fun e =>
       if is_HTTPException e
       then log ERROR ;;
            child <- labels E db_operations_total
                       [("operation", LStr "create");
                        ("status", LStr "error")] ;;
            inc child ;;
            raise e
       else log ERROR ;;
            child <- labels E db_operations_total
                       [("operation", LStr "create");
                        ("status", LStr "error")] ;;
            inc child ;;
            raise (HTTPException HTTP_500_INTERNAL_SERVER_ERROR)).

Definition log_request (request : Request) (response : Response)
    (process_time : Z) : M unit :=
  let http_method := method request in
  let endpoint := url_path request in
  let status_code := response_status response in
  child <- labels E http_requests_total
             [("method", LStr http_method);
              ("endpoint", LStr endpoint);
              ("status_code", LInt status_code)] ;;
  inc child ;;
  child <- labels E http_request_duration_seconds
             [("method", LStr http_method);
              ("endpoint", LStr endpoint)] ;;
  observe child process_time ;;
  log INFO.

(** Running one queued call. *)
Definition run_task (t : BackgroundTask) : M unit :=
  log_request (task_request t) (task_response t) (task_process_time t).

Definition delete_data (item_id : Z) : M Response :=
  try_except
    (result <- database.execute E delete_query [VInt item_id] ;;
     (if String.eqb result "DELETE 0"
      then raise (HTTPException HTTP_404_NOT_FOUND)
      else ret tt) ;;
     ret (mkResponse HTTP_204_NO_CONTENT))
    is_Exception
    (fun e =>
       if is_HTTPException e
       then raise e
       else log ERROR ;;
            child <- labels E db_operations_total
                       [("operation", LStr "delete");
                        ("status", LStr "error")] ;;
            inc child ;;
            raise (HTTPException HTTP_500_INTERNAL_SERVER_ERROR)).

End WithEnv.

End api.

(* ===================================================================== *)
(** ** app/main.py *)
(* ===================================================================== *)

Module main.

Definition max_retries : nat := 5.

(** How one turn of the start-up loop ends: [break], or on with the next
    delay. *)
Inductive Flow :=
| Break
| Next (retry_delay : Z).

Section WithEnv.

Variable E : Env.

Definition append_task (t : nat) : M unit :=
  fun w => (Ok tt, mkWorld (pool w) (_background_tasks w ++ [t]) (tasks w)
                           (trace w) (clock_reads w) (pools_requested w)
                           (db_requests w)).

Definition get_tasks : M (list nat) :=
  fun w => (Ok (_background_tasks w), w).

(** One turn of the loop of lines 75-88. *)
Definition startup_attempt (attempt : nat) (retry_delay : Z) : M Flow :=
  try_except
    (log INFO ;;
     database.init_db E ;;
     log INFO ;;
     ret Break)
    is_Exception
    (fun e =>
       if (attempt =? max_retries)%nat
       then log ERROR ;;
            raise e
       else log WARNING ;;
            log INFO ;;
            sleep E Main retry_delay ;;
            ret (Next (Z.min (retry_delay * 2) 10))).

Fixpoint startup_for (attempts : list nat) (retry_delay : Z) : M unit :=
  match attempts with
  | [] => ret tt
  | attempt :: rest =>
      flow <- startup_attempt attempt retry_delay ;;
      match flow with
      | Break => ret tt
      | Next retry_delay' => startup_for rest retry_delay'
      end
  end.

(** The body of the outer [try] of [_startup] (lines 64-95). *)
Definition startup_body : M unit :=
  log INFO ;;
  db_host <- getenv E Main "DB_HOST" "postgres" ;;
  db_port <- getenv E Main "DB_PORT" "5432" ;;
  log INFO ;;
  startup_for (seq 1 max_retries) 1 ;;
  log INFO ;;
  t <- create_task E Main ;;
  append_task t ;;
  log INFO ;;
  log INFO.

Definition _startup : M unit :=
  getLogger E Main ;;
  try_except
    startup_body
    is_Exception
    (fun e =>
       log ERROR ;;
       log ERROR).

(** The loop of [_shutdown]: cancel, then await under
    [suppress(asyncio.CancelledError)]. *)
Fixpoint shutdown_for (ts : list nat) : M unit :=
  match ts with
  | [] => ret tt
  | task :: rest =>
      task_cancel task ;;
      global E Main "suppress" ;;
      global E Main "asyncio" ;;
      try_except (task_await task) is_CancelledError (fun _ => ret tt) ;;
      shutdown_for rest
  end.

Definition _shutdown : M unit :=
  ts <- get_tasks ;;
  shutdown_for ts ;;
  log INFO.

End WithEnv.

End main.

(* ===================================================================== *)
(** ** Reading a trace *)
(* ===================================================================== *)

Definition Metric_eqb (a b : Metric) : bool :=
  match a, b with
  | http_requests_total, http_requests_total => true
  | http_request_duration_seconds, http_request_duration_seconds => true
  | db_query_duration_seconds, db_query_duration_seconds => true
  | db_operations_total, db_operations_total => true
  | db_connections_active, db_connections_active => true
  | process_cpu_percentage, process_cpu_percentage => true
  | _, _ => false
  end.

Definition is_inc (m : Metric) (ev : Event) : bool :=
  match ev with
  | EInc m' _ => Metric_eqb m m'
  | _ => false
  end.

Definition is_observe (m : Metric) (ev : Event) : bool :=
  match ev with
  | EObserve m' _ _ => Metric_eqb m m'
  | _ => false
  end.

Definition is_query (ev : Event) : bool :=
  match ev with
  | EQuery _ _ _ _ => true
  | _ => false
  end.

Definition is_create_pool (ev : Event) : bool :=
  match ev with
  | ECreatePool _ => true
  | _ => false
  end.

Definition is_pool_opened (ev : Event) : bool :=
  match ev with
  | EPoolOpened _ => true
  | _ => false
  end.

Definition is_pool_close (ev : Event) : bool :=
  match ev with
  | EPoolClose _ => true
  | _ => false
  end.


Definition count (P : Event -> bool) (tr : list Event) : nat :=
  List.length (filter P tr).

(** The delays slept, in order. *)
Fixpoint sleeps (tr : list Event) : list Z :=
  match tr with
  | [] => []
  | ESleep d :: tr' => d :: sleeps tr'
  | _ :: tr' => sleeps tr'
  end.

Fixpoint label (key : string) (kw : Labels) : option LabelValue :=
  match kw with
  | [] => None
  | (k, v) :: kw' => if String.eqb k key then Some v else label key kw'
  end.

(** An increment of the db operation counter under operation [op]. *)
Definition is_db_inc_of (op : string) (ev : Event) : bool :=
  match ev with
  | EInc db_operations_total kw =>
      match label "operation" kw with
      | Some (LStr op') => String.eqb op op'
      | _ => false
      end
  | _ => false
  end.

(** The world after one more clock reading, and after the events [evs]. *)
Definition ticked (w : World) : World :=
  mkWorld (pool w) (_background_tasks w) (tasks w) (trace w)
          (S (clock_reads w)) (pools_requested w) (db_requests w).

Definition recorded (w : World) (evs : list Event) : World :=
  mkWorld (pool w) (_background_tasks w) (tasks w) (trace w ++ evs)
          (clock_reads w) (pools_requested w) (db_requests w).

(** The world after a pool operation was sent. *)
Definition queried (w : World) (ev : Event) : World :=
  mkWorld (pool w) (_background_tasks w) (tasks w) (trace w ++ [ev])
          (clock_reads w) (pools_requested w) (S (db_requests w)).

(** What a pool operation that computes [f] of the reply comes to. *)
Definition reply_result {T} (f : Reply -> T) (reply : Reply) : Result T :=
  match failure reply with
  | Some code => Raise (DriverError code)
  | None => Ok (f reply)
  end.

(** The status label of an outcome. *)
Definition outcome_of {T} (r : Result T) : string :=
  match r with
  | Ok _ => database.ACTION_STATUS_SUCCESS
  | Raise _ => database.ACTION_STATUS_ERROR
  end.

(** The value a computation returned, if it did. *)
Definition returned {A} (r : Result A) : option A :=
  match r with
  | Ok a => Some a
  | Raise _ => None
  end.

(** [c] appends no event that [P] selects. *)
Definition silent (P : Event -> bool) {A} (c : M A) : Prop :=
  forall w, count P (trace (snd (c w))) = count P (trace w).


(** The world after the wrapper ran pool operation [op] of pool [p] under
    the label [operation], with outcome [r]. *)
Definition after_call {T} (E : Env) (w : World) (p : Pool) (op : PoolOp)
    (operation query : string) (args : list Val) (r : Result T) : World :=
  recorded
    (ticked (queried (ticked w) (EQuery p op query args)))
    [EInc db_operations_total
          [("operation", LStr operation); ("status", LStr (outcome_of r))];
     EObserve db_query_duration_seconds [("operation", LStr operation)]
              (clock E (S (clock_reads w)) - clock E (clock_reads w))%Z;
     ESet db_connections_active
          (match pool w with Some p0 => holders p0 | None => 0%Z end)].

(** The handler answered 500. *)
Definition server_error (r : Result Response) : bool :=
  match r with
  | Raise (HTTPException 500) => true
  | _ => false
  end.

(** [labels] accepts the keyword names [names] on metric [m]. *)
Definition accepts (E : Env) (m : Metric) (names : list string) : Prop :=
  labelnames E m <> [] /\ Py.sorted names = Py.sorted (labelnames E m).

(** The declaration under which the label names the middleware and the
    database layer pass are the declared ones. *)
Definition http_declared (E : Env) : Prop :=
  accepts E http_requests_total ["method"; "route"; "status_code"]
  /\ accepts E http_request_duration_seconds
       ["method"; "route"; "status_code"].

Definition db_declared (E : Env) : Prop :=
  accepts E db_operations_total ["operation"; "status"]
  /\ accepts E db_query_duration_seconds ["operation"]
  /\ labelnames E db_connections_active = [].

(* ===================================================================== *)
(** ** Concrete environments and states *)
(* ===================================================================== *)

(** Modelled from the spec: the declarations of [app/metrics/__init__.py],
    which is not among the sources.  The request metrics carry the labels
    method, route and status_code, the db counter the operation kind and the
    outcome, the db histogram the operation kind, the two gauges none; the
    names are spelled as the middleware and the database layer pass them. *)
Definition declared (m : Metric) : list string :=
  match m with
  | http_requests_total => ["method"; "route"; "status_code"]
  | http_request_duration_seconds => ["method"; "route"; "status_code"]
  | db_query_duration_seconds => ["operation"]
  | db_operations_total => ["operation"; "status"]
  | db_connections_active => []
  | process_cpu_percentage => []
  end.

(** [int] on the two defaults of the source. *)
Definition int_of_default (s : string) : option Z :=
  if String.eqb s "5432" then Some 5432%Z
  else if String.eqb s "20" then Some 20%Z
  else None.

Definition one_row : Row :=
  [("id", VInt 7); ("created_at", VTime 1000); ("updated_at", VNone)].

(** No variable set in the environment, the clock advancing by 3 per
    reading, every insert answered with one row and every delete with
    ["DELETE 1"]. *)
Definition env_with (extra : PyModule -> list string)
    (create_reply : nat -> option nat) (reply : nat -> Reply) : Env :=
  mkEnv extra declared (fun _ => None) int_of_default
        (fun n => (3 * Z.of_nat n)%Z) create_reply (fun _ => None) reply
        (fun _ _ _ _ => true).

Definition no_extra (m : PyModule) : list string := [].

(** The namespaces with the imports the two modules lack. *)
Definition with_imports (m : PyModule) : list string :=
  match m with
  | Database => ["logging"; "asyncio"]
  | Main => ["os"]
  | _ => []
  end.

Definition answers : nat -> Reply :=
  fun _ => mkReply None [one_row] "DELETE 1".

Definition refuses : nat -> Reply :=
  fun _ => mkReply (Some 53) [] "".

(** The program as written, with a reachable and with an unreachable
    database. *)
Definition written : Env := env_with no_extra (fun _ => None) answers.
Definition written_unreachable : Env :=
  env_with no_extra (fun _ => Some 111) answers.

(** The program as written, with a database that answers every pool
    operation with an error. *)
Definition written_refusing : Env := env_with no_extra (fun _ => None) refuses.

(** The program with the missing imports added. *)
Definition imported : Env := env_with with_imports (fun _ => None) answers.
Definition imported_unreachable : Env :=
  env_with with_imports (fun _ => Some 111) answers.

(** The state right after the modules were imported. *)
Definition fresh : World := mkWorld None [] [] [] 0 0 0.

(** A state with a pool and the sampler running. *)
Definition serving : World :=
  mkWorld (Some (mkPool 0 20)) [0] [Running] [] 0 1 0.

Definition jane : DataItemCreate :=
  mkItem "Jane Doe" "jane@example.com" None.

Definition post_data : Request :=
  mkRequest "POST" (Some "/api/data") "/api/data" (Some "/api/data").

Definition delete_42 : Request :=
  mkRequest "DELETE" (Some "/api/data/42") "/api/data/42"
            (Some "/api/data/{item_id}").

(* ===================================================================== *)
(** ** app/routers/api.py: the validator of [DataItemCreate] *)
(* ===================================================================== *)

Module validators.

(** [s.rstrip()] and [s.strip()] with no argument: whitespace goes from the
    right end, and from both ends. *)
Fixpoint rstrip (s : string) : string :=
  match s with
  | EmptyString => EmptyString
  | String c s' =>
      match rstrip s' with
      | EmptyString => if Py.isspace c then EmptyString
                       else String c EmptyString
      | r => String c r
      end
  end.

Definition strip (s : string) : string := rstrip (skip_space s).

(** [' ' in s]. *)
Fixpoint has_space (s : string) : bool :=
  match s with
  | EmptyString => false
  | String c s' => Ascii.eqb c " " || has_space s'
  end.

(** [name_must_contain_space], the validator of the field [name].
    [title] is [str.title]. *)
Definition name_must_contain_space (title : string -> string) (v : string)
    : Result string :=
  if negb (has_space (strip v))
  then Raise (ValueError "Name must contain at least one space")
  else Ok (title v).

End validators.

(* ===================================================================== *)
(** ** app/metrics/system_metrics.py *)
(* ===================================================================== *)

Module system_metrics.

Section WithEnv.

Variable E : Env.

(** The successive values of [process.cpu_percent(None)]; the call before
    the loop takes value 0. *)
Variable cpu_percent : nat -> Z.

(** The first [iterations] turns of the [while True] loop, [reading] being
    the number of readings taken so far.  Every name the function uses is
    imported by its module. *)
Fixpoint sample (interval_seconds : Z) (iterations reading : nat) : M unit :=
  match iterations with
  | O => ret tt
  | S n =>
      emit (ESleep interval_seconds) ;;
      let percent := cpu_percent reading in
      gauge_set E process_cpu_percentage percent ;;
      sample interval_seconds n (S reading)
  end.

(** [collect_cpu_percent], up to the end of turn [iterations] of its
    loop. *)
Definition collect_cpu_percent (interval_seconds : Z) (iterations : nat)
    : M unit :=
  let baseline := cpu_percent 0 in
  sample interval_seconds iterations 1.

End WithEnv.

End system_metrics.

(* ===================================================================== *)
(** ** More environments and states, and words for the statements *)
(* ===================================================================== *)

(** [labels] rejects the keyword names [names] on metric [m]. *)
Definition rejects (E : Env) (m : Metric) (names : list string) : Prop :=
  labelnames E m = [] \/ Py.sorted names <> Py.sorted (labelnames E m).

(** The delays [d], [2d], [4d], ... of [k] failed attempts. *)
Fixpoint doubling (d : Z) (k : nat) : list Z :=
  match k with
  | O => []
  | S k' => d :: doubling (d * 2) k'
  end.

(** The events of [k] failed attempts of [init_db], the first with delay
    [d]. *)
Fixpoint failed_attempts (cfg : PoolConfig) (d : Z) (k : nat) : list Event :=
  match k with
  | O => []
  | S k' =>
      [ELog INFO; ECreatePool cfg; ELog ERROR; ELog INFO; ESleep d]
      ++ failed_attempts cfg (d * 2) k'
  end.

(** The events of [n] turns of the sampler, from reading [k] on. *)
Fixpoint samples (cpu_percent : nat -> Z) (interval_seconds : Z)
    (n k : nat) : list Event :=
  match n with
  | O => []
  | S n' =>
      [ESleep interval_seconds; ESet process_cpu_percentage (cpu_percent k)]
      ++ samples cpu_percent interval_seconds n' (S k)
  end.

(** The configuration [init_db] builds from the environment. *)
Definition config_of (E : Env) (port_ max_ : Z) : PoolConfig :=
  mkPoolConfig
    (match environ E "DB_HOST" with Some v => v | None => "postgres" end)
    port_
    (match environ E "DB_NAME" with Some v => v | None => "appdb" end)
    (match environ E "DB_USER" with Some v => v | None => "appuser" end)
    (match environ E "DB_PASSWORD" with
     | Some v => v | None => "apppass123" end)
    1 max_ 50000 300 30.

(** The declaration with the label names [log_request] passes. *)
Definition declared_for_log_request (m : Metric) : list string :=
  match m with
  | http_requests_total => ["method"; "endpoint"; "status_code"]
  | http_request_duration_seconds => ["method"; "endpoint"]
  | m' => declared m'
  end.

(** A declaration of the db counter with other label names than the
    database layer passes. *)
Definition declared_by_kind (m : Metric) : list string :=
  match m with
  | db_operations_total => ["operation_kind"; "outcome"]
  | m' => declared m'
  end.

Definition with_labelnames (names : Metric -> list string) (E : Env) : Env :=
  mkEnv (extra_names E) names (environ E) (int_of_str E) (clock E)
        (create_pool_reply E) (probe_reply E) (db_reply E)
        (response_model_ok E).

(** The third call of [asyncpg.create_pool] succeeds, the two before it
    fail. *)
Definition third_time (n : nat) : option nat :=
  if (n <? 2)%nat then Some 111 else None.

Definition imported_third_time : Env := env_with with_imports third_time answers.

(** Every pool is created, and every probe fails. *)
Definition imported_unprobed : Env :=
  mkEnv with_imports declared (fun _ => None) int_of_default
        (fun n => (3 * Z.of_nat n)%Z) (fun _ => None) (fun _ => Some 57)
        answers (fun _ _ _ _ => true).

(** [DB_PORT] set to a text that is no number. *)
Definition written_bad_port : Env :=
  mkEnv no_extra declared
        (fun key => if String.eqb key "DB_PORT" then Some "abc" else None)
        int_of_default (fun n => (3 * Z.of_nat n)%Z) (fun _ => None)
        (fun _ => None) answers (fun _ _ _ _ => true).

(** The database answers with no row, and with the status ["DELETE 0"]. *)
Definition no_row : nat -> Reply :=
  fun _ => mkReply None [] "DELETE 0".

Definition written_no_row : Env := env_with no_extra (fun _ => None) no_row.

(** A state with a pool and three tasks, the second of which has crashed. *)
Definition three_tasks : World :=
  mkWorld (Some (mkPool 0 20)) [0; 1; 2]
          [Running; Crashed (DriverError 9); Running] [] 0 1 0.

(** What [await task] raises through [suppress(CancelledError)] for task
    [t] of the table [l], if it raises. *)
Definition raises_on_await (l : list TaskState) (t : nat) : option Exc :=
  match nth_error l t with
  | Some (Crashed e) => if is_CancelledError e then None else Some e
  | _ => None
  end.

(** The table of tasks after [task.cancel()] on task [t], and on the tasks
    [ts] in turn. *)
Definition cancel_one (l : list TaskState) (t : nat) : list TaskState :=
  match nth_error l t with
  | Some Running => set_nth l t Cancelled
  | _ => l
  end.

Definition cancel_all (ts : list nat) (l : list TaskState) : list TaskState :=
  fold_left cancel_one ts l.

(** The events of the loop of [_shutdown] over the tasks [ts]. *)
Definition shutdown_events (ts : list nat) : list Event :=
  flat_map (fun t => [ECancel t; EAwait t]) ts.

(** A name holds a space with something other than whitespace before it
    and after it. *)
Definition has_inner_space (v : string) : Prop :=
  exists a b : string,
    v = (a ++ String " " b)%string /\ blank a = false /\ blank b = false.

(* ===================================================================== *)
(** ** The statements of the specification that the code does not meet *)
(* ===================================================================== *)


(** "For every DB call attempt made through the system, the db operation
    counter is incremented exactly once for that attempt; no code path
    outside the instrumented query executor adds a further increment": what
    a handler appends to the trace holds as many increments of the counter
    as pool operations. *)
Definition db_counter_once_per_call (E : Env) : Prop :=
  (forall it bts request w evs,
     trace (snd (run (api.create_data E it bts request) w)) = trace w ++ evs ->
     count (is_inc db_operations_total) evs = count is_query evs)
  /\ (forall item_id w evs,
        trace (snd (run (api.delete_data E item_id) w)) = trace w ++ evs ->
        count (is_inc db_operations_total) evs = count is_query evs).


(** "For any query string that is empty or consists only of whitespace,
    execute raises an IndexError." *)
Definition blank_query_raises_IndexError (E : Env) : Prop :=
  forall (query : string) (args : list Val) (w : World),
    blank query = true ->
    exists msg,
      run (database.execute E query args) w = (Raise (IndexError msg), w).

(* ===================================================================== *)
(** ** Strings: the words of a query *)
(* ===================================================================== *)

Lemma append_empty (s : string) : (s ++ "")%string = s.
Proof. induction s as [|c s IH]; simpl; [reflexivity | now rewrite IH]. Qed.

Lemma append_step (s t : string) (c : ascii) :
  ((s ++ String c "") ++ t)%string = (s ++ String c t)%string.
Proof. induction s as [|d s IH]; simpl; [reflexivity | now rewrite IH]. Qed.

Lemma is_empty_snoc (s : string) (c : ascii) :
  Py.is_empty (s ++ String c "") = false.
Proof. destruct s; reflexivity. Qed.

(** Reading on from inside a word: the first word [split] returns is the
    word read so far followed by the characters up to the next whitespace. *)
Lemma split_from_word (s word : string) :
  Py.is_empty word = false ->
  exists rest, Py.split_from s word = (word ++ read_word s)%string :: rest.
Proof.
  revert word. induction s as [|c s IH]; intros word Hword; simpl.
  - rewrite Hword, append_empty. now exists [].
  - destruct (Py.isspace c).
    + rewrite Hword, append_empty. eauto.
    + destruct (IH (word ++ String c "")%string (is_empty_snoc word c))
        as [rest Hrest].
      exists rest. now rewrite Hrest, append_step.
Qed.

Lemma split_skip_space (s : string) :
  Py.split_from s "" = Py.split_from (skip_space s) "".
Proof.
  induction s as [|c s IH]; simpl; [reflexivity|].
  destruct (Py.isspace c) eqn:Hc; simpl; [exact IH | now rewrite Hc].
Qed.

Lemma skip_space_head (s : string) (c : ascii) (s' : string) :
  skip_space s = String c s' -> Py.isspace c = false.
Proof.
  induction s as [|d s IH]; simpl; [discriminate|].
  destruct (Py.isspace d) eqn:Hd; [exact IH|].
  intros H. injection H as -> _. exact Hd.
Qed.

Lemma split_blank (q : string) : blank q = true -> Py.split q = [].
Proof.
  unfold blank, Py.split. rewrite split_skip_space.
  destruct (skip_space q); [reflexivity | discriminate].
Qed.

Lemma split_first_token (q : string) :
  blank q = false -> exists rest, Py.split q = first_token q :: rest.
Proof.
  unfold blank, Py.split, first_token. rewrite split_skip_space.
  destruct (skip_space q) as [|c s'] eqn:Hq; [discriminate|]. intros _.
  pose proof (skip_space_head _ Hq) as Hc. simpl. rewrite Hc.
  destruct (@split_from_word s' (String c "") eq_refl) as [rest Hrest].
  exists rest. exact Hrest.
Qed.

Example split_delete :
  Py.split "DELETE FROM user_data WHERE id = $1"
  = ["DELETE"; "FROM"; "user_data"; "WHERE"; "id"; "="; "$1"].
Proof. reflexivity. Qed.

Example split_padded : Py.split "  select   1 " = ["select"; "1"].
Proof. reflexivity. Qed.

Example split_only_space : Py.split "   " = [].
Proof. reflexivity. Qed.

Example lower_delete : Py.lower "DELETE" = "delete".
Proof. reflexivity. Qed.

Example sorted_names :
  Py.sorted ["status_code"; "method"; "route"]
  = ["method"; "route"; "status_code"].
Proof. reflexivity. Qed.

(* ===================================================================== *)
(** ** Running the monad *)
(* ===================================================================== *)

Lemma bind_ok {A B} (c : M A) (k : A -> M B) w a w1 :
  c w = (Ok a, w1) -> bind c k w = k a w1.
Proof. unfold bind. now intros ->. Qed.

Lemma bind_get_pool {B} (k : option Pool -> M B) (w : World) :
  bind get_pool k w = k (pool w) w.
Proof. reflexivity. Qed.

Lemma count_app (P : Event -> bool) (a b : list Event) :
  count P (a ++ b) = count P a + count P b.
Proof. unfold count. now rewrite filter_app, length_app. Qed.

Lemma count_snoc (P : Event -> bool) (tr : list Event) (ev : Event) :
  count P (tr ++ [ev]) = count P tr + (if P ev then 1 else 0).
Proof. rewrite count_app. unfold count. simpl. now destruct (P ev). Qed.

Lemma bound_source (E : Env) (m : PyModule) (n : string) :
  In n (source_names m) -> bound E m n = true.
Proof.
  intros H. unfold bound. rewrite existsb_app.
  apply orb_true_iff. left. apply existsb_exists.
  exists n. split; [exact H | apply String.eqb_refl].
Qed.

Lemma global_source (E : Env) (m : PyModule) (n : string) :
  In n (source_names m) -> global E m n = ret tt.
Proof. intros H. unfold global. now rewrite bound_source. Qed.

Lemma list_eqb_true (a b : list string) : a = b -> Py.list_eqb a b = true.
Proof.
  intros ->. unfold Py.list_eqb. destruct (list_eq_dec string_dec b b);
    [reflexivity | contradiction].
Qed.

Lemma list_eqb_false (a b : list string) : a <> b -> Py.list_eqb a b = false.
Proof.
  intros H. unfold Py.list_eqb. destruct (list_eq_dec string_dec a b);
    [contradiction | reflexivity].
Qed.

(** Under a declaration that accepts them, [labels] returns the child. *)
Lemma labels_accepts (E : Env) (m : Metric) (kw : Labels) :
  accepts E m (map fst kw) -> labels E m kw = ret (m, kw).
Proof.
  intros [Hne Hs]. unfold labels.
  destruct (labelnames E m) as [|n ns] eqn:Hn; [contradiction|].
  now rewrite list_eqb_true.
Qed.

(** Under a declaration that accepts other names, [labels] raises. *)
Lemma labels_rejects (E : Env) (m : Metric) (kw : Labels) (names : list string) :
  accepts E m names ->
  Py.sorted (map fst kw) <> Py.sorted names ->
  forall w, exists msg, labels E m kw w = (Raise (ValueError msg), w).
Proof.
  intros [Hne Hs] Hdiff w. unfold labels.
  destruct (labelnames E m) as [|n ns] eqn:Hn; [contradiction|].
  rewrite list_eqb_false; [unfold raise; eauto|].
  rewrite <- Hs. exact Hdiff.
Qed.

(** *** Rules to run a computation step by step *)

Lemma run_ret {A} (a : A) (w : World) : ret a w = (Ok a, w).
Proof. reflexivity. Qed.

Lemma run_raise {A} (e : Exc) (w : World) : @raise A e w = (Raise e, w).
Proof. reflexivity. Qed.

Lemma bind_ret {A B} (a : A) (k : A -> M B) (w : World) :
  bind (ret a) k w = k a w.
Proof. reflexivity. Qed.

Lemma bind_raise_now {A B} (e : Exc) (k : A -> M B) (w : World) :
  bind (raise e) k w = (Raise e, w).
Proof. reflexivity. Qed.

Lemma bind_run {A B} (c : M A) (k : A -> M B) (w : World) :
  bind c k w
  = match c w with
    | (Ok a, w1) => k a w1
    | (Raise e, w1) => (Raise e, w1)
    end.
Proof. reflexivity. Qed.

Lemma bind_bind {A B C} (c : M A) (k1 : A -> M B) (k2 : B -> M C)
    (w : World) :
  bind (bind c k1) k2 w = bind c (fun a => bind (k1 a) k2) w.
Proof. unfold bind. now destruct (c w) as [[a|e] w1]. Qed.

Lemma bind_emit {B} (ev : Event) (k : unit -> M B) (w : World) :
  bind (emit ev) k w = k tt (recorded w [ev]).
Proof. reflexivity. Qed.

Lemma bind_log {B} (lvl : Level) (k : unit -> M B) (w : World) :
  bind (log lvl) k w = k tt (recorded w [ELog lvl]).
Proof. reflexivity. Qed.

Lemma bind_inc {B} (m : Metric) (kw : Labels) (k : unit -> M B) (w : World) :
  bind (inc (m, kw)) k w = k tt (recorded w [EInc m kw]).
Proof. reflexivity. Qed.

Lemma run_inc (m : Metric) (kw : Labels) (w : World) :
  inc (m, kw) w = (Ok tt, recorded w [EInc m kw]).
Proof. reflexivity. Qed.

Lemma bind_observe {B} (m : Metric) (kw : Labels) (v : Z) (k : unit -> M B)
    (w : World) :
  bind (observe (m, kw) v) k w = k tt (recorded w [EObserve m kw v]).
Proof. reflexivity. Qed.

Lemma bind_labels {B} (E : Env) (m : Metric) (kw : Labels)
    (k : Metric * Labels -> M B) (w : World) :
  accepts E m (map fst kw) -> bind (labels E m kw) k w = k (m, kw) w.
Proof. intros H. now rewrite labels_accepts. Qed.

Lemma bind_global {B} (E : Env) (m : PyModule) (n : string)
    (k : unit -> M B) (w : World) :
  In n (source_names m) -> bind (global E m n) k w = k tt w.
Proof. intros H. now rewrite global_source. Qed.

Lemma bind_clock {B} (E : Env) (k : Z -> M B) (w : World) :
  bind (read_clock E) k w = k (clock E (clock_reads w)) (ticked w).
Proof. reflexivity. Qed.

Lemma bind_perf_counter {B} (E : Env) (m : PyModule) (k : Z -> M B)
    (w : World) :
  In "time" (source_names m) ->
  bind (perf_counter E m) k w = k (clock E (clock_reads w)) (ticked w).
Proof.
  intros H. unfold perf_counter. now rewrite (global_source E m "time" H).
Qed.

Lemma bind_datetime_now {B} (E : Env) (m : PyModule) (k : Z -> M B)
    (w : World) :
  In "datetime" (source_names m) ->
  bind (datetime_now E m) k w = k (clock E (clock_reads w)) (ticked w).
Proof.
  intros H. unfold datetime_now.
  now rewrite (global_source E m "datetime" H).
Qed.

Lemma run_gauge_set (E : Env) (m : Metric) (v : Z) (w : World) :
  labelnames E m = [] -> gauge_set E m v w = (Ok tt, recorded w [ESet m v]).
Proof. intros H. unfold gauge_set. now rewrite H. Qed.

Lemma bind_pool_call {B} (E : Env) (p : Pool) (op : PoolOp) (query : string)
    (args : list Val) (k : Reply -> M B) (w : World) :
  bind (pool_call E p op query args) k w
  = match failure (db_reply E (db_requests w)) with
    | Some code =>
        (Raise (DriverError code), queried w (EQuery p op query args))
    | None =>
        k (db_reply E (db_requests w)) (queried w (EQuery p op query args))
    end.
Proof.
  unfold bind, pool_call, queried.
  now destruct (failure (db_reply E (db_requests w))).
Qed.

Lemma run_try_except {A} (body : M A) (catches : Exc -> bool)
    (handler : Exc -> M A) (w : World) :
  try_except body catches handler w
  = match body w with
    | (Ok a, w1) => (Ok a, w1)
    | (Raise e, w1) => if catches e then handler e w1 else (Raise e, w1)
    end.
Proof. reflexivity. Qed.

Lemma bind_try_except {A B} (body : M A) (catches : Exc -> bool)
    (handler : Exc -> M A) (k : A -> M B) (w : World) :
  bind (try_except body catches handler) k w
  = match try_except body catches handler w with
    | (Ok a, w1) => k a w1
    | (Raise e, w1) => (Raise e, w1)
    end.
Proof. reflexivity. Qed.

Lemma run_try_finally {A} (body : M A) (final : option A -> M unit)
    (w : World) :
  try_finally body final w
  = match body w with
    | (Ok a, w1) =>
        match final (Some a) w1 with
        | (Ok _, w2) => (Ok a, w2)
        | (Raise e, w2) => (Raise e, w2)
        end
    | (Raise e, w1) =>
        match final None w1 with
        | (Ok _, w2) => (Raise e, w2)
        | (Raise e', w2) => (Raise e', w2)
        end
    end.
Proof. reflexivity. Qed.

Lemma bind_try_finally {A B} (body : M A) (final : option A -> M unit)
    (k : A -> M B) (w : World) :
  bind (try_finally body final) k w
  = match try_finally body final w with
    | (Ok a, w1) => k a w1
    | (Raise e, w1) => (Raise e, w1)
    end.
Proof. reflexivity. Qed.

Lemma time_in_database : In "time" (source_names Database).
Proof. simpl. tauto. Qed.

Lemma time_in_middleware : In "time" (source_names Middleware).
Proof. simpl. tauto. Qed.

Lemma datetime_in_api : In "datetime" (source_names Api).
Proof. simpl. tauto. Qed.

(** One step of a run: the head of the computation is a call whose effect
    is known. *)
Ltac run_step :=
  first
    [ rewrite bind_bind
    | rewrite bind_get_pool
    | rewrite bind_ret
    | rewrite bind_raise_now
    | rewrite bind_log
    | rewrite bind_emit
    | rewrite bind_inc
    | rewrite run_inc
    | rewrite bind_observe
    | rewrite bind_clock
    | rewrite bind_perf_counter by first [exact time_in_database
                                         | exact time_in_middleware]
    | rewrite bind_datetime_now by exact datetime_in_api
    | rewrite bind_labels by (simpl map; assumption)
    | rewrite run_gauge_set by assumption
    | rewrite bind_pool_call
    | rewrite bind_try_except
    | rewrite bind_try_finally
    | rewrite run_try_except
    | rewrite run_try_finally
    | rewrite run_ret
    | rewrite run_raise ];
  cbv beta iota zeta.

(** The fields of a world that was built step by step. *)
Ltac norm :=
  cbv beta iota zeta;
  cbn [pool db_requests clock_reads pools_requested tasks _background_tasks
       trace recorded ticked queried after_call fst snd].

Ltac step := run_step; norm.

(** Which [except] clause takes an exception that is known. *)
Ltac decide_exc :=
  first [progress simpl (is_Exception _)
        | progress simpl (is_HTTPException _)]; cbv iota.

(** Counting in a trace that was built step by step. *)
Ltac tally :=
  unfold count; rewrite ?filter_app, ?length_app; simpl; try lia.

(* ===================================================================== *)
(** ** The query primitives *)
(* ===================================================================== *)

Lemma perf_counter_run (E : Env) (m : PyModule) (w : World) :
  In "time" (source_names m) ->
  perf_counter E m w = (Ok (clock E (clock_reads w)), ticked w).
Proof.
  intros H. unfold perf_counter. now rewrite (global_source E m "time" H).
Qed.

(** The [finally] block of [_instrument_db_call], run in a state with a
    pool. *)
Lemma instrument_finally (E : Env) (operation : string) (start_time : Z)
    (w : World) (p : Pool) :
  db_declared E ->
  pool w = Some p ->
  (now <- perf_counter E Database ;;
   child <- labels E db_query_duration_seconds
              [("operation", LStr operation)] ;;
   observe child (now - start_time)%Z ;;
   p' <- get_pool ;;
   match p' with
   | Some p' => gauge_set E db_connections_active (holders p')
   | None => ret tt
   end) w
  = (Ok tt,
     recorded (ticked w)
       [EObserve db_query_duration_seconds [("operation", LStr operation)]
                 (clock E (clock_reads w) - start_time)%Z;
        ESet db_connections_active (holders p)]).
Proof.
  intros (_ & Hdur & Hgauge) Hpool.
  erewrite bind_ok by (apply perf_counter_run, time_in_database).
  rewrite labels_accepts by exact Hdur.
  unfold gauge_set. rewrite Hgauge.
  unfold bind, ret, observe, emit, get_pool, recorded, ticked. simpl.
  rewrite Hpool. simpl. now rewrite <- app_assoc.
Qed.

(** The wrapper around an arbitrary operation that leaves the pool in
    place and raises instances of [Exception] only. *)
Lemma instrument_run (E : Env) (T : Type) (operation : string)
    (func : M T) (w w1 : World) (p p1 : Pool) (r : Result T) :
  db_declared E ->
  pool w = Some p ->
  func (ticked w) = (r, w1) ->
  pool w1 = Some p1 ->
  (forall e, r = Raise e -> is_Exception e = true) ->
  database._instrument_db_call E operation func w
  = (r, recorded (ticked w1)
          [EInc db_operations_total
                [("operation", LStr operation);
                 ("status", LStr (outcome_of r))];
           EObserve db_query_duration_seconds
                    [("operation", LStr operation)]
                    (clock E (clock_reads w1) - clock E (clock_reads w))%Z;
           ESet db_connections_active (holders p1)]).
Proof.
  intros Hdecl Hpool Hfunc Hpool1 Hexc.
  pose proof Hdecl as (Hops & _ & _).
  unfold database._instrument_db_call.
  rewrite bind_get_pool, Hpool.
  rewrite bind_perf_counter by exact time_in_database.
  unfold try_finally, try_except.
  unfold bind at 1. rewrite Hfunc.
  destruct r as [v|e].
  - rewrite labels_accepts by exact Hops.
    unfold bind at 1. unfold ret at 1. unfold bind at 1. unfold inc, emit.
    unfold ret at 1.
    rewrite (@instrument_finally E operation _ _ p1 Hdecl) by exact Hpool1.
    unfold recorded, ticked. simpl. now rewrite <- app_assoc.
  - rewrite (Hexc e eq_refl).
    rewrite labels_accepts by exact Hops.
    unfold bind at 1. unfold ret at 1. unfold bind at 1. unfold inc, emit.
    unfold raise at 1.
    rewrite (@instrument_finally E operation _ _ p1 Hdecl) by exact Hpool1.
    unfold recorded, ticked. simpl. now rewrite <- app_assoc.
Qed.

(** The wrapper around one pool operation. *)
Lemma instrument_pool_call (E : Env) (T : Type) (f : Reply -> T)
    (operation : string) (p p0 : Pool) (op : PoolOp) (query : string)
    (args : list Val) (w : World) :
  db_declared E ->
  pool w = Some p0 ->
  database._instrument_db_call E operation
    (bind (pool_call E p op query args) (fun r => ret (f r))) w
  = (reply_result f (db_reply E (db_requests w)),
     after_call E w p op operation query args
       (reply_result f (db_reply E (db_requests w)))).
Proof.
  intros Hdecl Hpool.
  erewrite instrument_run with (p := p0) (p1 := p0)
    (w1 := queried (ticked w) (EQuery p op query args))
    (r := reply_result f (db_reply E (db_requests w)));
    try assumption.
  - unfold after_call. rewrite Hpool. reflexivity.
  - rewrite bind_pool_call. unfold reply_result. simpl.
    now destruct (failure (db_reply E (db_requests w))).
  - unfold reply_result. intros e.
    destruct (failure (db_reply E (db_requests w))); [|discriminate].
    intros H. injection H as <-. reflexivity.
Qed.

(** C6.  Every wrapped DB call (the pool exists, so the wrapped operation
    runs): the outcome of the operation is the outcome of the wrapper, the
    same value or the same exception; after the operation the wrapper
    records exactly one increment of the db operation counter, with status
    error when the operation failed and success when it returned, exactly
    one observation of the elapsed time in the db duration histogram under
    the operation kind, and sets the active-connections gauge to the holders
    of the pool; the operation runs once.  First for any wrapped operation
    that leaves the pool in place and fails with an [Exception], then for
    the operations of the pool, which the four primitives wrap. *)
Theorem instrumented_call_records (E : Env) (operation : string) (w : World)
    (p : Pool) :
  db_declared E ->
  pool w = Some p ->
  (forall (T : Type) (func : M T) (r : Result T) (w1 : World) (p1 : Pool),
     run func (ticked w) = (r, w1) ->
     pool w1 = Some p1 ->
     (forall e, r = Raise e -> is_Exception e = true) ->
     run (database._instrument_db_call E operation func) w
     = (r, recorded (ticked w1)
             [EInc db_operations_total
                   [("operation", LStr operation);
                    ("status", LStr (outcome_of r))];
              EObserve db_query_duration_seconds
                       [("operation", LStr operation)]
                       (clock E (clock_reads w1) - clock E (clock_reads w))%Z;
              ESet db_connections_active (holders p1)]))
  /\ (forall (T : Type) (f : Reply -> T) (p' : Pool) (op : PoolOp)
             (query : string) (args : list Val),
        run (database._instrument_db_call E operation
               (r <- pool_call E p' op query args ;; ret (f r))) w
        = (reply_result f (db_reply E (db_requests w)),
           recorded
             (ticked (queried (ticked w) (EQuery p' op query args)))
             [EInc db_operations_total
                   [("operation", LStr operation);
                    ("status",
                     LStr (outcome_of
                             (reply_result f (db_reply E (db_requests w)))))];
              EObserve db_query_duration_seconds
                       [("operation", LStr operation)]
                       (clock E (S (clock_reads w))
                        - clock E (clock_reads w))%Z;
              ESet db_connections_active (holders p)])).
Proof.
  intros Hdecl Hpool. unfold run. split.
  - intros T func r w1 p1 Hfunc Hpool1 Hexc.
    now apply instrument_run with (p := p).
  - intros T f p' op query args.
    rewrite instrument_pool_call with (p0 := p) by assumption.
    unfold after_call. now rewrite Hpool.
Qed.

Lemma written_db_declared : db_declared written.
Proof.
  unfold db_declared, accepts. simpl.
  repeat split; try discriminate; reflexivity.
Qed.

Lemma instrumented_call_records_witness :
  db_declared written_refusing
  /\ pool serving = Some (mkPool 0 20)
  /\ run (database._instrument_db_call written_refusing "delete"
            (pool_execute written_refusing (mkPool 0 20) api.delete_query
                          [VInt 42]))
         serving
     = (Raise (DriverError 53),
        mkWorld (Some (mkPool 0 20)) [0] [Running]
          [EQuery (mkPool 0 20) Execute api.delete_query [VInt 42];
           EInc db_operations_total
                [("operation", LStr "delete"); ("status", LStr "error")];
           EObserve db_query_duration_seconds
                    [("operation", LStr "delete")] 3%Z;
           ESet db_connections_active 20%Z]
          2 1 1).
Proof.
  assert (Hdecl : db_declared written_refusing).
  { unfold db_declared, accepts. simpl.
    repeat split; try discriminate; reflexivity. }
  split; [exact Hdecl|]. split; [reflexivity|].
  destruct (@instrumented_call_records written_refusing "delete" serving
              (mkPool 0 20) Hdecl eq_refl) as [_ Hpool].
  exact (Hpool string status (mkPool 0 20) Execute api.delete_query
               [VInt 42]).
Defined.

(** In the program as written ([logging] is not bound in
    [app/database.py]) [init_db] without a pool raises before the first
    attempt and changes nothing. *)
Lemma init_db_raises_as_written (E : Env) (w : World) :
  bound E Database "logging" = false ->
  pool w = None ->
  exists e, run (database.init_db E) w = (Raise e, w).
Proof.
  intros Hlog Hpool. unfold run, database.init_db.
  rewrite bind_get_pool, Hpool.
  unfold getenv. rewrite (@global_source E Database "os") by (simpl; tauto).
  unfold getLogger, global. rewrite Hlog.
  unfold int_, bind, ret, raise.
  destruct (int_of_str E _); [|eauto].
  destruct (int_of_str E _); eauto.
Qed.

(** C9.  With no pool ([pool] is [None]: the state at import, the state
    [close_db] leaves, and the state a failed [init_db] leaves in the
    program as written), each of the four query primitives raises the
    pool-not-initialized error at once and leaves the state as it was: no
    driver call, no metric, no retry. *)
Theorem queries_need_pool (E : Env) (w : World) (query : string)
    (args : list Val) :
  pool w = None ->
  run (database.fetch E query args) w = (Raise database.not_initialized, w)
  /\ run (database.fetchrow E query args) w
     = (Raise database.not_initialized, w)
  /\ run (database.execute E query args) w
     = (Raise database.not_initialized, w)
  /\ run (database.execute_returning E query args) w
     = (Raise database.not_initialized, w)
  /\ pool fresh = None
  /\ (forall w0, pool (snd (run database.close_db w0)) = None)
  /\ (bound E Database "logging" = false ->
      exists e, run (database.init_db E) w = (Raise e, w)).
Proof.
  intros Hpool. unfold run.
  unfold database.fetch, database.fetchrow, database.execute,
    database.execute_returning.
  rewrite !bind_get_pool, Hpool.
  split; [reflexivity|]. split; [reflexivity|]. split; [reflexivity|].
  split; [reflexivity|]. split; [reflexivity|]. split.
  - intros w0. unfold database.close_db, bind, get_pool.
    destruct (pool w0) eqn:H0; [reflexivity | exact H0].
  - intros Hlog. now apply init_db_raises_as_written.
Qed.

Lemma queries_need_pool_witness :
  pool fresh = None
  /\ run (database.fetch written "SELECT 1" []) fresh
     = (Raise database.not_initialized, fresh)
  /\ run (database.execute written "" []) fresh
     = (Raise database.not_initialized, fresh).
Proof.
  split; [reflexivity|].
  destruct (@queries_need_pool written fresh "SELECT 1" [] eq_refl)
    as (Hfetch & _).
  destruct (@queries_need_pool written fresh "" [] eq_refl)
    as (_ & _ & Hexecute & _).
  split; [exact Hfetch | exact Hexecute].
Defined.

(** C10 as stated fails: without a pool the guard of [execute] raises
    [RuntimeError] before the query text is looked at. *)
Lemma blank_query_without_pool : ~ blank_query_raises_IndexError written.
Proof.
  intros H. destruct (H "" [] fresh eq_refl) as [msg Hmsg].
  discriminate Hmsg.
Qed.

(** C10, amended.  With the pool in place: a query that is empty or
    whitespace only makes [execute] raise [IndexError] with the state
    untouched (no driver call, no metric); for every other query the
    operation kind handed to the wrapper is the first whitespace-delimited
    token, lower-cased. *)
Theorem execute_infers_operation (E : Env) (w : World) (p : Pool)
    (query : string) (args : list Val) :
  pool w = Some p ->
  (blank query = true ->
   run (database.execute E query args) w
   = (Raise (IndexError "list index out of range"), w))
  /\ (blank query = false ->
      run (database.execute E query args) w
      = run (database._instrument_db_call E (Py.lower (first_token query))
               (pool_execute E p query args)) w).
Proof.
  intros Hpool. unfold run, database.execute.
  rewrite bind_get_pool, Hpool.
  split; intros Hq.
  - now rewrite (split_blank _ Hq).
  - destruct (split_first_token _ Hq) as [rest ->]. reflexivity.
Qed.

Lemma execute_infers_operation_witness :
  pool serving = Some (mkPool 0 20)
  /\ run (database.execute written "   " []) serving
     = (Raise (IndexError "list index out of range"), serving)
  /\ run (database.execute written api.delete_query [VInt 42]) serving
     = run (database._instrument_db_call written "delete"
              (pool_execute written (mkPool 0 20) api.delete_query
                            [VInt 42])) serving.
Proof.
  split; [reflexivity|].
  destruct (@execute_infers_operation written serving (mkPool 0 20)
              "   " [] eq_refl) as (Hblank & _).
  destruct (@execute_infers_operation written serving (mkPool 0 20)
              api.delete_query [VInt 42] eq_refl) as (_ & Hverb).
  split; [exact (Hblank eq_refl) | exact (Hverb eq_refl)].
Defined.

(* ===================================================================== *)
(** ** Computations that leave a kind of event alone *)
(* ===================================================================== *)

Section Silent.

Variable P : Event -> bool.

Lemma silent_ret {A} (a : A) : silent P (ret a).
Proof. intros w. reflexivity. Qed.

Lemma silent_raise {A} (e : Exc) : silent P (@raise A e).
Proof. intros w. reflexivity. Qed.

Lemma silent_bind {A B} (c : M A) (k : A -> M B) :
  silent P c -> (forall a, silent P (k a)) -> silent P (bind c k).
Proof.
  intros Hc Hk w. unfold bind. specialize (Hc w).
  destruct (c w) as [[a|e] w1]; simpl in *.
  - now rewrite (Hk a w1).
  - exact Hc.
Qed.

Lemma silent_try_except {A} (body : M A) (catches : Exc -> bool)
    (handler : Exc -> M A) :
  silent P body -> (forall e, silent P (handler e)) ->
  silent P (try_except body catches handler).
Proof.
  intros Hb Hh w. unfold try_except. specialize (Hb w).
  destruct (body w) as [[a|e] w1]; simpl in *; [exact Hb|].
  destruct (catches e); simpl; [|exact Hb].
  now rewrite (Hh e w1).
Qed.

Lemma silent_try_finally {A} (body : M A) (final : option A -> M unit) :
  silent P body -> (forall x, silent P (final x)) ->
  silent P (try_finally body final).
Proof.
  intros Hb Hf w. unfold try_finally. specialize (Hb w).
  destruct (body w) as [[a|e] w1]; simpl in *.
  - specialize (Hf (Some a) w1).
    destruct (final (Some a) w1) as [[u|e'] w2]; simpl in *; congruence.
  - specialize (Hf None w1).
    destruct (final None w1) as [[u|e'] w2]; simpl in *; congruence.
Qed.

Lemma silent_emit (ev : Event) : P ev = false -> silent P (emit ev).
Proof.
  intros H w. unfold emit. simpl. rewrite count_snoc, H. apply Nat.add_0_r.
Qed.

Lemma silent_get_pool : silent P get_pool.
Proof. intros w. reflexivity. Qed.

Lemma silent_set_pool (p : option Pool) : silent P (set_pool p).
Proof. intros w. reflexivity. Qed.

Variable E : Env.

Lemma silent_global (m : PyModule) (n : string) : silent P (global E m n).
Proof. intros w. unfold global. now destruct (bound E m n). Qed.

Lemma silent_read_clock : silent P (read_clock E).
Proof. intros w. reflexivity. Qed.

Lemma silent_perf_counter (m : PyModule) : silent P (perf_counter E m).
Proof.
  apply silent_bind; [apply silent_global | intros _; apply silent_read_clock].
Qed.

Lemma silent_datetime_now (m : PyModule) : silent P (datetime_now E m).
Proof.
  apply silent_bind; [apply silent_global | intros _; apply silent_read_clock].
Qed.

Lemma silent_getenv (m : PyModule) (key default : string) :
  silent P (getenv E m key default).
Proof.
  apply silent_bind; [apply silent_global | intros _; apply silent_ret].
Qed.

Lemma silent_int (s : string) : silent P (int_ E s).
Proof. intros w. unfold int_. now destruct (int_of_str E s). Qed.

Lemma silent_gauge_set (m : Metric) (v : Z) :
  P (ESet m v) = false -> silent P (gauge_set E m v).
Proof.
  intros H. unfold gauge_set. destruct (labelnames E m);
    [now apply silent_emit | apply silent_raise].
Qed.

Lemma silent_pool_call (p : Pool) (op : PoolOp) (query : string)
    (args : list Val) :
  P (EQuery p op query args) = false ->
  silent P (pool_call E p op query args).
Proof.
  intros H w. unfold pool_call.
  destruct (failure (db_reply E (db_requests w))); simpl;
    rewrite count_snoc, H; apply Nat.add_0_r.
Qed.

Lemma silent_labels_bind {B} (m : Metric) (kw : Labels)
    (k : Metric * Labels -> M B) :
  silent P (k (m, kw)) -> silent P (bind (labels E m kw) k).
Proof.
  intros H w. unfold bind, labels. destruct (labelnames E m); [reflexivity|].
  destruct (Py.list_eqb _ _); [|reflexivity].
  unfold ret. apply H.
Qed.

Lemma silent_sleep (m : PyModule) (seconds : Z) :
  P (ESleep seconds) = false -> silent P (sleep E m seconds).
Proof.
  intros H. apply silent_bind; [apply silent_global|].
  intros _. now apply silent_emit.
Qed.

Lemma silent_create_pool (cfg : PoolConfig) :
  P (ECreatePool cfg) = false ->
  (forall p, P (EPoolOpened p) = false) ->
  silent P (create_pool E cfg).
Proof.
  intros Hc Ho w. unfold create_pool.
  destruct (create_pool_reply E (pools_requested w)); simpl.
  - rewrite count_snoc, Hc. apply Nat.add_0_r.
  - rewrite !count_snoc, Hc, Ho. now rewrite !Nat.add_0_r.
Qed.

Lemma silent_probe (p : Pool) : P (EProbe p) = false -> silent P (probe E p).
Proof.
  intros H. apply silent_bind; [now apply silent_emit|].
  intros _. destruct (probe_reply E (pool_id p));
    [apply silent_raise | apply silent_ret].
Qed.

Lemma silent_create_task (m : PyModule) :
  (forall t, P (ECreateTask t) = false) -> silent P (create_task E m).
Proof.
  intros H. apply silent_bind; [apply silent_global|].
  intros _ w. simpl. rewrite count_snoc, H. apply Nat.add_0_r.
Qed.

Lemma silent_task_cancel (t : nat) :
  P (ECancel t) = false -> silent P (task_cancel t).
Proof.
  intros H. apply silent_bind; [now apply silent_emit|].
  intros _ w. destruct (nth_error (tasks w) t) as [[| |e]|]; reflexivity.
Qed.

Lemma silent_task_await (t : nat) :
  P (EAwait t) = false -> silent P (task_await t).
Proof.
  intros H. apply silent_bind; [now apply silent_emit|].
  intros _ w. destruct (nth_error (tasks w) t) as [[| |e]|]; reflexivity.
Qed.

Lemma silent_append_task (t : nat) : silent P (main.append_task t).
Proof. intros w. reflexivity. Qed.

Lemma silent_get_tasks : silent P main.get_tasks.
Proof. intros w. reflexivity. Qed.

End Silent.

(** One step of a proof that a computation is silent: the combinators by
    their lemmas, the calls into the runtime by theirs, with what [P] says of
    the event computed. *)
Ltac silent_step :=
  match goal with
  | |- silent _ (bind (labels _ _ _) _) => apply silent_labels_bind
  | |- silent _ (bind _ _) => apply silent_bind; [|intros ?]
  | |- silent _ (try_except _ _ _) => apply silent_try_except; [|intros ?]
  | |- silent _ (try_finally _ _) => apply silent_try_finally; [|intros ?]
  | |- silent _ (ret _) => apply silent_ret
  | |- silent _ (raise _) => apply silent_raise
  | |- silent _ get_pool => apply silent_get_pool
  | |- silent _ (set_pool _) => apply silent_set_pool
  | |- silent _ (emit _) => apply silent_emit; reflexivity
  | |- silent _ (log _) => apply silent_emit; reflexivity
  | |- silent _ (inc _) => apply silent_emit; reflexivity
  | |- silent _ (observe _ _) => apply silent_emit; reflexivity
  | |- silent _ (pool_close _) => apply silent_emit; reflexivity
  | |- silent _ (global _ _ _) => apply silent_global
  | |- silent _ (getLogger _ _) => apply silent_global
  | |- silent _ (getenv _ _ _ _) => apply silent_getenv
  | |- silent _ (int_ _ _) => apply silent_int
  | |- silent _ (perf_counter _ _) => apply silent_perf_counter
  | |- silent _ (datetime_now _ _) => apply silent_datetime_now
  | |- silent _ (sleep _ _ _) => apply silent_sleep; reflexivity
  | |- silent _ (gauge_set _ _ _) => apply silent_gauge_set; reflexivity
  | |- silent _ (pool_call _ _ _ _ _) => apply silent_pool_call; reflexivity
  | |- silent _ (create_pool _ _) =>
      apply silent_create_pool; [reflexivity | intros ?; reflexivity]
  | |- silent _ (probe _ _) => apply silent_probe; reflexivity
  | |- silent _ (create_task _ _) =>
      apply silent_create_task; intros ?; reflexivity
  | |- silent _ (task_cancel _) => apply silent_task_cancel; reflexivity
  | |- silent _ (task_await _) => apply silent_task_await; reflexivity
  | |- silent _ (main.append_task _) => apply silent_append_task
  | |- silent _ main.get_tasks => apply silent_get_tasks
  | |- silent _ (match ?x with _ => _ end) => destruct x
  end.

Ltac silent_tac := repeat silent_step.

(* ===================================================================== *)
(** ** The handlers and the request metrics *)
(* ===================================================================== *)

Lemma silent_instrument (P : Event -> bool) (E : Env) (T : Type)
    (operation : string) (func : M T) :
  (forall kw, P (EInc db_operations_total kw) = false) ->
  (forall kw v, P (EObserve db_query_duration_seconds kw v) = false) ->
  (forall v, P (ESet db_connections_active v) = false) ->
  silent P func ->
  silent P (database._instrument_db_call E operation func).
Proof.
  intros Hinc Hobs Hset Hfunc. unfold database._instrument_db_call.
  silent_tac; try assumption;
    first [apply silent_emit; simpl; auto | apply silent_gauge_set; auto].
Qed.

(** The two predicates that select the updates of the request metrics. *)
Lemma silent_http_create_data (P : Event -> bool) (E : Env)
    (it : DataItemCreate) (bts : list api.BackgroundTask)
    (request : Request) :
  P = is_inc http_requests_total
  \/ P = is_observe http_request_duration_seconds ->
  silent P (api.create_data E it bts request).
Proof.
  intros [-> | ->];
    unfold api.create_data, database.fetchrow, api.getitem,
      api.make_response;
    silent_tac;
    try (apply silent_instrument; try reflexivity;
         unfold pool_fetchrow; silent_tac).
Qed.

Lemma silent_http_delete_data (P : Event -> bool) (E : Env) (item_id : Z) :
  P = is_inc http_requests_total
  \/ P = is_observe http_request_duration_seconds ->
  silent P (api.delete_data E item_id).
Proof.
  intros [-> | ->];
    unfold api.delete_data, database.execute;
    silent_tac;
    try (apply silent_instrument; try reflexivity;
         unfold pool_execute; silent_tac).
Qed.

(** What [dispatch] does around [call_next]: the outcome of [call_next] is
    the outcome of [dispatch], and after the events of [call_next] come one
    increment and one observation, with the labels of the request. *)
Lemma dispatch_run (E : Env) (request : Request)
    (call_next : Request -> M Response) (w w1 : World) (r : Result Response) :
  http_declared E ->
  run (call_next request) (ticked w) = (r, w1) ->
  run (metrics_middleware.dispatch E request call_next) w
  = (r, recorded (ticked w1)
          [EInc http_requests_total
                (metrics_middleware.request_labels request (returned r));
           EObserve http_request_duration_seconds
                    (metrics_middleware.request_labels request (returned r))
                    (clock E (clock_reads w1) - clock E (clock_reads w))%Z]).
Proof.
  intros [Hcount Hdur] Hnext. unfold run in *.
  unfold metrics_middleware.dispatch.
  erewrite bind_ok by (apply perf_counter_run, time_in_middleware).
  unfold try_finally. rewrite Hnext.
  assert (Hfinal : forall response,
    (child <- labels E http_requests_total
                [("method", LStr (method request));
                 ("route", LStr (metrics_middleware.route_of request));
                 ("status_code",
                  LInt (metrics_middleware.status_of response))] ;;
     inc child ;;
     now <- perf_counter E Middleware ;;
     child0 <- labels E http_request_duration_seconds
                 [("method", LStr (method request));
                  ("route", LStr (metrics_middleware.route_of request));
                  ("status_code",
                   LInt (metrics_middleware.status_of response))] ;;
     observe child0 (now - clock E (clock_reads w))%Z) w1
    = (Ok tt,
       recorded (ticked w1)
         [EInc http_requests_total
               (metrics_middleware.request_labels request response);
          EObserve http_request_duration_seconds
                   (metrics_middleware.request_labels request response)
                   (clock E (clock_reads w1) - clock E (clock_reads w))%Z])).
  { intros response.
    rewrite labels_accepts by exact Hcount.
    unfold bind at 1. unfold ret at 1. unfold bind at 1. unfold inc, emit.
    erewrite bind_ok by (apply perf_counter_run, time_in_middleware).
    rewrite labels_accepts by exact Hdur.
    unfold bind, ret, observe, emit, recorded, ticked,
      metrics_middleware.request_labels. simpl.
    now rewrite <- app_assoc. }
  destruct r as [response|e]; cbv beta iota zeta; now rewrite Hfinal.
Qed.

Lemma written_http_declared : http_declared written.
Proof.
  unfold http_declared, accepts. simpl.
  repeat split; try discriminate; reflexivity.
Qed.

(** The label names [log_request] passes are not those the middleware
    passes, so under the declaration that serves the middleware the call
    raises before it records anything. *)
Lemma log_request_raises (E : Env) (request : Request) (response : Response)
    (process_time : Z) (w : World) :
  http_declared E ->
  exists msg,
    run (api.log_request E request response process_time) w
    = (Raise (ValueError msg), w).
Proof.
  intros [Hcount _]. unfold run, api.log_request.
  destruct (@labels_rejects E http_requests_total
              [("method", LStr (method request));
               ("endpoint", LStr (url_path request));
               ("status_code", LInt (response_status response))]
              ["method"; "route"; "status_code"] Hcount) with (w := w)
    as [msg Hmsg]; [discriminate|].
  exists msg. unfold bind. now rewrite Hmsg.
Qed.

(** C1.  Under the declaration of the two request metrics with the labels
    method, route and status_code: whatever [call_next] does, returning a
    response or raising, [dispatch] hands on that outcome and appends, after
    the events of [call_next], exactly one increment of the request counter
    and one observation of the duration histogram, labelled with the method,
    the route and the status code of the response (500 when there is none);
    so around a [call_next] that leaves the two metrics alone the request
    counts once in each.  The two handlers leave them alone, and the
    [log_request] task that [create_data] queues raises before it records
    anything: no second increment or observation. *)
Theorem request_recorded_once (E : Env) :
  http_declared E ->
  (forall request call_next w,
     run (metrics_middleware.dispatch E request call_next) w
     = (fst (run (call_next request) (ticked w)),
        recorded (ticked (snd (run (call_next request) (ticked w))))
          [EInc http_requests_total
                [("method", LStr (method request));
                 ("route", LStr (metrics_middleware.route_of request));
                 ("status_code",
                  LInt (metrics_middleware.status_of
                          (returned
                             (fst (run (call_next request) (ticked w))))))];
           EObserve http_request_duration_seconds
                [("method", LStr (method request));
                 ("route", LStr (metrics_middleware.route_of request));
                 ("status_code",
                  LInt (metrics_middleware.status_of
                          (returned
                             (fst (run (call_next request) (ticked w))))))]
                (clock E (clock_reads
                            (snd (run (call_next request) (ticked w))))
                 - clock E (clock_reads w))%Z]))
  /\ (forall request call_next w,
        silent (is_inc http_requests_total) (call_next request) ->
        silent (is_observe http_request_duration_seconds)
               (call_next request) ->
        count (is_inc http_requests_total)
          (trace (snd (run (metrics_middleware.dispatch E request call_next)
                           w)))
        = count (is_inc http_requests_total) (trace w) + 1
        /\ count (is_observe http_request_duration_seconds)
             (trace (snd (run (metrics_middleware.dispatch E request
                                 call_next) w)))
           = count (is_observe http_request_duration_seconds) (trace w) + 1)
  /\ (forall it bts request,
        silent (is_inc http_requests_total)
               (api.create_data E it bts request)
        /\ silent (is_observe http_request_duration_seconds)
                  (api.create_data E it bts request))
  /\ (forall item_id,
        silent (is_inc http_requests_total) (api.delete_data E item_id)
        /\ silent (is_observe http_request_duration_seconds)
                  (api.delete_data E item_id))
  /\ (forall task w,
        exists msg, run (api.run_task E task) w = (Raise (ValueError msg), w)).
Proof.
  intros Hdecl. split; [|split; [|split; [|split]]].
  - intros request call_next w.
    destruct (run (call_next request) (ticked w)) as [r w1] eqn:Hnext.
    exact (dispatch_run request call_next w Hdecl Hnext).
  - intros request call_next w Hinc Hobs.
    destruct (run (call_next request) (ticked w)) as [r w1] eqn:Hnext.
    rewrite (dispatch_run request call_next w Hdecl Hnext).
    specialize (Hinc (ticked w)). specialize (Hobs (ticked w)).
    unfold run in Hnext. rewrite Hnext in Hinc, Hobs. simpl in Hinc, Hobs.
    norm. unfold count in Hinc, Hobs. split; tally.
  - intros it bts request.
    split; apply silent_http_create_data; [now left | now right].
  - intros item_id.
    split; apply silent_http_delete_data; [now left | now right].
  - intros task w. unfold api.run_task. now apply log_request_raises.
Qed.

Lemma request_recorded_once_witness :
  http_declared written
  /\ trace (snd (run (metrics_middleware.dispatch written delete_42
                        (fun _ => ret (mkResponse 204))) fresh))
     = [EInc http_requests_total
             [("method", LStr "DELETE"); ("route", LStr "/api/data/42");
              ("status_code", LInt 204)];
        EObserve http_request_duration_seconds
             [("method", LStr "DELETE"); ("route", LStr "/api/data/42");
              ("status_code", LInt 204)] 3%Z]
  /\ run (metrics_middleware.dispatch written post_data
            (fun _ => raise (DriverError 7))) fresh
     = (Raise (DriverError 7),
        recorded (ticked (ticked fresh))
          [EInc http_requests_total
                [("method", LStr "POST"); ("route", LStr "/api/data");
                 ("status_code", LInt 500)];
           EObserve http_request_duration_seconds
                [("method", LStr "POST"); ("route", LStr "/api/data");
                 ("status_code", LInt 500)] 3%Z]).
Proof.
  destruct (request_recorded_once written_http_declared) as (Hdispatch & _).
  split; [exact written_http_declared|]. split.
  - rewrite (Hdispatch delete_42 (fun _ => ret (mkResponse 204)) fresh).
    reflexivity.
  - exact (Hdispatch post_data (fun _ => raise (DriverError 7)) fresh).
Defined.




(* ===================================================================== *)
(** ** The handlers and the db operation counter *)
(* ===================================================================== *)

Lemma fetchrow_run (E : Env) (query : string) (args : list Val) (w : World)
    (p : Pool) :
  db_declared E ->
  pool w = Some p ->
  database.fetchrow E query args w
  = (match reply_result (fun r => hd_error (rows r))
             (db_reply E (db_requests w)) with
     | Ok row => Ok (database.dict_or_none row)
     | Raise e => Raise e
     end,
     after_call E w p Fetchrow "select" query args
       (reply_result (fun r => hd_error (rows r))
          (db_reply E (db_requests w)))).
Proof.
  intros Hdecl Hpool. unfold database.fetchrow.
  rewrite bind_get_pool, Hpool. rewrite bind_run.
  unfold pool_fetchrow.
  rewrite instrument_pool_call with (p0 := p) by assumption.
  now destruct (reply_result _ _).
Qed.

Lemma execute_run (E : Env) (query : string) (args : list Val) (w : World)
    (p : Pool) (verb : string) (rest : list string) :
  db_declared E ->
  pool w = Some p ->
  Py.split query = verb :: rest ->
  database.execute E query args w
  = (reply_result status (db_reply E (db_requests w)),
     after_call E w p Execute (Py.lower verb) query args
       (reply_result status (db_reply E (db_requests w)))).
Proof.
  intros Hdecl Hpool Hsplit. unfold database.execute.
  rewrite bind_get_pool, Hpool, Hsplit. cbv zeta.
  unfold pool_execute.
  now rewrite instrument_pool_call with (p0 := p) by assumption.
Qed.

Lemma fetch_run (E : Env) (query : string) (args : list Val) (w : World)
    (p : Pool) :
  db_declared E ->
  pool w = Some p ->
  database.fetch E query args w
  = (reply_result rows (db_reply E (db_requests w)),
     after_call E w p Fetch "select" query args
       (reply_result rows (db_reply E (db_requests w)))).
Proof.
  intros Hdecl Hpool. unfold database.fetch.
  rewrite bind_get_pool, Hpool. rewrite bind_run.
  unfold pool_fetch.
  rewrite instrument_pool_call with (p0 := p) by assumption.
  now destruct (reply_result _ _).
Qed.

Lemma execute_returning_run (E : Env) (query : string) (args : list Val)
    (w : World) (p : Pool) :
  db_declared E ->
  pool w = Some p ->
  database.execute_returning E query args w
  = (match reply_result (fun r => hd_error (rows r))
             (db_reply E (db_requests w)) with
     | Ok row => Ok (database.dict_or_none row)
     | Raise e => Raise e
     end,
     after_call E w p Fetchrow "modify" query args
       (reply_result (fun r => hd_error (rows r))
          (db_reply E (db_requests w)))).
Proof.
  intros Hdecl Hpool. unfold database.execute_returning.
  rewrite bind_get_pool, Hpool. rewrite bind_run.
  unfold pool_fetchrow.
  rewrite instrument_pool_call with (p0 := p) by assumption.
  now destruct (reply_result _ _).
Qed.

(** The events of one wrapped pool operation: one call of the driver, one
    increment of the counter. *)
Lemma after_call_trace (E : Env) (T : Type) (w : World) (p : Pool)
    (op : PoolOp) (operation query : string) (args : list Val)
    (r : Result T) :
  exists evs,
    trace (after_call E w p op operation query args r) = trace w ++ evs
    /\ count (is_inc db_operations_total) evs = 1
    /\ count is_query evs = 1.
Proof.
  unfold after_call. norm. rewrite <- app_assoc.
  eexists. split; [reflexivity|]. split; reflexivity.
Qed.

Lemma bind_getitem {B} (result : option Row) (key : string) (k : Val -> M B)
    (w : World) :
  bind (api.getitem result key) k w
  = match result with
    | Some row =>
        match api.lookup key row with
        | Some v => k v w
        | None => (Raise (KeyError key), w)
        end
    | None => (Raise (KeyError key), w)
    end.
Proof.
  unfold api.getitem. destruct result as [row|]; [|reflexivity].
  now destruct (api.lookup key row).
Qed.

Lemma bind_make_response {B} (E : Env) (it : DataItemCreate) (i c u : Val)
    (k : api.DataItemResponse -> M B) (w : World) :
  bind (api.make_response E it i c u) k w
  = if response_model_ok E it i c u
    then k (api.mkDataItemResponse it i c u) w
    else (Raise ValidationError, w).
Proof.
  unfold api.make_response. now destruct (response_model_ok E it i c u).
Qed.

(** The cases the evaluation of a handler splits into. *)
Ltac split_case :=
  match goal with
  | |- context [match failure ?r with _ => _ end] =>
      destruct (failure r) eqn:?
  | |- context [database.dict_or_none (hd_error ?r)] =>
      destruct r as [|[|? ?] ?];
      cbn [hd_error database.dict_or_none api.truthy]
  | |- context [match api.lookup ?k ?row with _ => _ end] =>
      destruct (api.lookup k row) eqn:?
  | |- context [if response_model_ok ?E ?a ?b ?c ?d then _ else _] =>
      destruct (response_model_ok E a b c d) eqn:?
  | |- context [if String.eqb ?a ?b then _ else _] =>
      destruct (String.eqb a b) eqn:?
  end.

Ltac crunch :=
  repeat first [step | rewrite bind_getitem | rewrite bind_make_response
               | decide_exc | split_case; norm].

(** [create_data]: one increment more than pool operations, and that one
    under the operation ["create"]. *)
Lemma create_data_trace (E : Env) (it : DataItemCreate)
    (bts : list api.BackgroundTask) (request : Request) (w : World) :
  db_declared E ->
  exists evs,
    trace (snd (api.create_data E it bts request w)) = trace w ++ evs
    /\ count (is_inc db_operations_total) evs = count is_query evs + 1
    /\ count (is_db_inc_of "create") evs = 1
    /\ count is_query evs = match pool w with Some _ => 1 | None => 0 end.
Proof.
  intros Hdecl. pose proof Hdecl as (Hops & Hdur & Hgauge).
  unfold api.create_data.
  repeat step.
  rewrite bind_run.
  destruct (pool w) as [p|] eqn:Hpool.
  - rewrite fetchrow_run with (p := p) by (simpl; assumption).
    unfold reply_result. norm.
    crunch; rewrite <- ?app_assoc;
      (eexists; split; [reflexivity|]); repeat split; reflexivity.
  - unfold database.fetchrow. rewrite bind_get_pool. norm. rewrite Hpool.
    crunch. rewrite <- ?app_assoc. eexists; split; [reflexivity|].
    repeat split; reflexivity.
Qed.

(** [delete_data]: as many increments as pool operations, and one more,
    again under ["delete"], when the handler answers 500. *)
Lemma delete_data_trace (E : Env) (item_id : Z) (w : World) :
  db_declared E ->
  exists evs,
    trace (snd (api.delete_data E item_id w)) = trace w ++ evs
    /\ count (is_inc db_operations_total) evs
       = count is_query evs
         + (if server_error (fst (api.delete_data E item_id w))
            then 1 else 0)
    /\ count (is_db_inc_of "delete") evs
       = count (is_inc db_operations_total) evs
    /\ count is_query evs = match pool w with Some _ => 1 | None => 0 end.
Proof.
  intros Hdecl. pose proof Hdecl as (Hops & Hdur & Hgauge).
  unfold api.delete_data.
  rewrite run_try_except. rewrite bind_run.
  destruct (pool w) as [p|] eqn:Hpool.
  - rewrite execute_run with (p := p) (verb := "DELETE")
      (rest := ["FROM"; "user_data"; "WHERE"; "id"; "="; "$1"])
      by (try reflexivity; assumption).
    unfold reply_result. norm.
    crunch; rewrite <- ?app_assoc;
      (eexists; split; [reflexivity|]); repeat split; reflexivity.
  - unfold database.execute. rewrite bind_get_pool. norm. rewrite Hpool.
    crunch. rewrite <- ?app_assoc.
    eexists; split; [reflexivity|]. repeat split; reflexivity.
Qed.

(** A delete that the database refuses: the executor and the handler both
    increment the counter under (delete, error). *)
Example delete_refused :
  run (api.delete_data written_refusing 42) serving
  = (Raise (HTTPException 500),
     mkWorld (Some (mkPool 0 20)) [0] [Running]
       [EQuery (mkPool 0 20) Execute api.delete_query [VInt 42];
        EInc db_operations_total
             [("operation", LStr "delete"); ("status", LStr "error")];
        EObserve db_query_duration_seconds [("operation", LStr "delete")] 3;
        ESet db_connections_active 20;
        ELog ERROR;
        EInc db_operations_total
             [("operation", LStr "delete"); ("status", LStr "error")]]
       2 1 1).
Proof. reflexivity. Qed.

(** A successful insert: the executor counts it under (select, success),
    the handler under (create, success), and [log_request] is queued. *)
Example create_succeeds :
  run (api.create_data written jane [] post_data) serving
  = (Ok (api.mkDataItemResponse jane (VInt 7) (VTime 1000) VNone,
         [api.mkLogRequest post_data (mkResponse 201) 9]),
     mkWorld (Some (mkPool 0 20)) [0] [Running]
       [ELog INFO;
        EQuery (mkPool 0 20) Fetchrow api.insert_query
               [VStr "Jane Doe"; VStr "jane@example.com"; VNone];
        EInc db_operations_total
             [("operation", LStr "select"); ("status", LStr "success")];
        EObserve db_query_duration_seconds [("operation", LStr "select")] 3;
        ESet db_connections_active 20;
        ELog INFO;
        EInc db_operations_total
             [("operation", LStr "create"); ("status", LStr "success")];
        ELog INFO]
       4 1 1).
Proof. reflexivity. Qed.

(** C4 as stated fails: a successful [create_data] makes one pool
    operation and increments the counter twice, once in the executor (under
    ["select"]) and once in the handler (under ["create"]). *)
Lemma create_data_counts_twice : ~ db_counter_once_per_call written.
Proof.
  intros [Hcreate _].
  specialize (Hcreate jane [] post_data serving
                (trace (snd (run (api.create_data written jane [] post_data)
                                 serving)))
                eq_refl).
  vm_compute in Hcreate. discriminate Hcreate.
Qed.

(** C4, amended.  The query executor increments the db operation counter
    exactly once for every pool operation it attempts.  The handlers add
    increments of their own: [create_data] one per request, under the
    operation ["create"], also when no pool operation was attempted;
    [delete_data] one, under ["delete"], when it answers 500. *)
Theorem db_counter_per_call_and_handler (E : Env) (w : World) :
  db_declared E ->
  (forall p query args,
     pool w = Some p ->
     (exists evs,
        trace (snd (run (database.fetch E query args) w)) = trace w ++ evs
        /\ count (is_inc db_operations_total) evs = 1
        /\ count is_query evs = 1)
     /\ (exists evs,
          trace (snd (run (database.fetchrow E query args) w))
          = trace w ++ evs
          /\ count (is_inc db_operations_total) evs = 1
          /\ count is_query evs = 1)
     /\ (exists evs,
          trace (snd (run (database.execute_returning E query args) w))
          = trace w ++ evs
          /\ count (is_inc db_operations_total) evs = 1
          /\ count is_query evs = 1)
     /\ (blank query = false ->
         exists evs,
           trace (snd (run (database.execute E query args) w))
           = trace w ++ evs
           /\ count (is_inc db_operations_total) evs = 1
           /\ count is_query evs = 1))
  /\ (forall it bts request,
        exists evs,
          trace (snd (run (api.create_data E it bts request) w))
          = trace w ++ evs
          /\ count (is_inc db_operations_total) evs = count is_query evs + 1
          /\ count (is_db_inc_of "create") evs = 1
          /\ count is_query evs
             = match pool w with Some _ => 1 | None => 0 end)
  /\ (forall item_id,
        exists evs,
          trace (snd (run (api.delete_data E item_id) w)) = trace w ++ evs
          /\ count (is_inc db_operations_total) evs
             = count is_query evs
               + (if server_error (fst (run (api.delete_data E item_id) w))
                  then 1 else 0)
          /\ count (is_db_inc_of "delete") evs
             = count (is_inc db_operations_total) evs
          /\ count is_query evs
             = match pool w with Some _ => 1 | None => 0 end).
Proof.
  intros Hdecl. unfold run. split; [|split].
  - intros p query args Hpool. split; [|split; [|split]].
    + rewrite fetch_run with (p := p) by assumption. apply after_call_trace.
    + rewrite fetchrow_run with (p := p) by assumption.
      apply after_call_trace.
    + rewrite execute_returning_run with (p := p) by assumption.
      apply after_call_trace.
    + intros Hq. destruct (split_first_token _ Hq) as [rest Hsplit].
      rewrite execute_run with (p := p) (verb := first_token query)
        (rest := rest) by assumption.
      apply after_call_trace.
  - intros it bts request. now apply create_data_trace.
  - intros item_id. now apply delete_data_trace.
Qed.

Lemma db_counter_per_call_and_handler_witness :
  db_declared written
  /\ exists evs,
       trace (snd (run (api.create_data written jane [] post_data) serving))
       = trace serving ++ evs
       /\ count (is_inc db_operations_total) evs = count is_query evs + 1
       /\ count (is_db_inc_of "create") evs = 1
       /\ count is_query evs = 1.
Proof.
  split; [exact written_db_declared|].
  destruct (@db_counter_per_call_and_handler written serving
              written_db_declared) as (_ & Hcreate & _).
  exact (Hcreate jane [] post_data).
Defined.

(* ===================================================================== *)
(** ** The pool at start and at shutdown *)
(* ===================================================================== *)

(** With a pool in place [init_db] returns at once and changes nothing. *)
Lemma init_db_guard (E : Env) (w : World) (p : Pool) :
  pool w = Some p -> run (database.init_db E) w = (Ok tt, w).
Proof.
  intros Hpool. unfold run, database.init_db.
  now rewrite bind_get_pool, Hpool.
Qed.

(** C8, the code at the failing input: with the database unreachable,
    [init_db] as written raises [NameError] for [logging] (line 56) before
    it asks for a pool once; no attempt, no delay. *)
Theorem init_db_never_connects :
  run (database.init_db written_unreachable) fresh
  = (Raise (NameError "logging"), fresh).
Proof. reflexivity. Qed.

(** The retry loop itself, run with the two missing imports in place:
    five attempts, delays of 2, 4, 8 and 16 seconds between them, and the
    failure of the fifth attempt raised. *)
Lemma init_db_retries_when_imported :
  fst (run (database.init_db imported_unreachable) fresh)
  = Raise (DriverError 111)
  /\ count is_create_pool
       (trace (snd (run (database.init_db imported_unreachable) fresh))) = 5
  /\ sleeps (trace (snd (run (database.init_db imported_unreachable) fresh)))
     = [2; 4; 8; 16]%Z
  /\ pool (snd (run (database.init_db imported_unreachable) fresh)) = None.
Proof. repeat split; reflexivity. Qed.

(** C7, the code at the failing input: with the database reachable, two
    consecutive calls of [init_db] as written both raise [NameError] and
    create no pool. *)
Theorem init_db_twice_creates_no_pool :
  fst (run (database.init_db written) fresh) = Raise (NameError "logging")
  /\ fst (run (database.init_db written)
             (snd (run (database.init_db written) fresh)))
     = Raise (NameError "logging")
  /\ count is_pool_opened
       (trace (snd (run (database.init_db written)
                        (snd (run (database.init_db written) fresh))))) = 0
  /\ pool (snd (run (database.init_db written)
                    (snd (run (database.init_db written) fresh)))) = None.
Proof. repeat split; reflexivity. Qed.

(** With the two missing imports in place the second call finds the pool
    of the first and the two calls create one pool. *)
Lemma init_db_twice_when_imported :
  fst (run (database.init_db imported) fresh) = Ok tt
  /\ run (database.init_db imported)
         (snd (run (database.init_db imported) fresh))
     = (Ok tt, snd (run (database.init_db imported) fresh))
  /\ count is_pool_opened
       (trace (snd (run (database.init_db imported)
                        (snd (run (database.init_db imported) fresh))))) = 1.
Proof. repeat split; reflexivity. Qed.

(** C5, the code at the failing input: [_shutdown] in a state with a pool
    and the sampler running cancels and awaits the task, logs, and returns;
    the pool is still there and was never closed. *)
Theorem shutdown_leaves_pool_open :
  run (main._shutdown written) serving
  = (Ok tt,
     mkWorld (Some (mkPool 0 20)) [0] [Cancelled]
             [ECancel 0; EAwait 0; ELog INFO] 0 1 0)
  /\ count is_pool_close (trace (snd (run (main._shutdown written) serving)))
     = 0.
Proof. split; reflexivity. Qed.

Lemma shutdown_for_keeps_pool (E : Env) (ts : list nat) (w : World) :
  pool (snd (main.shutdown_for E ts w)) = pool w
  /\ count is_pool_close (trace (snd (main.shutdown_for E ts w)))
     = count is_pool_close (trace w).
Proof.
  revert w. induction ts as [|t rest IH]; intros w; [split; reflexivity|].
  cbn [main.shutdown_for].
  unfold task_cancel, task_await, emit, try_except, global, ret, bind.
  rewrite !bound_source by (simpl; tauto).
  cbn [pool tasks trace fst snd].
  repeat match goal with
         | |- context [match nth_error ?l ?i with _ => _ end] =>
             destruct (nth_error l i) as [[| |?]|]
         | |- context [if is_CancelledError ?e then _ else _] =>
             destruct (is_CancelledError e)
         end;
    cbn [pool tasks trace fst snd is_CancelledError];
    try match goal with
        | |- context [main.shutdown_for E rest ?w'] =>
            destruct (IH w') as [IHp IHc]; rewrite IHp, IHc
        end;
    cbn [pool tasks trace fst snd];
    (split; [reflexivity | rewrite !count_snoc; simpl; lia]).
Qed.

(** X23.  [_shutdown] never touches the pool, whatever the state and the
    tasks: the pool variable is as before, and no pool is closed. *)
Lemma shutdown_keeps_pool (E : Env) (w : World) :
  pool (snd (run (main._shutdown E) w)) = pool w
  /\ count is_pool_close (trace (snd (run (main._shutdown E) w)))
     = count is_pool_close (trace w).
Proof.
  unfold run, main._shutdown, main.get_tasks. rewrite bind_run. norm.
  rewrite bind_run.
  destruct (shutdown_for_keeps_pool E (_background_tasks w) w) as [Hp Hc].
  destruct (main.shutdown_for E (_background_tasks w) w) as [[u|e] w1];
    norm; simpl in Hp, Hc.
  - unfold log, emit. norm. rewrite count_snoc. simpl. split; [exact Hp | lia].
  - now split.
Qed.

(* ===================================================================== *)
(** ** Start-up *)
(* ===================================================================== *)

Section Proper.








Variable E : Env.








End Proper.









Lemma bind_set_pool {B} (p : option Pool) (k : unit -> M B) (w : World) :
  bind (set_pool p) k w
  = k tt (mkWorld p (_background_tasks w) (tasks w) (trace w)
                  (clock_reads w) (pools_requested w) (db_requests w)).
Proof. reflexivity. Qed.




Lemma bind_getenv {B} (E : Env) (m : PyModule) (key default : string)
    (k : string -> M B) (w : World) :
  bind (getenv E m key default) k w
  = if bound E m "os"
    then k (match environ E key with Some v => v | None => default end) w
    else (Raise (NameError "os"), w).
Proof.
  unfold getenv, global. rewrite bind_bind.
  now destruct (bound E m "os").
Qed.

Lemma bind_int {B} (E : Env) (s : string) (k : Z -> M B) (w : World) :
  bind (int_ E s) k w
  = match int_of_str E s with
    | Some n => k n w
    | None =>
        (Raise (ValueError "invalid literal for int() with base 10"), w)
    end.
Proof. unfold int_. now destruct (int_of_str E s). Qed.






Lemma sleeps_app (a b : list Event) : sleeps (a ++ b) = sleeps a ++ sleeps b.
Proof.
  induction a as [|ev a IH]; [reflexivity|].
  destruct ev; simpl; rewrite IH; reflexivity.
Qed.

Lemma bind_create_pool_fails {B} (E : Env) (cfg : PoolConfig)
    (k : Pool -> M B) (w : World) (code : nat) :
  create_pool_reply E (pools_requested w) = Some code ->
  bind (create_pool E cfg) k w
  = (Raise (DriverError code),
     mkWorld (pool w) (_background_tasks w) (tasks w)
             (trace w ++ [ECreatePool cfg]) (clock_reads w)
             (S (pools_requested w)) (db_requests w)).
Proof. intros H. unfold bind, create_pool. now rewrite H. Qed.

Lemma bind_sleep {B} (E : Env) (m : PyModule) (seconds : Z)
    (k : unit -> M B) (w : World) :
  bound E m "asyncio" = true ->
  bind (sleep E m seconds) k w = k tt (recorded w [ESleep seconds]).
Proof.
  intros H. unfold sleep, global. rewrite H. reflexivity.
Qed.

(** One failed attempt that is not the last: the call, the delay, and on
    to the next attempt with the delay doubled. *)
Lemma init_db_attempt_fails (E : Env) (cfg : PoolConfig) (attempt : nat)
    (retry_delay : Z) (w : World) (code : nat) :
  bound E Database "asyncio" = true ->
  create_pool_reply E (pools_requested w) = Some code ->
  (attempt < database.max_retries)%nat ->
  database.init_db_attempt E cfg attempt retry_delay w
  = (Ok (database.Next (retry_delay * 2)),
     mkWorld (pool w) (_background_tasks w) (tasks w)
             (trace w ++ [ELog INFO; ECreatePool cfg; ELog ERROR; ELog INFO;
                          ESleep retry_delay])
             (clock_reads w) (S (pools_requested w)) (db_requests w)).
Proof.
  intros Hasyncio Hreply Hlt.
  unfold database.init_db_attempt, database.connect.
  rewrite run_try_except, bind_bind, bind_log, bind_bind.
  rewrite bind_global by (simpl; tauto).
  rewrite bind_bind. rewrite bind_create_pool_fails with (code := code)
    by exact Hreply.
  simpl (is_Exception _). cbv iota. rewrite bind_log.
  replace (attempt <? database.max_retries)%nat with true
    by (symmetry; now apply Nat.ltb_lt).
  rewrite bind_log, bind_sleep by exact Hasyncio.
  rewrite run_ret. unfold recorded. norm. now rewrite <- !app_assoc.
Qed.

Lemma init_db_attempt_last (E : Env) (cfg : PoolConfig)
    (retry_delay : Z) (w : World) (code : nat) :
  create_pool_reply E (pools_requested w) = Some code ->
  database.init_db_attempt E cfg database.max_retries retry_delay w
  = (Raise (DriverError code),
     mkWorld (pool w) (_background_tasks w) (tasks w)
             (trace w ++ [ELog INFO; ECreatePool cfg; ELog ERROR;
                          ELog CRITICAL])
             (clock_reads w) (S (pools_requested w)) (db_requests w)).
Proof.
  intros Hreply.
  unfold database.init_db_attempt, database.connect.
  rewrite run_try_except, bind_bind, bind_log, bind_bind.
  rewrite bind_global by (simpl; tauto).
  rewrite bind_bind. rewrite bind_create_pool_fails with (code := code)
    by exact Hreply.
  simpl (is_Exception _). cbv iota. rewrite bind_log.
  rewrite Nat.ltb_irrefl. rewrite bind_log, run_raise.
  unfold recorded. norm. now rewrite <- !app_assoc.
Qed.

(** The retry loop as it is coded, once [logging] and [asyncio] are bound
    in [app/database.py]: when every attempt to create the pool fails there
    are exactly [max_retries] = 5 attempts, the delays between them are 2,
    4, 8 and 16 seconds, and the failure of the last attempt is raised. *)
Lemma init_db_retries_then_raises (E : Env) (w : World) (port_ max_ : Z) :
  bound E Database "logging" = true ->
  bound E Database "asyncio" = true ->
  pool w = None ->
  int_of_str E (match environ E "DB_PORT" with Some v => v | None => "5432" end)
  = Some port_ ->
  int_of_str E (match environ E "DB_MAX_CONNECTIONS" with
                | Some v => v | None => "20" end) = Some max_ ->
  (forall n, create_pool_reply E n <> None) ->
  exists code w',
    run (database.init_db E) w = (Raise (DriverError code), w')
    /\ create_pool_reply E (4 + pools_requested w) = Some code
    /\ count is_create_pool (trace w') = count is_create_pool (trace w) + 5
    /\ sleeps (trace w') = sleeps (trace w) ++ [2; 4; 8; 16]%Z
    /\ pool w' = None.
Proof.
  intros Hlog Hasyncio Hpool Hport Hmax Hfail.
  assert (Hreply : forall n, exists code, create_pool_reply E n = Some code).
  { intros n. specialize (Hfail n).
    destruct (create_pool_reply E n) as [code|]; [eauto | contradiction]. }
  unfold run, database.init_db. rewrite bind_get_pool, Hpool.
  rewrite bind_getenv, (@bound_source E Database "os") by (simpl; tauto).
  rewrite bind_getenv, (@bound_source E Database "os") by (simpl; tauto).
  cbv beta. rewrite bind_int, Hport.
  do 3 (rewrite bind_getenv, (@bound_source E Database "os")
          by (simpl; tauto); cbv beta).
  rewrite bind_getenv, (@bound_source E Database "os") by (simpl; tauto).
  cbv beta. rewrite bind_int, Hmax.
  unfold getLogger, global. rewrite Hlog. rewrite bind_ret, bind_log.
  cbn [seq database.max_retries database.init_db_for].
  destruct (Hreply (pools_requested w)) as [c1 H1].
  destruct (Hreply (1 + pools_requested w)%nat) as [c2 H2].
  destruct (Hreply (2 + pools_requested w)%nat) as [c3 H3].
  destruct (Hreply (3 + pools_requested w)%nat) as [c4 H4].
  destruct (Hreply (4 + pools_requested w)%nat) as [c5 H5].
  rewrite bind_run.
  rewrite init_db_attempt_fails with (code := c1)
    by (first [assumption | unfold database.max_retries; lia]).
  rewrite bind_run.
  rewrite init_db_attempt_fails with (code := c2)
    by (first [assumption | unfold database.max_retries; lia]).
  rewrite bind_run.
  rewrite init_db_attempt_fails with (code := c3)
    by (first [assumption | unfold database.max_retries; lia]).
  rewrite bind_run.
  rewrite init_db_attempt_fails with (code := c4)
    by (first [assumption | unfold database.max_retries; lia]).
  rewrite bind_run.
  change 5%nat with database.max_retries.
  rewrite init_db_attempt_last with (code := c5) by assumption.
  exists c5. eexists. split; [reflexivity|]. norm.
  split; [exact H5|]. rewrite <- !app_assoc.
  split; [|split; [|exact Hpool]].
  - tally. reflexivity.
  - rewrite !sleeps_app. simpl. reflexivity.
Qed.

(* ===================================================================== *)
(** ** Further properties: the database layer *)
(* ===================================================================== *)

(** X1.  [close_db] closes the pool once: with a pool in place it closes
    that pool and clears the variable, and a second call does nothing. *)
Theorem close_db_closes_once (w : World) (p : Pool) :
  pool w = Some p ->
  exists w1,
    run database.close_db w = (Ok tt, w1)
    /\ pool w1 = None
    /\ trace w1 = trace w ++ [EPoolClose p]
    /\ run database.close_db w1 = (Ok tt, w1).
Proof.
  intros Hpool. unfold run, database.close_db.
  rewrite bind_get_pool, Hpool. unfold pool_close.
  rewrite bind_emit. unfold set_pool. norm.
  eexists. split; [reflexivity|]. norm.
  repeat split.
Qed.

Lemma close_db_closes_once_witness :
  pool serving = Some (mkPool 0 20)
  /\ exists w1,
       run database.close_db serving = (Ok tt, w1)
       /\ pool w1 = None
       /\ trace w1 = trace serving ++ [EPoolClose (mkPool 0 20)]
       /\ run database.close_db w1 = (Ok tt, w1).
Proof.
  split; [reflexivity|].
  exact (@close_db_closes_once serving (mkPool 0 20) eq_refl).
Defined.

(** X2.  The query functions hand on what the driver answered and record
    the call under a fixed operation: [fetch] and [fetchrow] under
    ["select"], [execute_returning] under ["modify"]; [fetchrow] and
    [execute_returning] turn a missing or empty record into [None], and a
    driver error into the same error, counted under the status
    ["error"]. *)
Theorem query_functions_record (E : Env) (w : World) (p : Pool)
    (query : string) (args : list Val) :
  db_declared E ->
  pool w = Some p ->
  let reply := db_reply E (db_requests w) in
  run (database.fetch E query args) w
  = (reply_result rows reply,
     after_call E w p Fetch "select" query args (reply_result rows reply))
  /\ run (database.fetchrow E query args) w
     = (match failure reply with
        | Some code => Raise (DriverError code)
        | None => Ok (match rows reply with
                      | ((_ :: _) as row) :: _ => Some row
                      | _ => None
                      end)
        end,
        after_call E w p Fetchrow "select" query args
          (reply_result (fun r => hd_error (rows r)) reply))
  /\ run (database.execute_returning E query args) w
     = (match failure reply with
        | Some code => Raise (DriverError code)
        | None => Ok (match rows reply with
                      | ((_ :: _) as row) :: _ => Some row
                      | _ => None
                      end)
        end,
        after_call E w p Fetchrow "modify" query args
          (reply_result (fun r => hd_error (rows r)) reply)).
Proof.
  intros Hdecl Hpool reply. unfold run.
  rewrite (fetch_run query args w Hdecl Hpool).
  rewrite (fetchrow_run query args w Hdecl Hpool).
  rewrite (execute_returning_run query args w Hdecl Hpool).
  fold reply. unfold reply_result.
  destruct (failure reply) eqn:Hf; [repeat split|].
  destruct (rows reply) as [|[|? ?] ?]; repeat split.
Qed.

Lemma query_functions_record_witness :
  db_declared written_no_row
  /\ pool serving = Some (mkPool 0 20)
  /\ fst (run (database.fetchrow written_no_row "SELECT 1" []) serving)
     = Ok None.
Proof.
  assert (Hdecl : db_declared written_no_row).
  { repeat split; try discriminate; reflexivity. }
  split; [exact Hdecl|]. split; [reflexivity|].
  destruct (@query_functions_record written_no_row serving (mkPool 0 20)
              "SELECT 1" [] Hdecl eq_refl) as [_ [H _]].
  rewrite H. reflexivity.
Defined.

Lemma labels_rejected (E : Env) (m : Metric) (kw : Labels) (w : World) :
  rejects E m (map fst kw) ->
  exists msg, labels E m kw w = (Raise (ValueError msg), w).
Proof.
  unfold rejects, labels. intros [Hnone|Hdiff].
  - rewrite Hnone. eexists. reflexivity.
  - destruct (labelnames E m) as [|n names]; [eexists; reflexivity|].
    rewrite list_eqb_false by exact Hdiff. eexists. reflexivity.
Qed.

Lemma labels_cases (E : Env) (m : Metric) (kw : Labels) (w : World) :
  labels E m kw w = (Ok (m, kw), w)
  \/ exists msg, labels E m kw w = (Raise (ValueError msg), w).
Proof.
  unfold labels. destruct (labelnames E m) as [|n names].
  - right. eexists. reflexivity.
  - destruct (Py.list_eqb _ _); [left; reflexivity|].
    right. eexists. reflexivity.
Qed.

Lemma gauge_set_cases (E : Env) (m : Metric) (v : Z) (w : World) :
  gauge_set E m v w = (Ok tt, recorded w [ESet m v])
  \/ exists msg, gauge_set E m v w = (Raise (ValueError msg), w).
Proof.
  unfold gauge_set. destruct (labelnames E m).
  - left. reflexivity.
  - right. eexists. reflexivity.
Qed.

Lemma accepts_rejects (E : Env) (m : Metric) (names names' : list string) :
  accepts E m names -> Py.sorted names' <> Py.sorted names ->
  rejects E m names'.
Proof.
  intros [_ Heq] Hdiff. right. now rewrite <- Heq.
Qed.

(** X3.  An operation that ends with something that is no [Exception] (a
    cancellation) passes through [_instrument_db_call] uncounted: the
    [except Exception] clause does not run, so the db operation counter is
    not incremented, while the [finally] block still observes the duration
    and sets the gauge. *)
Theorem instrument_cancelled_uncounted (E : Env) (T : Type)
    (operation : string) (func : M T) (w w1 : World) (p p1 : Pool) (e : Exc) :
  db_declared E ->
  pool w = Some p ->
  run func (ticked w) = (Raise e, w1) ->
  pool w1 = Some p1 ->
  is_Exception e = false ->
  run (database._instrument_db_call E operation func) w
  = (Raise e,
     recorded (ticked w1)
       [EObserve db_query_duration_seconds [("operation", LStr operation)]
                 (clock E (clock_reads w1) - clock E (clock_reads w))%Z;
        ESet db_connections_active (holders p1)]).
Proof.
  intros Hdecl Hpool Hfunc Hpool1 Hexc. unfold run in *.
  unfold database._instrument_db_call.
  rewrite bind_get_pool, Hpool.
  rewrite bind_perf_counter by exact time_in_database.
  unfold try_finally, try_except.
  unfold bind at 1. rewrite Hfunc, Hexc.
  now rewrite (@instrument_finally E operation _ _ p1 Hdecl) by exact Hpool1.
Qed.

Lemma instrument_cancelled_uncounted_witness :
  run (database._instrument_db_call written "select"
         (raise CancelledError : M unit)) serving
  = (Raise CancelledError,
     mkWorld (Some (mkPool 0 20)) [0] [Running]
       [EObserve db_query_duration_seconds [("operation", LStr "select")] 3%Z;
        ESet db_connections_active 20%Z]
       2 1 0).
Proof.
  exact (@instrument_cancelled_uncounted written unit "select"
           (raise CancelledError) serving (ticked serving)
           (mkPool 0 20) (mkPool 0 20) CancelledError
           written_db_declared eq_refl eq_refl eq_refl eq_refl).
Defined.

(** X4.  When the pool variable is empty by the time the wrapped operation
    ends, [_instrument_db_call] still counts and observes the call, and
    leaves the gauge alone. *)
Theorem instrument_without_pool_after (E : Env) (T : Type)
    (operation : string) (func : M T) (w w1 : World) (p : Pool)
    (r : Result T) :
  db_declared E ->
  pool w = Some p ->
  run func (ticked w) = (r, w1) ->
  pool w1 = None ->
  (forall e, r = Raise e -> is_Exception e = true) ->
  run (database._instrument_db_call E operation func) w
  = (r, recorded (ticked w1)
          [EInc db_operations_total
                [("operation", LStr operation);
                 ("status", LStr (outcome_of r))];
           EObserve db_query_duration_seconds
                    [("operation", LStr operation)]
                    (clock E (clock_reads w1) - clock E (clock_reads w))%Z]).
Proof.
  intros Hdecl Hpool Hfunc Hpool1 Hexc. unfold run in *.
  pose proof Hdecl as (Hops & Hdur & _).
  unfold database._instrument_db_call.
  rewrite bind_get_pool, Hpool.
  rewrite bind_perf_counter by exact time_in_database.
  rewrite run_try_finally, run_try_except, bind_run, Hfunc.
  destruct r as [v|e].
  - repeat step. rewrite Hpool1. step.
    unfold recorded. norm. now rewrite <- !app_assoc.
  - norm. rewrite (Hexc e eq_refl). repeat step. rewrite Hpool1. step.
    unfold recorded. norm. now rewrite <- !app_assoc.
Qed.

Lemma instrument_without_pool_after_witness :
  run (database._instrument_db_call written "select"
         (database.close_db ;; ret 1%Z)) serving
  = (Ok 1%Z,
     mkWorld None [0] [Running]
       [EPoolClose (mkPool 0 20);
        EInc db_operations_total
             [("operation", LStr "select"); ("status", LStr "success")];
        EObserve db_query_duration_seconds [("operation", LStr "select")] 3%Z]
       2 1 0).
Proof.
  apply (@instrument_without_pool_after written Z "select"
           (database.close_db ;; ret 1%Z) serving
           (mkWorld None [0] [Running] [EPoolClose (mkPool 0 20)] 1 1 0)
           (mkPool 0 20) (Ok 1%Z)).
  - exact written_db_declared.
  - reflexivity.
  - reflexivity.
  - reflexivity.
  - intros e H. discriminate H.
Defined.

(** X5.  When the db operation counter does not take the label names
    [operation] and [status], a wrapped operation that returned normally
    ends in the [ValueError] of the metric: the failed increment in the
    [try] is caught by [except Exception], fails again there, and the result
    of the operation is lost; the counter is never incremented. *)
Theorem instrument_counter_rejects (E : Env) (T : Type) (operation : string)
    (func : M T) (w w1 : World) (p : Pool) (v : T) :
  rejects E db_operations_total ["operation"; "status"] ->
  pool w = Some p ->
  run func (ticked w) = (Ok v, w1) ->
  exists msg w',
    run (database._instrument_db_call E operation func) w
    = (Raise (ValueError msg), w')
    /\ count (is_inc db_operations_total) (trace w')
       = count (is_inc db_operations_total) (trace w1).
Proof.
  intros Hrej Hpool Hfunc. unfold run in *.
  unfold database._instrument_db_call.
  rewrite bind_get_pool, Hpool.
  rewrite bind_perf_counter by exact time_in_database.
  rewrite run_try_finally, run_try_except, bind_run, Hfunc. norm.
  destruct (@labels_rejected E db_operations_total
              [("operation", LStr operation);
               ("status", LStr database.ACTION_STATUS_SUCCESS)] w1 Hrej)
    as [m1 H1].
  destruct (@labels_rejected E db_operations_total
              [("operation", LStr operation);
               ("status", LStr database.ACTION_STATUS_ERROR)] w1 Hrej)
    as [m2 H2].
  rewrite bind_run, H1. norm. simpl (is_Exception _). cbv iota.
  rewrite bind_run, H2. norm.
  rewrite bind_perf_counter by exact time_in_database.
  rewrite bind_run.
  destruct (@labels_cases E db_query_duration_seconds
              [("operation", LStr operation)] (ticked w1))
    as [H3|[m3 H3]]; rewrite H3; norm.
  - rewrite bind_observe, bind_get_pool. norm.
    destruct (pool w1) as [p1|].
    + destruct (@gauge_set_cases E db_connections_active (holders p1)
                  (recorded (ticked w1)
                     [EObserve db_query_duration_seconds
                               [("operation", LStr operation)]
                               (clock E (clock_reads w1)
                                - clock E (clock_reads w))%Z]))
        as [H4|[m4 H4]]; rewrite H4; norm; do 2 eexists;
        (split; [reflexivity|]); norm; tally.
    + rewrite run_ret. do 2 eexists. split; [reflexivity|]. norm. tally.
  - do 2 eexists. split; [reflexivity|]. reflexivity.
Qed.

Lemma instrument_counter_rejects_witness :
  exists msg w',
    run (database._instrument_db_call (with_labelnames declared_by_kind written)
           "delete"
           (pool_execute (with_labelnames declared_by_kind written)
                         (mkPool 0 20) api.delete_query [VInt 42])) serving
    = (Raise (ValueError msg), w')
    /\ count (is_inc db_operations_total) (trace w')
       = count (is_inc db_operations_total)
           [EQuery (mkPool 0 20) Execute api.delete_query [VInt 42]].
Proof.
  apply (@instrument_counter_rejects (with_labelnames declared_by_kind written)
           string "delete"
           (pool_execute (with_labelnames declared_by_kind written)
                         (mkPool 0 20) api.delete_query [VInt 42])
           serving
           (mkWorld (Some (mkPool 0 20)) [0] [Running]
              [EQuery (mkPool 0 20) Execute api.delete_query [VInt 42]]
              1 1 1)
           (mkPool 0 20) "DELETE 1").
  - right. simpl. discriminate.
  - reflexivity.
  - reflexivity.
Defined.

(* ===================================================================== *)
(** ** Further properties: the request metrics *)
(* ===================================================================== *)

(** [dispatch] when the request counter rejects the labels: the [finally]
    block raises at its first statement. *)
Lemma dispatch_rejected (E : Env) (request : Request)
    (call_next : Request -> M Response) (w w1 : World) (r : Result Response) :
  rejects E http_requests_total ["method"; "route"; "status_code"] ->
  call_next request (ticked w) = (r, w1) ->
  exists msg,
    metrics_middleware.dispatch E request call_next w
    = (Raise (ValueError msg), w1).
Proof.
  intros Hrej Hnext. unfold metrics_middleware.dispatch.
  rewrite bind_perf_counter by exact time_in_middleware.
  rewrite run_try_finally, Hnext.
  destruct r as [response|e]; norm;
    match goal with
    | |- context [bind (labels E http_requests_total ?kw) ?k w1] =>
        destruct (@labels_rejected E http_requests_total kw w1 Hrej)
          as [msg Hmsg];
        rewrite (bind_run (labels E http_requests_total kw) k w1), Hmsg
    end; norm; now exists msg.
Qed.

(** X6.  A request metric that does not take the labels of the middleware
    turns every request into a [ValueError]: if the counter rejects them,
    [dispatch] raises right after the handler, with nothing recorded,
    whether the handler returned a response or raised; if only the
    histogram rejects them, it raises after the increment. *)
Theorem dispatch_metric_rejects (E : Env) (request : Request)
    (call_next : Request -> M Response) (w w1 : World) (r : Result Response) :
  run (call_next request) (ticked w) = (r, w1) ->
  (rejects E http_requests_total ["method"; "route"; "status_code"] ->
   exists msg,
     run (metrics_middleware.dispatch E request call_next) w
     = (Raise (ValueError msg), w1))
  /\ (accepts E http_requests_total ["method"; "route"; "status_code"] ->
      rejects E http_request_duration_seconds
              ["method"; "route"; "status_code"] ->
      exists msg,
        run (metrics_middleware.dispatch E request call_next) w
        = (Raise (ValueError msg),
           recorded (ticked w1)
             [EInc http_requests_total
                   (metrics_middleware.request_labels request
                      (returned r))])).
Proof.
  intros Hnext. unfold run in *. split.
  - intros Hrej. exact (dispatch_rejected request call_next w Hrej Hnext).
  - intros Hacc Hrej. unfold metrics_middleware.dispatch.
    rewrite bind_perf_counter by exact time_in_middleware.
    rewrite run_try_finally, Hnext.
    destruct r as [response|e]; norm;
      rewrite bind_labels by exact Hacc; cbv beta;
      rewrite bind_inc;
      rewrite bind_perf_counter by exact time_in_middleware; norm;
      match goal with
      | |- context [bind (labels E http_request_duration_seconds ?kw) ?k ?w0] =>
          destruct (@labels_rejected E http_request_duration_seconds kw w0
                      Hrej) as [msg Hmsg];
          rewrite (bind_run (labels E http_request_duration_seconds kw) k w0),
            Hmsg
      end; norm; now exists msg.
Qed.

Lemma dispatch_metric_rejects_witness :
  exists msg,
    run (metrics_middleware.dispatch
           (with_labelnames declared_for_log_request written) delete_42
           (fun _ => ret (mkResponse 204))) fresh
    = (Raise (ValueError msg), ticked fresh).
Proof.
  apply (@dispatch_metric_rejects
           (with_labelnames declared_for_log_request written) delete_42
           (fun _ => ret (mkResponse 204)) fresh (ticked fresh)
           (Ok (mkResponse 204)) eq_refl).
  right. simpl. discriminate.
Defined.

(** X7.  [log_request] records a request under the label names it passes
    (method, endpoint, status_code on the counter; method, endpoint on the
    histogram): one increment, one observation of the process time, one
    log record.  Under that declaration the middleware cannot record: every
    [dispatch] raises [ValueError].  So no declaration of the request
    counter serves both. *)
Theorem log_request_records (E : Env) (request : Request)
    (response : Response) (process_time : Z) (w : World) :
  accepts E http_requests_total ["method"; "endpoint"; "status_code"] ->
  accepts E http_request_duration_seconds ["method"; "endpoint"] ->
  run (api.log_request E request response process_time) w
  = (Ok tt,
     recorded w
       [EInc http_requests_total
             [("method", LStr (method request));
              ("endpoint", LStr (url_path request));
              ("status_code", LInt (response_status response))];
        EObserve http_request_duration_seconds
             [("method", LStr (method request));
              ("endpoint", LStr (url_path request))] process_time;
        ELog INFO])
  /\ forall request' call_next w',
       exists msg,
         fst (run (metrics_middleware.dispatch E request' call_next) w')
         = Raise (ValueError msg).
Proof.
  intros Hcount Hdur. split.
  - unfold run, api.log_request.
    rewrite bind_labels by exact Hcount. cbv beta. rewrite bind_inc.
    rewrite bind_labels by exact Hdur. cbv beta. rewrite bind_observe.
    unfold log, emit, recorded. norm. now rewrite <- !app_assoc.
  - intros request' call_next w'. unfold run.
    assert (Hrej : rejects E http_requests_total
                           ["method"; "route"; "status_code"]).
    { apply accepts_rejects with (names := ["method"; "endpoint"; "status_code"]);
        [exact Hcount | discriminate]. }
    destruct (call_next request' (ticked w')) as [r w1] eqn:Hnext.
    destruct (dispatch_rejected request' call_next w' Hrej Hnext)
      as [msg Hmsg].
    exists msg. now rewrite Hmsg.
Qed.

Lemma log_request_records_witness :
  run (api.log_request (with_labelnames declared_for_log_request written)
         post_data (mkResponse 201) 9) fresh
  = (Ok tt,
     mkWorld None [] []
       [EInc http_requests_total
             [("method", LStr "POST"); ("endpoint", LStr "/api/data");
              ("status_code", LInt 201)];
        EObserve http_request_duration_seconds
             [("method", LStr "POST"); ("endpoint", LStr "/api/data")] 9%Z;
        ELog INFO]
       0 0 0).
Proof.
  refine (proj1 (@log_request_records
                   (with_labelnames declared_for_log_request written)
                   post_data (mkResponse 201) 9%Z fresh _ _)).
  - split; [discriminate | reflexivity].
  - split; [discriminate | reflexivity].
Defined.

(* ===================================================================== *)
(** ** Further properties: the handlers *)
(* ===================================================================== *)

(** X8.  What [delete_data] answers: 204 when the delete went through with
    any status text but ["DELETE 0"], 404 when the status text is
    ["DELETE 0"], and 500 when the driver failed or there is no pool; no
    other exception leaves the handler. *)
Theorem delete_data_answers (E : Env) (item_id : Z) (w : World) :
  db_declared E ->
  fst (run (api.delete_data E item_id) w)
  = match pool w with
    | None => Raise (HTTPException 500)
    | Some _ =>
        match failure (db_reply E (db_requests w)) with
        | Some _ => Raise (HTTPException 500)
        | None =>
            if String.eqb (status (db_reply E (db_requests w))) "DELETE 0"
            then Raise (HTTPException 404)
            else Ok (mkResponse 204)
        end
    end.
Proof.
  intros Hdecl. pose proof Hdecl as (Hops & Hdur & Hgauge).
  unfold run, api.delete_data.
  rewrite run_try_except. rewrite bind_run.
  destruct (pool w) as [p|] eqn:Hpool.
  - rewrite execute_run with (p := p) (verb := "DELETE")
      (rest := ["FROM"; "user_data"; "WHERE"; "id"; "="; "$1"])
      by (try reflexivity; assumption).
    unfold reply_result. norm. crunch; reflexivity.
  - unfold database.execute. rewrite bind_get_pool. norm. rewrite Hpool.
    crunch. reflexivity.
Qed.

Lemma delete_data_answers_witness :
  fst (run (api.delete_data written_no_row 42) serving)
  = Raise (HTTPException 404).
Proof.
  refine (@delete_data_answers written_no_row 42%Z serving _).
  repeat split; try discriminate; reflexivity.
Defined.

(** X9.  What [create_data] answers: the response built from the item and
    the three returned columns, with one [log_request] call for status 201
    added at the end of the background tasks, when the insert returned a
    record that holds [id], [created_at] and [updated_at] and the response
    model takes them; 500 in every other case (no pool, a driver error, no
    record, a column missing, a response the model rejects).  The process
    time handed to the task is the time between the first and the fourth
    reading of the clock. *)
Theorem create_data_answers (E : Env) (it : DataItemCreate)
    (bts : list api.BackgroundTask) (request : Request) (w : World) :
  db_declared E ->
  fst (run (api.create_data E it bts request) w)
  = match pool w with
    | None => Raise (HTTPException 500)
    | Some _ =>
        let reply := db_reply E (db_requests w) in
        match failure reply, rows reply with
        | None, ((_ :: _) as row) :: _ =>
            match api.lookup "id" row, api.lookup "created_at" row,
                  api.lookup "updated_at" row with
            | Some i, Some c, Some u =>
                if response_model_ok E it i c u
                then Ok (api.mkDataItemResponse it i c u,
                         bts ++ [api.mkLogRequest request (mkResponse 201)
                                   (clock E (3 + clock_reads w)
                                    - clock E (clock_reads w))%Z])
                else Raise (HTTPException 500)
            | _, _, _ => Raise (HTTPException 500)
            end
        | _, _ => Raise (HTTPException 500)
        end
    end.
Proof.
  intros Hdecl. pose proof Hdecl as (Hops & Hdur & Hgauge).
  unfold run, api.create_data.
  repeat step.
  rewrite bind_run.
  destruct (pool w) as [p|] eqn:Hpool.
  - rewrite fetchrow_run with (p := p) by (simpl; assumption).
    unfold reply_result. norm.
    crunch; reflexivity.
  - unfold database.fetchrow. rewrite bind_get_pool. norm. rewrite Hpool.
    crunch. reflexivity.
Qed.

Lemma create_data_answers_witness :
  fst (run (api.create_data written_no_row jane [] post_data) serving)
  = Raise (HTTPException 500).
Proof.
  refine (@create_data_answers written_no_row jane [] post_data serving _).
  repeat split; try discriminate; reflexivity.
Defined.

(** X10.  The insert of [create_data] goes through [fetchrow], so the
    executor counts it under the operation ["select"]: with a pool in place
    every request sends the insert to the pool once, and what the handler
    appends to the trace holds one increment of the db operation counter
    under ["select"] and none under ["insert"]. *)
Theorem create_data_counted_as_select (E : Env) (it : DataItemCreate)
    (bts : list api.BackgroundTask) (request : Request) (w : World)
    (p : Pool) :
  db_declared E ->
  pool w = Some p ->
  exists evs,
    trace (snd (run (api.create_data E it bts request) w)) = trace w ++ evs
    /\ In (EQuery p Fetchrow api.insert_query
                  [VStr (name it); VStr (email it);
                   api.optional_str (message it)]) evs
    /\ count (is_db_inc_of "select") evs = 1
    /\ count (is_db_inc_of "insert") evs = 0.
Proof.
  intros Hdecl Hpool. pose proof Hdecl as (Hops & Hdur & Hgauge).
  unfold run, api.create_data.
  repeat step.
  rewrite bind_run.
  rewrite fetchrow_run with (p := p) by (simpl; assumption).
  unfold reply_result. norm.
  crunch; rewrite <- ?app_assoc;
    (eexists; split; [reflexivity|]);
    (split; [simpl; tauto|]); split; reflexivity.
Qed.

Lemma create_data_counted_as_select_witness :
  exists evs,
    trace (snd (run (api.create_data written jane [] post_data) serving))
    = trace serving ++ evs
    /\ In (EQuery (mkPool 0 20) Fetchrow api.insert_query
                  [VStr "Jane Doe"; VStr "jane@example.com"; VNone]) evs
    /\ count (is_db_inc_of "select") evs = 1
    /\ count (is_db_inc_of "insert") evs = 0.
Proof.
  exact (@create_data_counted_as_select written jane [] post_data serving
           (mkPool 0 20) written_db_declared eq_refl).
Defined.

(* ===================================================================== *)
(** ** Further properties: [init_db] *)
(* ===================================================================== *)

(** [init_db] up to its loop, when the module binds [logging] and the two
    numbers of the environment parse. *)
Lemma init_db_enters_loop (E : Env) (w : World) (port_ max_ : Z) :
  bound E Database "logging" = true ->
  pool w = None ->
  int_of_str E (match environ E "DB_PORT" with Some v => v | None => "5432" end)
  = Some port_ ->
  int_of_str E (match environ E "DB_MAX_CONNECTIONS" with
                | Some v => v | None => "20" end) = Some max_ ->
  database.init_db E w
  = database.init_db_for E (config_of E port_ max_)
      (seq 1 database.max_retries) 2 (recorded w [ELog INFO]).
Proof.
  intros Hlog Hpool Hport Hmax.
  unfold database.init_db. rewrite bind_get_pool, Hpool.
  rewrite bind_getenv, (@bound_source E Database "os") by (simpl; tauto).
  rewrite bind_getenv, (@bound_source E Database "os") by (simpl; tauto).
  cbv beta. rewrite bind_int, Hport.
  do 3 (rewrite bind_getenv, (@bound_source E Database "os")
          by (simpl; tauto); cbv beta).
  rewrite bind_getenv, (@bound_source E Database "os") by (simpl; tauto).
  cbv beta. rewrite bind_int, Hmax.
  unfold getLogger, global. rewrite Hlog. rewrite bind_ret, bind_log.
  reflexivity.
Qed.

(** X11.  [init_db] reads the port and the pool size with [int]: when
    either text is no number the call raises [ValueError] before it logs or
    connects, and leaves the state as it was. *)
Theorem init_db_rejects_bad_number (E : Env) (w : World) :
  pool w = None ->
  int_of_str E (match environ E "DB_PORT" with Some v => v | None => "5432" end)
  = None
  \/ int_of_str E (match environ E "DB_MAX_CONNECTIONS" with
                   | Some v => v | None => "20" end) = None ->
  exists msg, run (database.init_db E) w = (Raise (ValueError msg), w).
Proof.
  intros Hpool Hbad. unfold run, database.init_db.
  rewrite bind_get_pool, Hpool.
  rewrite bind_getenv, (@bound_source E Database "os") by (simpl; tauto).
  rewrite bind_getenv, (@bound_source E Database "os") by (simpl; tauto).
  cbv beta. rewrite bind_int.
  destruct (int_of_str E
              match environ E "DB_PORT" with Some v => v | None => "5432" end)
    as [port_|]; [|eexists; reflexivity].
  destruct Hbad as [Hbad|Hbad]; [discriminate|].
  do 3 (rewrite bind_getenv, (@bound_source E Database "os")
          by (simpl; tauto); cbv beta).
  rewrite bind_getenv, (@bound_source E Database "os") by (simpl; tauto).
  cbv beta. rewrite bind_int, Hbad. eexists. reflexivity.
Qed.

Lemma init_db_rejects_bad_number_witness :
  exists msg,
    run (database.init_db written_bad_port) fresh
    = (Raise (ValueError msg), fresh).
Proof.
  apply (@init_db_rejects_bad_number written_bad_port fresh).
  - reflexivity.
  - left. reflexivity.
Defined.



(** The body of an attempt when the pool is created and answers the
    probe. *)
Lemma connect_run (E : Env) (cfg : PoolConfig) (w : World) :
  create_pool_reply E (pools_requested w) = None ->
  probe_reply E (pools_requested w) = None ->
  labelnames E db_connections_active = [] ->
  database.connect E cfg w
  = (Ok tt,
     mkWorld (Some (mkPool (pools_requested w) (max_size cfg)))
             (_background_tasks w) (tasks w)
             (trace w ++ [ELog INFO; ECreatePool cfg;
                          EPoolOpened (mkPool (pools_requested w)
                                              (max_size cfg));
                          EProbe (mkPool (pools_requested w) (max_size cfg));
                          ESet db_connections_active (max_size cfg);
                          ELog INFO])
             (clock_reads w) (S (pools_requested w)) (db_requests w)).
Proof.
  intros Hcreate Hprobe Hgauge.
  unfold database.connect.
  rewrite bind_log, bind_global by (simpl; tauto).
  rewrite bind_run. unfold create_pool. norm. rewrite Hcreate.
  rewrite bind_set_pool, bind_run. unfold probe.
  rewrite bind_emit. norm. cbn [pool_id]. rewrite Hprobe.
  rewrite run_ret. norm.
  rewrite bind_run, run_gauge_set by exact Hgauge. norm.
  unfold log, emit, recorded. norm. cbn [holders].
  now rewrite <- !app_assoc.
Qed.

(** One attempt that connects. *)
Lemma init_db_attempt_connects (E : Env) (cfg : PoolConfig) (attempt : nat)
    (retry_delay : Z) (w : World) :
  create_pool_reply E (pools_requested w) = None ->
  probe_reply E (pools_requested w) = None ->
  labelnames E db_connections_active = [] ->
  database.init_db_attempt E cfg attempt retry_delay w
  = (Ok database.Returned,
     mkWorld (Some (mkPool (pools_requested w) (max_size cfg)))
             (_background_tasks w) (tasks w)
             (trace w ++ [ELog INFO; ECreatePool cfg;
                          EPoolOpened (mkPool (pools_requested w)
                                              (max_size cfg));
                          EProbe (mkPool (pools_requested w) (max_size cfg));
                          ESet db_connections_active (max_size cfg);
                          ELog INFO])
             (clock_reads w) (S (pools_requested w)) (db_requests w)).
Proof.
  intros Hcreate Hprobe Hgauge.
  unfold database.init_db_attempt.
  rewrite run_try_except, bind_run.
  rewrite connect_run by assumption. reflexivity.
Qed.

Lemma init_db_for_connects (E : Env) (cfg : PoolConfig) (k : nat) :
  forall (a n : nat) (retry_delay : Z) (w : World),
    bound E Database "asyncio" = true ->
    (a + n = S database.max_retries)%nat ->
    (k < n)%nat ->
    (forall i, (i < k)%nat ->
               create_pool_reply E (i + pools_requested w) <> None) ->
    create_pool_reply E (k + pools_requested w) = None ->
    probe_reply E (k + pools_requested w) = None ->
    labelnames E db_connections_active = [] ->
    database.init_db_for E cfg (seq a n) retry_delay w
    = (Ok tt,
       mkWorld (Some (mkPool (k + pools_requested w) (max_size cfg)))
               (_background_tasks w) (tasks w)
               (trace w ++ failed_attempts cfg retry_delay k
                ++ [ELog INFO; ECreatePool cfg;
                    EPoolOpened (mkPool (k + pools_requested w)
                                        (max_size cfg));
                    EProbe (mkPool (k + pools_requested w) (max_size cfg));
                    ESet db_connections_active (max_size cfg);
                    ELog INFO])
               (clock_reads w) (S (k + pools_requested w)) (db_requests w)).
Proof.
  induction k as [|k IH]; intros a n d w Hasyncio Hsum Hlt Hfail Hcreate
    Hprobe Hgauge.
  - destruct n as [|n]; [lia|]. cbn [seq database.init_db_for].
    rewrite bind_run.
    rewrite init_db_attempt_connects by assumption.
    reflexivity.
  - destruct n as [|n]; [lia|]. cbn [seq database.init_db_for].
    rewrite bind_run.
    destruct (create_pool_reply E (pools_requested w)) as [code|] eqn:Hc;
      [|exfalso; apply (Hfail 0%nat); [lia | exact Hc]].
    rewrite init_db_attempt_fails with (code := code)
      by (first [assumption | unfold database.max_retries in *; lia]).
    rewrite IH; norm;
      try assumption;
      try (unfold database.max_retries in *; lia).
    + cbn [failed_attempts]. rewrite <- !app_assoc.
      replace (k + S (pools_requested w))%nat
        with (S k + pools_requested w)%nat by lia.
      reflexivity.
    + intros i Hi.
      replace (i + S (pools_requested w))%nat
        with (S i + pools_requested w)%nat by lia.
      apply Hfail. lia.
    + replace (k + S (pools_requested w))%nat
        with (S k + pools_requested w)%nat by lia. exact Hcreate.
    + replace (k + S (pools_requested w))%nat
        with (S k + pools_requested w)%nat by lia. exact Hprobe.
Qed.

(** X13.  The retry loop of [init_db] as it is coded, once [logging] and
    [asyncio] are bound in [app/database.py]: when the first [k] attempts
    (fewer than [max_retries]) fail to create the pool and the next one
    creates and probes it, the call returns with that pool in the module
    variable, the gauge set to the size of the pool, and the delays
    2, 4, ... slept between the attempts; nothing else happens. *)
Theorem init_db_connects_after_failures (E : Env) (w : World)
    (port_ max_ : Z) (k : nat) :
  bound E Database "logging" = true ->
  bound E Database "asyncio" = true ->
  pool w = None ->
  int_of_str E (match environ E "DB_PORT" with Some v => v | None => "5432" end)
  = Some port_ ->
  int_of_str E (match environ E "DB_MAX_CONNECTIONS" with
                | Some v => v | None => "20" end) = Some max_ ->
  labelnames E db_connections_active = [] ->
  (k < database.max_retries)%nat ->
  (forall i, (i < k)%nat ->
             create_pool_reply E (i + pools_requested w) <> None) ->
  create_pool_reply E (k + pools_requested w) = None ->
  probe_reply E (k + pools_requested w) = None ->
  let p := mkPool (k + pools_requested w) max_ in
  run (database.init_db E) w
  = (Ok tt,
     mkWorld (Some p) (_background_tasks w) (tasks w)
             (trace w ++ [ELog INFO]
              ++ failed_attempts (config_of E port_ max_) 2 k
              ++ [ELog INFO; ECreatePool (config_of E port_ max_);
                  EPoolOpened p; EProbe p; ESet db_connections_active max_;
                  ELog INFO])
             (clock_reads w) (S (k + pools_requested w)) (db_requests w))
  /\ sleeps (failed_attempts (config_of E port_ max_) 2 k) = doubling 2 k.
Proof.
  intros Hlog Hasyncio Hpool Hport Hmax Hgauge Hk Hfail Hcreate Hprobe p.
  split.
  - unfold run.
    rewrite (init_db_enters_loop E w Hlog Hpool Hport Hmax).
    rewrite init_db_for_connects with (k := k);
      try assumption; try (norm; assumption);
      try (unfold database.max_retries in *; lia).
    norm. cbn [max_size config_of]. now rewrite <- !app_assoc.
  - generalize 2%Z. clear. induction k as [|k IH]; intros d; [reflexivity|].
    cbn [failed_attempts doubling]. rewrite sleeps_app. simpl.
    now rewrite IH.
Qed.

Lemma init_db_connects_after_failures_witness :
  pool (snd (run (database.init_db imported_third_time) fresh))
  = Some (mkPool 2 20)
  /\ sleeps (trace (snd (run (database.init_db imported_third_time) fresh)))
     = [2; 4]%Z.
Proof.
  destruct (@init_db_connects_after_failures imported_third_time fresh
              5432%Z 20%Z 2) as [H _].
  - reflexivity.
  - reflexivity.
  - reflexivity.
  - reflexivity.
  - reflexivity.
  - reflexivity.
  - unfold database.max_retries. lia.
  - intros i Hi. destruct i as [|[|i]]; [discriminate | discriminate | lia].
  - reflexivity.
  - reflexivity.
  - rewrite H. split; reflexivity.
Defined.

(** The body of an attempt when the pool is created and the probe fails:
    the pool is in the module variable by then. *)
Lemma connect_probe_fails (E : Env) (cfg : PoolConfig) (w : World)
    (code : nat) :
  create_pool_reply E (pools_requested w) = None ->
  probe_reply E (pools_requested w) = Some code ->
  database.connect E cfg w
  = (Raise (DriverError code),
     mkWorld (Some (mkPool (pools_requested w) (max_size cfg)))
             (_background_tasks w) (tasks w)
             (trace w ++ [ELog INFO; ECreatePool cfg;
                          EPoolOpened (mkPool (pools_requested w)
                                              (max_size cfg));
                          EProbe (mkPool (pools_requested w) (max_size cfg))])
             (clock_reads w) (S (pools_requested w)) (db_requests w)).
Proof.
  intros Hcreate Hprobe.
  unfold database.connect.
  rewrite bind_log, bind_global by (simpl; tauto).
  rewrite bind_run. unfold create_pool. norm. rewrite Hcreate.
  rewrite bind_set_pool, bind_run. unfold probe.
  rewrite bind_emit. norm. cbn [pool_id]. rewrite Hprobe.
  rewrite run_raise. unfold recorded. norm. now rewrite <- !app_assoc.
Qed.

Lemma init_db_attempt_probe_fails (E : Env) (cfg : PoolConfig) (attempt : nat)
    (retry_delay : Z) (w : World) (code : nat) :
  bound E Database "asyncio" = true ->
  create_pool_reply E (pools_requested w) = None ->
  probe_reply E (pools_requested w) = Some code ->
  (attempt < database.max_retries)%nat ->
  database.init_db_attempt E cfg attempt retry_delay w
  = (Ok (database.Next (retry_delay * 2)),
     mkWorld (Some (mkPool (pools_requested w) (max_size cfg)))
             (_background_tasks w) (tasks w)
             (trace w ++ [ELog INFO; ECreatePool cfg;
                          EPoolOpened (mkPool (pools_requested w)
                                              (max_size cfg));
                          EProbe (mkPool (pools_requested w) (max_size cfg));
                          ELog ERROR; ELog INFO; ESleep retry_delay])
             (clock_reads w) (S (pools_requested w)) (db_requests w)).
Proof.
  intros Hasyncio Hcreate Hprobe Hlt.
  unfold database.init_db_attempt.
  rewrite run_try_except, bind_run.
  rewrite connect_probe_fails with (code := code) by assumption.
  simpl (is_Exception _). cbv iota. rewrite bind_log.
  replace (attempt <? database.max_retries)%nat with true
    by (symmetry; now apply Nat.ltb_lt).
  rewrite bind_log, bind_sleep by exact Hasyncio. rewrite run_ret.
  unfold recorded. norm. now rewrite <- !app_assoc.
Qed.

Lemma init_db_attempt_probe_last (E : Env) (cfg : PoolConfig)
    (retry_delay : Z) (w : World) (code : nat) :
  create_pool_reply E (pools_requested w) = None ->
  probe_reply E (pools_requested w) = Some code ->
  database.init_db_attempt E cfg database.max_retries retry_delay w
  = (Raise (DriverError code),
     mkWorld (Some (mkPool (pools_requested w) (max_size cfg)))
             (_background_tasks w) (tasks w)
             (trace w ++ [ELog INFO; ECreatePool cfg;
                          EPoolOpened (mkPool (pools_requested w)
                                              (max_size cfg));
                          EProbe (mkPool (pools_requested w) (max_size cfg));
                          ELog ERROR; ELog CRITICAL])
             (clock_reads w) (S (pools_requested w)) (db_requests w)).
Proof.
  intros Hcreate Hprobe.
  unfold database.init_db_attempt.
  rewrite run_try_except, bind_run.
  rewrite connect_probe_fails with (code := code) by assumption.
  simpl (is_Exception _). cbv iota. rewrite bind_log.
  rewrite Nat.ltb_irrefl. rewrite bind_log, run_raise.
  unfold recorded. norm. now rewrite <- !app_assoc.
Qed.

Lemma init_db_for_probes_fail (E : Env) (cfg : PoolConfig) (k : nat) :
  forall (a : nat) (retry_delay : Z) (w : World),
    bound E Database "asyncio" = true ->
    (a + k = database.max_retries)%nat ->
    (forall n, create_pool_reply E n = None) ->
    (forall n, probe_reply E n <> None) ->
    exists code w',
      database.init_db_for E cfg (seq a (S k)) retry_delay w
      = (Raise (DriverError code), w')
      /\ probe_reply E (k + pools_requested w) = Some code
      /\ pool w' = Some (mkPool (k + pools_requested w) (max_size cfg))
      /\ count is_pool_opened (trace w')
         = count is_pool_opened (trace w) + S k
      /\ count is_pool_close (trace w') = count is_pool_close (trace w).
Proof.
  induction k as [|k IH]; intros a d w Hasyncio Hsum Hcreate Hfail;
    (destruct (probe_reply E (pools_requested w)) as [c0|] eqn:Hc;
     [|exfalso; exact (Hfail _ Hc)]).
  - exists c0. eexists.
    replace a with database.max_retries by lia.
    cbn [seq database.init_db_for]. rewrite bind_run.
    rewrite init_db_attempt_probe_last with (code := c0)
      by (first [exact Hc | apply Hcreate]).
    split; [reflexivity|]. norm.
    split; [exact Hc|]. split; [reflexivity|].
    split; tally; reflexivity.
  - change (seq a (S (S k))) with (a :: seq (S a) (S k)).
    cbn [database.init_db_for]. rewrite bind_run.
    rewrite init_db_attempt_probe_fails with (code := c0)
      by (first [assumption | apply Hcreate | lia]).
    cbv beta iota.
    match goal with
    | |- context [database.init_db_for E cfg _ _ ?w1] =>
        destruct (IH (S a) (d * 2)%Z w1 Hasyncio ltac:(lia) Hcreate Hfail)
          as (code & w' & Hrun & Hcode & Hpool & Hopened & Hclosed)
    end.
    cbn [trace pools_requested] in Hcode, Hpool, Hopened, Hclosed.
    replace (k + S (pools_requested w))%nat
      with (S k + pools_requested w)%nat in * by lia.
    exists code, w'. split; [exact Hrun|].
    split; [exact Hcode|]. split; [exact Hpool|].
    rewrite Hopened, Hclosed. split; tally.
Qed.

(** X14.  The retry loop stores each new pool in the module variable before
    it probes it, and closes none: once [logging] and [asyncio] are bound,
    when every pool is created and every probe fails, [init_db] opens five
    pools, closes none, raises the failure of the last probe, and leaves the
    fifth pool in the variable, so that the next call of [init_db] returns
    at once as if the database had been reached. *)
Theorem init_db_failed_probe_leaves_pool (E : Env) (w : World)
    (port_ max_ : Z) :
  bound E Database "logging" = true ->
  bound E Database "asyncio" = true ->
  pool w = None ->
  int_of_str E (match environ E "DB_PORT" with Some v => v | None => "5432" end)
  = Some port_ ->
  int_of_str E (match environ E "DB_MAX_CONNECTIONS" with
                | Some v => v | None => "20" end) = Some max_ ->
  (forall n, create_pool_reply E n = None) ->
  (forall n, probe_reply E n <> None) ->
  exists code w',
    run (database.init_db E) w = (Raise (DriverError code), w')
    /\ probe_reply E (4 + pools_requested w) = Some code
    /\ pool w' = Some (mkPool (4 + pools_requested w) max_)
    /\ count is_pool_opened (trace w') = count is_pool_opened (trace w) + 5
    /\ count is_pool_close (trace w') = count is_pool_close (trace w)
    /\ run (database.init_db E) w' = (Ok tt, w').
Proof.
  intros Hlog Hasyncio Hpool Hport Hmax Hcreate Hfail.
  destruct (@init_db_for_probes_fail E (config_of E port_ max_) 4 1 2%Z
              (recorded w [ELog INFO]) Hasyncio eq_refl Hcreate Hfail)
    as (code & w' & Hrun & Hcode & Hpool' & Hopened & Hclosed).
  cbn [trace pools_requested recorded max_size config_of]
    in Hcode, Hpool', Hopened, Hclosed.
  exists code, w'. unfold run.
  rewrite (init_db_enters_loop E w Hlog Hpool Hport Hmax).
  change (seq 1 database.max_retries) with (seq 1 5).
  split; [exact Hrun|]. split; [exact Hcode|]. split; [exact Hpool'|].
  rewrite Hopened, Hclosed, !count_snoc. simpl.
  split; [lia|]. split; [lia|].
  exact (init_db_guard E w' Hpool').
Qed.

Lemma init_db_failed_probe_leaves_pool_witness :
  exists code w',
    run (database.init_db imported_unprobed) fresh
    = (Raise (DriverError code), w')
    /\ probe_reply imported_unprobed 4 = Some code
    /\ pool w' = Some (mkPool 4 20)
    /\ count is_pool_opened (trace w') = 5
    /\ count is_pool_close (trace w') = 0
    /\ run (database.init_db imported_unprobed) w' = (Ok tt, w').
Proof.
  apply (@init_db_failed_probe_leaves_pool imported_unprobed fresh
           5432%Z 20%Z).
  - reflexivity.
  - reflexivity.
  - reflexivity.
  - reflexivity.
  - reflexivity.
  - intros n. reflexivity.
  - intros n. discriminate.
Defined.

Lemma init_db_for_exhausts (E : Env) (cfg : PoolConfig) (k : nat) :
  forall (a : nat) (retry_delay : Z) (w : World),
    bound E Database "asyncio" = true ->
    (a + k = database.max_retries)%nat ->
    (forall i, (i <= k)%nat ->
               create_pool_reply E (i + pools_requested w) <> None) ->
    exists code,
      create_pool_reply E (k + pools_requested w) = Some code
      /\ database.init_db_for E cfg (seq a (S k)) retry_delay w
         = (Raise (DriverError code),
            mkWorld (pool w) (_background_tasks w) (tasks w)
                    (trace w ++ failed_attempts cfg retry_delay k
                     ++ [ELog INFO; ECreatePool cfg; ELog ERROR;
                         ELog CRITICAL])
                    (clock_reads w) (S (k + pools_requested w))
                    (db_requests w)).
Proof.
  induction k as [|k IH]; intros a d w Hasyncio Hsum Hfail.
  - destruct (create_pool_reply E (pools_requested w)) as [code|] eqn:Hc;
      [|exfalso; apply (Hfail 0%nat); [lia | exact Hc]].
    exists code. split; [exact Hc|].
    replace a with database.max_retries by lia.
    cbn [seq database.init_db_for]. rewrite bind_run.
    rewrite init_db_attempt_last with (code := code) by exact Hc.
    reflexivity.
  - destruct (create_pool_reply E (pools_requested w)) as [c0|] eqn:Hc;
      [|exfalso; apply (Hfail 0%nat); [lia | exact Hc]].
    change (seq a (S (S k))) with (a :: seq (S a) (S k)).
    cbn [database.init_db_for].
    destruct (IH (S a) (d * 2)%Z
                (mkWorld (pool w) (_background_tasks w) (tasks w)
                   (trace w ++ [ELog INFO; ECreatePool cfg; ELog ERROR;
                                ELog INFO; ESleep d])
                   (clock_reads w) (S (pools_requested w)) (db_requests w)))
      as (code & Hcode & Hrun).
    + exact Hasyncio.
    + lia.
    + intros i Hi. norm.
      replace (i + S (pools_requested w))%nat
        with (S i + pools_requested w)%nat by lia.
      apply Hfail. lia.
    + exists code.
      cbn [pool _background_tasks tasks trace clock_reads pools_requested
               db_requests recorded] in Hcode, Hrun.
      replace (k + S (pools_requested w))%nat
        with (S k + pools_requested w)%nat in * by lia.
      split; [exact Hcode|].
      rewrite bind_run.
      rewrite init_db_attempt_fails with (code := c0)
        by (first [assumption | lia]).
      rewrite Hrun. cbn [failed_attempts]. now rewrite <- !app_assoc.
Qed.

(** X15.  The retry loop of [init_db] as it is coded, once [logging] and
    [asyncio] are bound in [app/database.py]: when the next five calls of
    [asyncpg.create_pool] fail, the call makes exactly these five attempts,
    sleeps 2, 4, 8 and 16 seconds between them (none after the last),
    logs the critical record and raises the failure of the fifth attempt;
    the pool variable stays empty. *)
Theorem init_db_gives_up (E : Env) (w : World) (port_ max_ : Z) :
  bound E Database "logging" = true ->
  bound E Database "asyncio" = true ->
  pool w = None ->
  int_of_str E (match environ E "DB_PORT" with Some v => v | None => "5432" end)
  = Some port_ ->
  int_of_str E (match environ E "DB_MAX_CONNECTIONS" with
                | Some v => v | None => "20" end) = Some max_ ->
  (forall i, (i < database.max_retries)%nat ->
             create_pool_reply E (i + pools_requested w) <> None) ->
  exists code,
    create_pool_reply E (4 + pools_requested w) = Some code
    /\ run (database.init_db E) w
       = (Raise (DriverError code),
          mkWorld None (_background_tasks w) (tasks w)
                  (trace w ++ [ELog INFO]
                   ++ failed_attempts (config_of E port_ max_) 2 4
                   ++ [ELog INFO; ECreatePool (config_of E port_ max_);
                       ELog ERROR; ELog CRITICAL])
                  (clock_reads w) (5 + pools_requested w) (db_requests w))
    /\ sleeps (failed_attempts (config_of E port_ max_) 2 4)
       = [2; 4; 8; 16]%Z.
Proof.
  intros Hlog Hasyncio Hpool Hport Hmax Hfail.
  destruct (@init_db_for_exhausts E (config_of E port_ max_) 4 1 2%Z
              (recorded w [ELog INFO]) Hasyncio eq_refl)
    as (code & Hcode & Hrun).
  { intros i Hi. norm. apply Hfail. unfold database.max_retries. lia. }
  cbn [pool _background_tasks tasks trace clock_reads pools_requested
           db_requests recorded] in Hcode, Hrun.
  exists code. split; [exact Hcode|]. split; [|reflexivity].
  unfold run. rewrite (init_db_enters_loop E w Hlog Hpool Hport Hmax).
  change (seq 1 database.max_retries) with (seq 1 5).
  rewrite Hrun. norm. rewrite Hpool. now rewrite <- !app_assoc.
Qed.

Lemma init_db_gives_up_witness :
  exists code,
    create_pool_reply imported_unreachable 4 = Some code
    /\ run (database.init_db imported_unreachable) fresh
       = (Raise (DriverError code),
          mkWorld None [] []
                  ([ELog INFO]
                   ++ failed_attempts (config_of imported_unreachable 5432 20)
                        2 4
                   ++ [ELog INFO;
                       ECreatePool (config_of imported_unreachable 5432 20);
                       ELog ERROR; ELog CRITICAL])
                  0 5 0)
    /\ sleeps (failed_attempts (config_of imported_unreachable 5432 20) 2 4)
       = [2; 4; 8; 16]%Z.
Proof.
  apply (@init_db_gives_up imported_unreachable fresh 5432%Z 20%Z).
  - reflexivity.
  - reflexivity.
  - reflexivity.
  - reflexivity.
  - reflexivity.
  - intros i Hi. discriminate.
Defined.

(* ===================================================================== *)
(** ** Further properties: start-up and shutdown *)
(* ===================================================================== *)

(** One turn of the start-up loop around a call of [init_db] that
    raises. *)
Lemma startup_attempt_fails (E : Env) (attempt : nat) (retry_delay : Z)
    (w w1 : World) (e : Exc) :
  database.init_db E (recorded w [ELog INFO]) = (Raise e, w1) ->
  is_Exception e = true ->
  attempt <> main.max_retries ->
  main.startup_attempt E attempt retry_delay w
  = (Ok (main.Next (Z.min (retry_delay * 2) 10)),
     recorded w1 [ELog WARNING; ELog INFO; ESleep retry_delay]).
Proof.
  intros Hinit Hexc Hattempt. unfold main.startup_attempt.
  rewrite run_try_except, bind_log, bind_run, Hinit, Hexc.
  replace (attempt =? main.max_retries)%nat with false
    by (symmetry; now apply Nat.eqb_neq).
  rewrite !bind_log.
  rewrite bind_sleep by (apply bound_source; simpl; tauto).
  rewrite run_ret. unfold recorded. norm. now rewrite <- !app_assoc.
Qed.

Lemma startup_attempt_last (E : Env) (retry_delay : Z) (w w1 : World)
    (e : Exc) :
  database.init_db E (recorded w [ELog INFO]) = (Raise e, w1) ->
  is_Exception e = true ->
  main.startup_attempt E main.max_retries retry_delay w
  = (Raise e, recorded w1 [ELog ERROR]).
Proof.
  intros Hinit Hexc. unfold main.startup_attempt.
  rewrite run_try_except, bind_log, bind_run, Hinit, Hexc.
  rewrite Nat.eqb_refl. now rewrite bind_log, run_raise.
Qed.

Section Unreachable.

Variable E : Env.
Variables port_ max_ : Z.

Hypothesis logging_bound : bound E Database "logging" = true.
Hypothesis asyncio_bound : bound E Database "asyncio" = true.
Hypothesis port_parses :
  int_of_str E (match environ E "DB_PORT" with Some v => v | None => "5432" end)
  = Some port_.
Hypothesis max_parses :
  int_of_str E (match environ E "DB_MAX_CONNECTIONS" with
                | Some v => v | None => "20" end) = Some max_.
Hypothesis unreachable : forall n, create_pool_reply E n <> None.

(** One turn of the start-up loop against a database that cannot be
    reached: five attempts of [init_db], then the delay of the turn. *)
Lemma startup_attempt_unreachable (attempt : nat) (retry_delay : Z)
    (w : World) :
  pool w = None ->
  attempt <> main.max_retries ->
  exists w',
    main.startup_attempt E attempt retry_delay w
    = (Ok (main.Next (Z.min (retry_delay * 2) 10)), w')
    /\ count is_create_pool (trace w') = count is_create_pool (trace w) + 5
    /\ sleeps (trace w') = sleeps (trace w) ++ [2; 4; 8; 16; retry_delay]%Z
    /\ pool w' = None.
Proof.
  intros Hpool Hattempt.
  destruct (@init_db_retries_then_raises E (recorded w [ELog INFO]) port_ max_
              logging_bound asyncio_bound Hpool port_parses max_parses
              unreachable)
    as (code & w1 & Hrun & _ & Hcount & Hsleeps & Hpool1).
  unfold run in Hrun.
  rewrite (startup_attempt_fails E retry_delay w Hrun eq_refl Hattempt).
  eexists. split; [reflexivity|]. norm.
  rewrite count_app, sleeps_app, Hcount, Hsleeps. norm.
  rewrite count_app, sleeps_app, <- app_assoc. simpl.
  repeat split;
    [unfold count; simpl; lia | now rewrite app_nil_r | exact Hpool1].
Qed.

Lemma startup_last_unreachable (retry_delay : Z) (w : World) :
  pool w = None ->
  exists code w',
    main.startup_attempt E main.max_retries retry_delay w
    = (Raise (DriverError code), w')
    /\ count is_create_pool (trace w') = count is_create_pool (trace w) + 5
    /\ sleeps (trace w') = sleeps (trace w) ++ [2; 4; 8; 16]%Z
    /\ pool w' = None.
Proof.
  intros Hpool.
  destruct (@init_db_retries_then_raises E (recorded w [ELog INFO]) port_ max_
              logging_bound asyncio_bound Hpool port_parses max_parses
              unreachable)
    as (code & w1 & Hrun & _ & Hcount & Hsleeps & Hpool1).
  unfold run in Hrun.
  rewrite (startup_attempt_last E retry_delay w Hrun eq_refl).
  exists code. eexists. split; [reflexivity|]. norm.
  rewrite count_app, sleeps_app, Hcount, Hsleeps. norm.
  rewrite count_app, sleeps_app. simpl.
  repeat split;
    [unfold count; simpl; lia | now rewrite !app_nil_r | exact Hpool1].
Qed.

Lemma startup_for_unreachable (w : World) :
  pool w = None ->
  exists code w',
    main.startup_for E (seq 1 main.max_retries) 1 w
    = (Raise (DriverError code), w')
    /\ count is_create_pool (trace w') = count is_create_pool (trace w) + 25
    /\ sleeps (trace w')
       = sleeps (trace w)
         ++ [2; 4; 8; 16; 1; 2; 4; 8; 16; 2; 2; 4; 8; 16; 4;
             2; 4; 8; 16; 8; 2; 4; 8; 16]%Z
    /\ pool w' = None.
Proof.
  intros Hpool. cbn [seq main.max_retries main.startup_for].
  destruct (@startup_attempt_unreachable 1 1 w Hpool)
    as (w1 & H1 & Hc1 & Hs1 & Hp1); [discriminate|].
  rewrite bind_run, H1. cbv beta iota.
  destruct (@startup_attempt_unreachable 2 (Z.min (1 * 2) 10) w1 Hp1)
    as (w2 & H2 & Hc2 & Hs2 & Hp2); [discriminate|].
  rewrite bind_run, H2. cbv beta iota.
  destruct (@startup_attempt_unreachable 3
              (Z.min (Z.min (1 * 2) 10 * 2) 10) w2 Hp2)
    as (w3 & H3 & Hc3 & Hs3 & Hp3); [discriminate|].
  rewrite bind_run, H3. cbv beta iota.
  destruct (@startup_attempt_unreachable 4
              (Z.min (Z.min (Z.min (1 * 2) 10 * 2) 10 * 2) 10) w3 Hp3)
    as (w4 & H4 & Hc4 & Hs4 & Hp4); [discriminate|].
  rewrite bind_run, H4. cbv beta iota.
  destruct (@startup_last_unreachable
              (Z.min (Z.min (Z.min (Z.min (1 * 2) 10 * 2) 10 * 2) 10 * 2) 10)
              w4 Hp4)
    as (code & w5 & H5 & Hc5 & Hs5 & Hp5).
  change (main.startup_attempt E 5)
    with (main.startup_attempt E main.max_retries).
  rewrite bind_run, H5.
  exists code, w5. split; [reflexivity|].
  rewrite Hc5, Hc4, Hc3, Hc2, Hc1, Hs5, Hs4, Hs3, Hs2, Hs1.
  rewrite <- !app_assoc.
  split; [lia|]. split; [reflexivity | exact Hp5].
Qed.

End Unreachable.

(** X16.  The start-up loop of [main.py] wraps the retry loop of [init_db]
    in a second one: against a database that cannot be reached (and with
    [logging] and [asyncio] bound in [app/database.py]) its five turns make
    twenty-five attempts to create the pool, sleep 1, 2, 4 and 8 seconds
    between the turns on top of the 2, 4, 8 and 16 seconds inside each, and
    raise the failure of the last attempt; the cap of 10 seconds on the
    delay is never reached. *)
Theorem startup_loop_retries (E : Env) (w : World) (port_ max_ : Z) :
  bound E Database "logging" = true ->
  bound E Database "asyncio" = true ->
  int_of_str E (match environ E "DB_PORT" with Some v => v | None => "5432" end)
  = Some port_ ->
  int_of_str E (match environ E "DB_MAX_CONNECTIONS" with
                | Some v => v | None => "20" end) = Some max_ ->
  (forall n, create_pool_reply E n <> None) ->
  pool w = None ->
  exists code w',
    run (main.startup_for E (seq 1 main.max_retries) 1) w
    = (Raise (DriverError code), w')
    /\ count is_create_pool (trace w') = count is_create_pool (trace w) + 25
    /\ sleeps (trace w')
       = sleeps (trace w)
         ++ [2; 4; 8; 16; 1; 2; 4; 8; 16; 2; 2; 4; 8; 16; 4;
             2; 4; 8; 16; 8; 2; 4; 8; 16]%Z
    /\ pool w' = None.
Proof.
  intros Hlog Hasyncio Hport Hmax Hfail Hpool.
  exact (@startup_for_unreachable E port_ max_ Hlog Hasyncio Hport Hmax Hfail
           w Hpool).
Qed.

Lemma startup_loop_retries_witness :
  exists code w',
    run (main.startup_for imported_unreachable (seq 1 main.max_retries) 1)
        fresh
    = (Raise (DriverError code), w')
    /\ count is_create_pool (trace w') = 25
    /\ sleeps (trace w')
       = [2; 4; 8; 16; 1; 2; 4; 8; 16; 2; 2; 4; 8; 16; 4;
          2; 4; 8; 16; 8; 2; 4; 8; 16]%Z
    /\ pool w' = None.
Proof.
  apply (@startup_loop_retries imported_unreachable fresh 5432%Z 20%Z).
  - reflexivity.
  - reflexivity.
  - reflexivity.
  - reflexivity.
  - intros n. discriminate.
  - reflexivity.
Defined.

(** X17.  [_startup] in a module that does not bind [os] (as
    [app/main.py] is written): the first [os.getenv] raises [NameError]
    inside the outer [try], so the hook logs its first record and the two
    error records and returns; it never calls [init_db] and starts no
    background task, whatever the state of the database. *)
Theorem startup_stops_at_getenv (E : Env) (w : World) :
  bound E Main "os" = false ->
  run (main._startup E) w
  = (Ok tt, recorded w [ELog INFO; ELog ERROR; ELog ERROR]).
Proof.
  intros Hos. unfold run, main._startup, main.startup_body, getLogger.
  rewrite bind_global by (simpl; tauto).
  rewrite run_try_except, bind_log, bind_getenv, Hos.
  simpl (is_Exception _). cbv iota.
  rewrite bind_log. unfold log, emit, recorded. norm.
  now rewrite <- !app_assoc.
Qed.

Lemma startup_stops_at_getenv_witness :
  run (main._startup written) fresh
  = (Ok tt, mkWorld None [] [] [ELog INFO; ELog ERROR; ELog ERROR] 0 0 0).
Proof.
  apply (@startup_stops_at_getenv written fresh). reflexivity.
Defined.

(** X18.  [_startup] when [os] is bound and the first call of [init_db]
    returns: the hook creates one task for the sampler, appends it to
    [_background_tasks], and returns; the pool is the one [init_db]
    left. *)
Theorem startup_starts_sampler (E : Env) (w w1 : World) :
  bound E Main "os" = true ->
  run (database.init_db E) (recorded w [ELog INFO; ELog INFO; ELog INFO])
  = (Ok tt, w1) ->
  run (main._startup E) w
  = (Ok tt,
     mkWorld (pool w1)
             (_background_tasks w1 ++ [List.length (tasks w1)])
             (tasks w1 ++ [Running])
             (trace w1 ++ [ELog INFO; ELog INFO;
                           ECreateTask (List.length (tasks w1));
                           ELog INFO; ELog INFO])
             (clock_reads w1) (pools_requested w1) (db_requests w1)).
Proof.
  intros Hos Hinit. unfold run in *.
  unfold main._startup, main.startup_body, getLogger.
  rewrite bind_global by (simpl; tauto).
  rewrite run_try_except, bind_log.
  rewrite bind_getenv, Hos. rewrite bind_getenv, Hos. rewrite bind_log.
  cbn [seq main.max_retries main.startup_for].
  unfold main.startup_attempt at 1.
  rewrite !bind_bind, bind_try_except, run_try_except.
  rewrite bind_log, bind_run.
  unfold recorded in *. norm. rewrite <- !app_assoc. simpl app.
  rewrite Hinit. rewrite bind_log, run_ret. norm.
  rewrite bind_ret. rewrite bind_log.
  unfold create_task. rewrite bind_bind.
  rewrite bind_global by (simpl; tauto).
  rewrite bind_run. norm.
  unfold main.append_task. rewrite bind_run. norm.
  rewrite bind_log. unfold log, emit, recorded. norm.
  now rewrite <- !app_assoc.
Qed.

Lemma startup_starts_sampler_witness :
  run (main._startup imported) fresh
  = (Ok tt,
     mkWorld (Some (mkPool 0 20)) [0] [Running]
       [ELog INFO; ELog INFO; ELog INFO; ELog INFO; ELog INFO;
        ECreatePool (config_of imported 5432 20);
        EPoolOpened (mkPool 0 20); EProbe (mkPool 0 20);
        ESet db_connections_active 20; ELog INFO;
        ELog INFO; ELog INFO; ECreateTask 0; ELog INFO; ELog INFO]
       0 1 0).
Proof.
  apply (@startup_starts_sampler imported fresh
           (mkWorld (Some (mkPool 0 20)) [] []
              [ELog INFO; ELog INFO; ELog INFO; ELog INFO; ELog INFO;
               ECreatePool (config_of imported 5432 20);
               EPoolOpened (mkPool 0 20); EProbe (mkPool 0 20);
               ESet db_connections_active 20; ELog INFO]
              0 1 0)).
  - reflexivity.
  - reflexivity.
Defined.

Lemma nth_error_set_nth (l : list TaskState) (s : TaskState) :
  forall i j,
    nth_error (set_nth l i s) j
    = if (i =? j)%nat
      then match nth_error l j with Some _ => Some s | None => None end
      else nth_error l j.
Proof.
  induction l as [|x l IH]; intros [|i] [|j]; simpl; try reflexivity.
  - now destruct (i =? j)%nat.
  - apply IH.
Qed.

Lemma nth_error_cancel_one (l : list TaskState) (t j : nat) :
  nth_error (cancel_one l t) j
  = match nth_error l j with
    | Some Running => if (t =? j)%nat then Some Cancelled else Some Running
    | other => other
    end.
Proof.
  unfold cancel_one.
  destruct (nth_error l t) as [[| |e]|] eqn:Ht.
  - rewrite nth_error_set_nth.
    destruct (t =? j)%nat eqn:Htj.
    + apply Nat.eqb_eq in Htj. subst j. now rewrite Ht.
    + now destruct (nth_error l j) as [[| |?]|].
  - destruct (nth_error l j) as [[| |?]|] eqn:Hj; try reflexivity.
    destruct (t =? j)%nat eqn:Htj; [|reflexivity].
    apply Nat.eqb_eq in Htj. subst j. congruence.
  - destruct (nth_error l j) as [[| |?]|] eqn:Hj; try reflexivity.
    destruct (t =? j)%nat eqn:Htj; [|reflexivity].
    apply Nat.eqb_eq in Htj. subst j. congruence.
  - destruct (nth_error l j) as [[| |?]|] eqn:Hj; try reflexivity.
    destruct (t =? j)%nat eqn:Htj; [|reflexivity].
    apply Nat.eqb_eq in Htj. subst j. congruence.
Qed.

Lemma raises_on_await_cancel_one (l : list TaskState) (t j : nat) :
  raises_on_await (cancel_one l t) j = raises_on_await l j.
Proof.
  unfold raises_on_await. rewrite nth_error_cancel_one.
  destruct (nth_error l j) as [[| |?]|]; try reflexivity.
  now destruct (t =? j)%nat.
Qed.

Lemma cancel_all_keeps_cancelled (ts : list nat) :
  forall l t,
    nth_error l t = Some Cancelled ->
    nth_error (cancel_all ts l) t = Some Cancelled.
Proof.
  induction ts as [|a ts IH]; intros l t Ht; [exact Ht|].
  apply IH. rewrite nth_error_cancel_one. now rewrite Ht.
Qed.

Lemma cancel_all_cancels (ts : list nat) :
  forall l t,
    In t ts -> nth_error l t = Some Running ->
    nth_error (cancel_all ts l) t = Some Cancelled.
Proof.
  induction ts as [|a ts IH]; intros l t Hin Ht; [contradiction|].
  cbn [cancel_all fold_left]. fold (cancel_all ts (cancel_one l a)).
  destruct (Nat.eq_dec a t) as [->|Hne].
  - apply cancel_all_keeps_cancelled.
    rewrite nth_error_cancel_one, Ht. now rewrite Nat.eqb_refl.
  - destruct Hin as [Heq|Hin]; [contradiction|].
    apply IH; [exact Hin|].
    rewrite nth_error_cancel_one, Ht.
    replace (a =? t)%nat with false by (symmetry; now apply Nat.eqb_neq).
    reflexivity.
Qed.

Lemma cancel_all_elsewhere (ts : list nat) :
  forall l t, ~ In t ts -> nth_error (cancel_all ts l) t = nth_error l t.
Proof.
  induction ts as [|a ts IH]; intros l t Hnin; [reflexivity|].
  cbn [cancel_all fold_left]. fold (cancel_all ts (cancel_one l a)).
  rewrite IH by (intros H; apply Hnin; now right).
  rewrite nth_error_cancel_one.
  destruct (nth_error l t) as [[| |?]|]; try reflexivity.
  replace (a =? t)%nat with false; [reflexivity|].
  symmetry. apply Nat.eqb_neq. intros ->. apply Hnin. now left.
Qed.

Lemma raises_on_await_cancel_all (ts : list nat) :
  forall l j, raises_on_await (cancel_all ts l) j = raises_on_await l j.
Proof.
  induction ts as [|a ts IH]; intros l j; [reflexivity|].
  cbn [cancel_all fold_left]. fold (cancel_all ts (cancel_one l a)).
  now rewrite IH, raises_on_await_cancel_one.
Qed.

(** One turn of the loop of [_shutdown]. *)
Lemma shutdown_turn (E : Env) (t : nat) (rest : list nat) (w : World) :
  main.shutdown_for E (t :: rest) w
  = match raises_on_await (tasks w) t with
    | None =>
        main.shutdown_for E rest
          (mkWorld (pool w) (_background_tasks w) (cancel_one (tasks w) t)
                   (trace w ++ [ECancel t; EAwait t]) (clock_reads w)
                   (pools_requested w) (db_requests w))
    | Some e =>
        (Raise e,
         mkWorld (pool w) (_background_tasks w) (cancel_one (tasks w) t)
                 (trace w ++ [ECancel t; EAwait t]) (clock_reads w)
                 (pools_requested w) (db_requests w))
    end.
Proof.
  cbn [main.shutdown_for].
  unfold task_cancel. rewrite bind_bind, bind_emit. norm.
  unfold raises_on_await, cancel_one.
  rewrite bind_run. norm.
  destruct (nth_error (tasks w) t) as [[| |e]|] eqn:Ht; norm;
    rewrite !bind_global by (simpl; tauto);
    rewrite bind_try_except, run_try_except;
    unfold task_await; rewrite bind_emit; unfold recorded; norm;
    rewrite <- ?app_assoc; simpl app.
  - rewrite nth_error_set_nth, Nat.eqb_refl, Ht.
    simpl (is_CancelledError _). cbv iota. rewrite run_ret. reflexivity.
  - rewrite Ht. simpl (is_CancelledError _). cbv iota. rewrite run_ret.
    reflexivity.
  - rewrite Ht. destruct (is_CancelledError e); [rewrite run_ret|];
      reflexivity.
  - rewrite Ht. reflexivity.
Qed.

Lemma shutdown_for_run (E : Env) (ts : list nat) :
  forall w,
    (forall t, In t ts -> raises_on_await (tasks w) t = None) ->
    main.shutdown_for E ts w
    = (Ok tt,
       mkWorld (pool w) (_background_tasks w) (cancel_all ts (tasks w))
               (trace w ++ shutdown_events ts) (clock_reads w)
               (pools_requested w) (db_requests w)).
Proof.
  induction ts as [|t ts IH]; intros w Hok.
  - cbn [main.shutdown_for shutdown_events flat_map cancel_all fold_left].
    rewrite app_nil_r. now destruct w.
  - rewrite shutdown_turn, (Hok t) by now left.
    rewrite IH.
    + norm. cbn [shutdown_events flat_map cancel_all fold_left].
      now rewrite <- !app_assoc.
    + intros t' Hin. norm. rewrite raises_on_await_cancel_one.
      apply Hok. now right.
Qed.

Lemma shutdown_for_app (E : Env) (a b : list nat) :
  forall w,
    main.shutdown_for E (a ++ b) w
    = match main.shutdown_for E a w with
      | (Ok _, w1) => main.shutdown_for E b w1
      | (Raise e, w1) => (Raise e, w1)
      end.
Proof.
  induction a as [|t a IH]; intros w; [reflexivity|].
  rewrite <- app_comm_cons. rewrite !shutdown_turn.
  destruct (raises_on_await (tasks w) t); [reflexivity|]. apply IH.
Qed.

(** X19.  [_shutdown] when no task of [_background_tasks] has crashed:
    every task of the list is cancelled and awaited in the order of the
    list, the cancellation each [await] raises is suppressed, one record is
    logged and the hook returns.  The tasks of the list that were running
    are cancelled afterwards, the other tasks are as before, and the list
    itself is not emptied. *)
Theorem shutdown_cancels_tasks (E : Env) (w : World) :
  (forall t, In t (_background_tasks w) ->
             raises_on_await (tasks w) t = None) ->
  run (main._shutdown E) w
  = (Ok tt,
     mkWorld (pool w) (_background_tasks w)
             (cancel_all (_background_tasks w) (tasks w))
             (trace w ++ shutdown_events (_background_tasks w) ++ [ELog INFO])
             (clock_reads w) (pools_requested w) (db_requests w))
  /\ (forall t, In t (_background_tasks w) ->
                nth_error (tasks w) t = Some Running ->
                nth_error (cancel_all (_background_tasks w) (tasks w)) t
                = Some Cancelled)
  /\ (forall t, ~ In t (_background_tasks w) ->
                nth_error (cancel_all (_background_tasks w) (tasks w)) t
                = nth_error (tasks w) t).
Proof.
  intros Hok. split; [|split].
  - unfold run, main._shutdown, main.get_tasks. rewrite bind_run. norm.
    rewrite bind_run, shutdown_for_run by exact Hok.
    unfold log, emit. norm. now rewrite <- !app_assoc.
  - intros t. apply cancel_all_cancels.
  - intros t. apply cancel_all_elsewhere.
Qed.

Lemma shutdown_cancels_tasks_witness :
  run (main._shutdown written) serving
  = (Ok tt,
     mkWorld (Some (mkPool 0 20)) [0] [Cancelled]
             [ECancel 0; EAwait 0; ELog INFO] 0 1 0).
Proof.
  refine (proj1 (@shutdown_cancels_tasks written serving _)).
  intros t Hin. destruct Hin as [<-|[]]. reflexivity.
Defined.

(** X20.  [_shutdown] suppresses the cancellation only: when a task of the
    list has ended with another exception, awaiting it raises that
    exception out of the hook.  The tasks before it in the list have been
    cancelled and awaited; the tasks after it are neither cancelled nor
    awaited, and the closing record is not logged. *)
Theorem shutdown_stops_at_crashed_task (E : Env) (w : World)
    (before rest : list nat) (t : nat) (e : Exc) :
  _background_tasks w = before ++ t :: rest ->
  (forall t', In t' before -> raises_on_await (tasks w) t' = None) ->
  nth_error (tasks w) t = Some (Crashed e) ->
  is_CancelledError e = false ->
  run (main._shutdown E) w
  = (Raise e,
     mkWorld (pool w) (_background_tasks w) (cancel_all before (tasks w))
             (trace w ++ shutdown_events before ++ [ECancel t; EAwait t])
             (clock_reads w) (pools_requested w) (db_requests w))
  /\ (forall t', ~ In t' before ->
                 nth_error (cancel_all before (tasks w)) t'
                 = nth_error (tasks w) t').
Proof.
  intros Hlist Hok Hcrashed Hexc. split.
  - unfold run, main._shutdown, main.get_tasks. rewrite bind_run. norm.
    rewrite bind_run, Hlist, shutdown_for_app.
    rewrite shutdown_for_run by exact Hok.
    rewrite shutdown_turn. norm.
    rewrite raises_on_await_cancel_all.
    unfold raises_on_await. rewrite Hcrashed, Hexc.
    unfold cancel_one.
    assert (Hkept : nth_error (cancel_all before (tasks w)) t
                    = Some (Crashed e)).
    { clear - Hcrashed. revert Hcrashed. generalize (tasks w).
      induction before as [|a before IH]; intros l Hl; [exact Hl|].
      apply IH. rewrite nth_error_cancel_one. now rewrite Hl. }
    rewrite Hkept. now rewrite <- Hlist, <- !app_assoc.
  - intros t'. apply cancel_all_elsewhere.
Qed.

Lemma shutdown_stops_at_crashed_task_witness :
  run (main._shutdown written) three_tasks
  = (Raise (DriverError 9),
     mkWorld (Some (mkPool 0 20)) [0; 1; 2]
             [Cancelled; Crashed (DriverError 9); Running]
             [ECancel 0; EAwait 0; ECancel 1; EAwait 1] 0 1 0).
Proof.
  refine (proj1 (@shutdown_stops_at_crashed_task written three_tasks
                   [0] [2] 1 (DriverError 9) eq_refl _ eq_refl eq_refl)).
  intros t' Hin. destruct Hin as [<-|[]]. reflexivity.
Defined.

(* ===================================================================== *)
(** ** Further properties: the validator and the sampler *)
(* ===================================================================== *)

Lemma blank_cons (c : ascii) (s : string) :
  blank (String c s) = Py.isspace c && blank s.
Proof.
  unfold blank. simpl. now destruct (Py.isspace c).
Qed.

Lemma rstrip_empty (s : string) :
  validators.rstrip s = EmptyString <-> blank s = true.
Proof.
  induction s as [|c s IH]; [now split|].
  rewrite blank_cons. cbn [validators.rstrip].
  destruct (validators.rstrip s) as [|c' r] eqn:Hr.
  - destruct (Py.isspace c); simpl.
    + split; intros _; [now apply IH | reflexivity].
    + split; discriminate.
  - split; [discriminate|].
    intros H. apply andb_true_iff in H as [_ H]. apply IH in H.
    discriminate.
Qed.

Lemma rstrip_not_blank (c : ascii) (s : string) :
  blank s = false ->
  validators.rstrip (String c s) = String c (validators.rstrip s).
Proof.
  intros Hb. cbn [validators.rstrip].
  destruct (validators.rstrip s) as [|c' r] eqn:Hr; [|reflexivity].
  apply rstrip_empty in Hr. congruence.
Qed.

Lemma space_is_space : Py.isspace " " = true.
Proof. reflexivity. Qed.

Lemma eqb_space_isspace (c : ascii) :
  Ascii.eqb c " " = true -> Py.isspace c = true.
Proof. intros H. apply Ascii.eqb_eq in H. now subst c. Qed.

Lemma blank_app_false (a b : string) :
  blank b = false -> blank (a ++ b) = false.
Proof.
  intros Hb. induction a as [|c a IH]; [exact Hb|].
  simpl. rewrite blank_cons, IH. apply andb_false_r.
Qed.

(** A space survives [rstrip] when something other than whitespace
    follows it. *)
Lemma has_space_rstrip (s : string) :
  validators.has_space (validators.rstrip s) = true
  <-> exists a b, s = (a ++ String " " b)%string /\ blank b = false.
Proof.
  induction s as [|c s IH].
  - split; [discriminate|]. intros (a & b & H & _).
    destruct a; discriminate.
  - split.
    + intros H. destruct (blank s) eqn:Hb.
      * exfalso. cbn [validators.rstrip] in H.
        apply rstrip_empty in Hb. rewrite Hb in H.
        destruct (Py.isspace c) eqn:Hc; [discriminate|].
        simpl in H. rewrite orb_false_r in H.
        apply eqb_space_isspace in H. congruence.
      * rewrite rstrip_not_blank in H by exact Hb.
        cbn [validators.has_space] in H. apply orb_true_iff in H as [H|H].
        -- apply Ascii.eqb_eq in H. subst c.
           exists EmptyString, s. now split.
        -- apply IH in H as (a & b & -> & Hb').
           exists (String c a), b. now split.
    + intros (a & b & Heq & Hb).
      assert (Hs : blank s = false).
      { destruct a as [|c' a]; simpl in Heq; injection Heq as _ ->.
        - exact Hb.
        - apply blank_app_false. rewrite blank_cons, Hb. apply andb_false_r. }
      rewrite rstrip_not_blank by exact Hs.
      cbn [validators.has_space]. apply orb_true_iff.
      destruct a as [|c' a]; simpl in Heq; injection Heq as -> ->.
      * now left.
      * right. apply IH. now exists a, b.
Qed.

Lemma skip_space_app (a t : string) :
  blank a = false -> skip_space (a ++ t) = (skip_space a ++ t)%string.
Proof.
  induction a as [|c a IH]; [discriminate|].
  rewrite blank_cons. simpl. destruct (Py.isspace c); simpl; [exact IH|].
  reflexivity.
Qed.

Lemma skip_space_suffix (s : string) :
  exists ws, s = (ws ++ skip_space s)%string /\ blank ws = true.
Proof.
  induction s as [|c s (ws & Hs & Hws)].
  - now exists EmptyString.
  - simpl. destruct (Py.isspace c) eqn:Hc.
    + exists (String c ws). simpl. rewrite <- Hs. split; [reflexivity|].
      now rewrite blank_cons, Hc, Hws.
    + now exists EmptyString.
Qed.

Lemma blank_skip_space (s : string) : blank (skip_space s) = blank s.
Proof.
  induction s as [|c s IH]; [reflexivity|].
  rewrite blank_cons. simpl. destruct (Py.isspace c) eqn:Hc; [exact IH|].
  now rewrite blank_cons, Hc.
Qed.

Lemma blank_app_left (a b : string) :
  blank a = false -> blank (a ++ b) = false.
Proof.
  induction a as [|c a IH]; [discriminate|].
  rewrite blank_cons. simpl. rewrite blank_cons.
  destruct (Py.isspace c); simpl; [exact IH | reflexivity].
Qed.

Lemma append_assoc (a b c : string) :
  ((a ++ b) ++ c)%string = (a ++ (b ++ c))%string.
Proof.
  induction a as [|x a IH]; [reflexivity|]. simpl. now rewrite IH.
Qed.

Lemma strip_has_space (v : string) :
  validators.has_space (validators.strip v) = true <-> has_inner_space v.
Proof.
  unfold validators.strip, has_inner_space. rewrite has_space_rstrip. split.
  - intros (a & b & Heq & Hb).
    destruct (skip_space_suffix v) as (ws & Hv & Hws).
    exists (ws ++ a)%string, b. split; [|split; [|exact Hb]].
    + rewrite Hv at 1. rewrite Heq. now rewrite append_assoc.
    + destruct a as [|c a].
      * exfalso. simpl in Heq.
        apply skip_space_head in Heq. discriminate.
      * apply blank_app_false. rewrite blank_cons.
        simpl in Heq. apply skip_space_head in Heq. now rewrite Heq.
  - intros (a & b & -> & Ha & Hb).
    exists (skip_space a), b. split; [|exact Hb].
    now apply skip_space_app.
Qed.

(** X21.  The validator of the field [name] accepts exactly the names that
    hold a space (U+0020) with something other than whitespace before it and
    after it: the test is made on the stripped name, so a space at either
    end does not count, and neither does other whitespace between two
    words.  An accepted name is returned in title case, unstripped; a
    rejected one raises [ValueError]. *)
Theorem name_must_contain_space_accepts (title : string -> string)
    (v : string) :
  (has_inner_space v ->
   validators.name_must_contain_space title v = Ok (title v))
  /\ (~ has_inner_space v ->
      validators.name_must_contain_space title v
      = Raise (ValueError "Name must contain at least one space")).
Proof.
  unfold validators.name_must_contain_space. split; intros H.
  - apply strip_has_space in H. now rewrite H.
  - destruct (validators.has_space (validators.strip v)) eqn:Hs;
      [|reflexivity].
    apply strip_has_space in Hs. contradiction.
Qed.

Lemma name_must_contain_space_accepts_witness :
  validators.name_must_contain_space Py.lower "John Doe" = Ok "john doe".
Proof.
  apply (proj1 (name_must_contain_space_accepts Py.lower "John Doe")).
  exists "John", "Doe". repeat split.
Defined.

(** The names of the example of the schema, of a name without a family
    name, and of two words with a tab between them. *)
Example name_examples :
  validators.name_must_contain_space Py.lower "John Doe" = Ok "john doe"
  /\ validators.name_must_contain_space Py.lower " John "
     = Raise (ValueError "Name must contain at least one space")
  /\ validators.name_must_contain_space Py.lower
       (String "J" (String (ascii_of_nat 9) "D"))
     = Raise (ValueError "Name must contain at least one space").
Proof. repeat split. Qed.

Lemma sample_run (E : Env) (cpu_percent : nat -> Z) (interval_seconds : Z)
    (iterations : nat) :
  labelnames E process_cpu_percentage = [] ->
  forall (reading : nat) (w : World),
    system_metrics.sample E cpu_percent interval_seconds iterations reading w
    = (Ok tt,
       recorded w (samples cpu_percent interval_seconds iterations reading)).
Proof.
  intros Hgauge. induction iterations as [|n IH]; intros reading w.
  - cbn [system_metrics.sample samples]. unfold recorded.
    rewrite app_nil_r. now destruct w.
  - cbn [system_metrics.sample samples]. rewrite bind_emit.
    rewrite bind_run, run_gauge_set by exact Hgauge. norm.
    rewrite IH. unfold recorded. norm. now rewrite <- !app_assoc.
Qed.

Lemma count_samples (cpu_percent : nat -> Z) (interval_seconds : Z)
    (n : nat) :
  forall k,
    sleeps (samples cpu_percent interval_seconds n k)
    = repeat interval_seconds n
    /\ (forall v, In (ESet process_cpu_percentage v)
                     (samples cpu_percent interval_seconds n k) ->
                  exists i, (k <= i < k + n)%nat /\ v = cpu_percent i).
Proof.
  induction n as [|n IH]; intros k; [split; [reflexivity | contradiction]|].
  cbn [samples]. destruct (IH (S k)) as [Hs Hin]. split.
  - simpl. now rewrite Hs.
  - intros v [H|[H|H]]; [discriminate| |].
    + injection H as <-. exists k. split; [lia | reflexivity].
    + destruct (Hin v H) as (i & Hi & ->). exists i. split; [lia|reflexivity].
Qed.

(** X22.  The sampler [collect_cpu_percent], up to the end of turn [n] of
    its endless loop: with the gauge declared without labels it has slept
    the interval [n] times and, after each sleep, set the gauge to the next
    reading of [cpu_percent]; the reading taken before the loop (the
    baseline) is never written.  With the gauge declared with labels the
    first [set] raises [ValueError] after one sleep, which ends the
    task. *)
Theorem collect_cpu_percent_samples (E : Env) (cpu_percent : nat -> Z)
    (interval_seconds : Z) (n : nat) (w : World) :
  (labelnames E process_cpu_percentage = [] ->
   run (system_metrics.collect_cpu_percent E cpu_percent interval_seconds n) w
   = (Ok tt, recorded w (samples cpu_percent interval_seconds n 1))
   /\ sleeps (samples cpu_percent interval_seconds n 1)
      = repeat interval_seconds n
   /\ forall v, In (ESet process_cpu_percentage v)
                   (samples cpu_percent interval_seconds n 1) ->
                exists i, (1 <= i <= n)%nat /\ v = cpu_percent i)
  /\ (labelnames E process_cpu_percentage <> [] ->
      exists msg,
        run (system_metrics.collect_cpu_percent E cpu_percent
               interval_seconds (S n)) w
        = (Raise (ValueError msg), recorded w [ESleep interval_seconds])).
Proof.
  split.
  - intros Hgauge. split; [|split].
    + unfold run, system_metrics.collect_cpu_percent.
      now apply sample_run.
    + apply count_samples.
    + intros v Hin.
      destruct (proj2 (count_samples cpu_percent interval_seconds n 1) v Hin)
        as (i & Hi & ->).
      exists i. split; [lia | reflexivity].
  - intros Hgauge. unfold run, system_metrics.collect_cpu_percent.
    cbn [system_metrics.sample]. rewrite bind_emit, bind_run.
    unfold gauge_set.
    destruct (labelnames E process_cpu_percentage); [contradiction|].
    eexists. reflexivity.
Qed.

Lemma collect_cpu_percent_samples_witness :
  run (system_metrics.collect_cpu_percent written
         (fun k => (10 * Z.of_nat k)%Z) 5 2) fresh
  = (Ok tt,
     mkWorld None [] []
       [ESleep 5; ESet process_cpu_percentage 10;
        ESleep 5; ESet process_cpu_percentage 20] 0 0 0).
Proof.
  apply (proj1 (@collect_cpu_percent_samples written
                  (fun k => (10 * Z.of_nat k)%Z) 5%Z 2 fresh)).
  reflexivity.
Defined.
